(** * wedding_planner_service: authentication and request-authorization flow

    A shallow embedding of the Go sources
      - internal/auth/auth.go                    (package auth)
      - internal/server/middlewares/auth.go      (package middlewares)
      - internal/security/security.go            (package security)
      - the user controllers and the user repository
      - the methods of the models User and Wedding, package configs,
        the connection to the database and the parsing of an ID of the
        wedding controllers
    together with models of the parts of the Go standard library, gin,
    golang-jwt/jwt/v5, x/crypto/bcrypt and gorm that these sources call.

    Conventions.  A Go [string] and a Go [[]byte] are both a Rocq [string]
    (a sequence of 8-bit characters).  A Go [uint] is an [N], a Go [int] a
    [Z].  A [time.Time] is the number of nanoseconds since the Unix epoch, a
    [time.Duration] a number of nanoseconds.  A Go function returning
    [(T, error)] returns a [Result T]; a function returning [error] returns
    an [option error], [None] being Go's [nil]. *)

From Stdlib Require Import ZArith String Ascii List Lia Bool DecimalString DecimalPos
  DecimalN.
From stdpp Require Import base gmap strings list.

Open Scope Z_scope.

(* ===================================================================== *)
(** * Go strings *)
(* ===================================================================== *)

Definition byte (c : ascii) : Z := Z.of_N (N_of_ascii c).

(** [len(s)] *)
Definition len (s : string) : nat := String.length s.

(** [s[i]], for [i < len(s)] *)
Definition idx (s : string) (i : nat) : Z :=
  match String.get i s with
  | Some c => byte c
  | None => 0
  end.

(** [s[a:b]] and [s[a:]] *)
Definition slice (s : string) (a b : nat) : string := substring a (b - a) s.
Definition slice_from (s : string) (a : nat) : string := slice s a (len s).

Module utf8.

Definition RuneError : Z := 0xFFFD.
Definition RuneSelf : Z := 0x80.
Definition UTFMax : Z := 4.

(** [utf8.DecodeRuneInString]: the first rune of [s] and its width in
    bytes; an empty string gives [(RuneError, 0)], an encoding that is
    invalid or cut short gives [(RuneError, 1)].  The table [first] and the
    [acceptRanges] of the library are written out as comparisons on the
    leading byte. *)
Definition DecodeRuneInString (s : string) : Z * nat :=
  let n := len s in
  if (n <? 1)%nat then (RuneError, 0%nat)
  else
    let s0 := idx s 0 in
    if s0 <? RuneSelf then (s0, 1%nat)
    else if (s0 <? 0xC2) || (0xF4 <? s0) then (RuneError, 1%nat)
    else
      let sz : nat := if s0 <? 0xE0 then 2%nat else if s0 <? 0xF0 then 3%nat else 4%nat in
      let lo := if s0 =? 0xE0 then 0xA0 else if s0 =? 0xF0 then 0x90 else 0x80 in
      let hi := if s0 =? 0xED then 0x9F else if s0 =? 0xF4 then 0x8F else 0xBF in
      if (n <? sz)%nat then (RuneError, 1%nat)
      else
        let s1 := idx s 1 in
        if (s1 <? lo) || (hi <? s1) then (RuneError, 1%nat)
        else if (sz <=? 2)%nat then
          (Z.lor (Z.shiftl (Z.land s0 0x1F) 6) (Z.land s1 0x3F), 2%nat)
        else
          let s2 := idx s 2 in
          if (s2 <? 0x80) || (0xBF <? s2) then (RuneError, 1%nat)
          else if (sz <=? 3)%nat then
            (Z.lor (Z.lor (Z.shiftl (Z.land s0 0x0F) 12)
                          (Z.shiftl (Z.land s1 0x3F) 6))
                   (Z.land s2 0x3F), 3%nat)
          else
            let s3 := idx s 3 in
            if (s3 <? 0x80) || (0xBF <? s3) then (RuneError, 1%nat)
            else
              (Z.lor (Z.lor (Z.lor (Z.shiftl (Z.land s0 0x07) 18)
                                   (Z.shiftl (Z.land s1 0x3F) 12))
                            (Z.shiftl (Z.land s2 0x3F) 6))
                     (Z.land s3 0x3F), 4%nat).

(** [utf8.RuneStart]: the byte is not a continuation byte. *)
Definition RuneStart (b : Z) : bool := negb (Z.land b 0xC0 =? 0x80).

(** The backward scan of [DecodeLastRuneInString]:
    [for start--; start >= lim; start-- { if RuneStart(s[start]) break }],
    entered after the first [start--]. *)
Fixpoint scan_back (fuel : nat) (s : string) (start lim : Z) : Z :=
  match fuel with
  | O => start
  | S fuel' =>
    if start <? lim then start
    else if RuneStart (idx s (Z.to_nat start)) then start
    else scan_back fuel' s (start - 1) lim
  end.

(** [utf8.DecodeLastRuneInString] *)
Definition DecodeLastRuneInString (s : string) : Z * nat :=
  let end_ := Z.of_nat (len s) in
  if end_ =? 0 then (RuneError, 0%nat)
  else
    let start := end_ - 1 in
    let r := idx s (Z.to_nat start) in
    if r <? RuneSelf then (r, 1%nat)
    else
      let lim := Z.max 0 (end_ - UTFMax) in
      let start := scan_back 4 s (start - 1) lim in
      let start := Z.max 0 start in
      let '(r, size) := DecodeRuneInString (slice s (Z.to_nat start) (Z.to_nat end_)) in
      if negb (start + Z.of_nat size =? end_) then (RuneError, 1%nat)
      else (r, size).

(** [utf8.ValidString]: [s] consists of valid encodings only.  The
    encoding of U+FFFD itself has width 3, so an invalid byte is
    recognised by [(RuneError, 1)]. *)
Fixpoint valid_from (fuel : nat) (s : string) : bool :=
  match fuel with
  | O => true
  | S fuel' =>
    if (len s =? 0)%nat then true
    else
      let '(r, size) := DecodeRuneInString s in
      if (r =? RuneError) && (size =? 1)%nat then false
      else valid_from fuel' (slice_from s size)
  end.

Definition ValidString (s : string) : bool := valid_from (len s) s.

End utf8.

Module unicode.

Definition MaxLatin1 : Z := 0xFF.

(** The table [unicode.White_Space] outside Latin-1. *)
Definition White_Space_excludingLatin (r : Z) : bool :=
  (r =? 0x1680) || ((0x2000 <=? r) && (r <=? 0x200A)) ||
  (r =? 0x2028) || (r =? 0x2029) || (r =? 0x202F) || (r =? 0x205F) ||
  (r =? 0x3000).

(** [unicode.IsSpace] *)
Definition IsSpace (r : Z) : bool :=
  if (0 <=? r) && (r <=? MaxLatin1) then
    (r =? 0x09) || (r =? 0x0A) || (r =? 0x0B) || (r =? 0x0C) || (r =? 0x0D) ||
    (r =? 0x20) || (r =? 0x85) || (r =? 0xA0)
  else White_Space_excludingLatin r.

End unicode.

Module gostrings.

(** [strings.HasPrefix(s, prefix)]:
    [len(s) >= len(prefix) && s[:len(prefix)] == prefix] *)
Definition HasPrefix (s prefix : string) : bool :=
  (len prefix <=? len s)%nat && String.eqb (slice s 0 (len prefix)) prefix.

(** The table [asciiSpace] of package strings. *)
Definition asciiSpace (c : Z) : Z :=
  if (c =? 0x09) || (c =? 0x0A) || (c =? 0x0B) || (c =? 0x0C) || (c =? 0x0D) ||
     (c =? 0x20)
  then 1 else 0.

(** [indexFunc(s, f, false)]: the byte index of the first rune of [s] that
    does not satisfy [f], or -1.  [i] is the offset of [s] in the string
    that is ranged over. *)
Fixpoint indexFunc_not (fuel : nat) (f : Z -> bool) (s : string) (i : Z) : Z :=
  match fuel with
  | O => -1
  | S fuel' =>
    if (len s =? 0)%nat then -1
    else
      let '(r, size) := utf8.DecodeRuneInString s in
      if negb (f r) then i
      else indexFunc_not fuel' f (slice_from s size) (i + Z.of_nat size)
  end.

(** [lastIndexFunc(s, f, false)]:
    [for i := len(s); i > 0; { r, size := DecodeLastRuneInString(s[0:i]);
       i -= size; if f(r) == false { return i } }; return -1] *)
Fixpoint lastIndexFunc_not (fuel : nat) (f : Z -> bool) (s : string) (i : Z) : Z :=
  match fuel with
  | O => -1
  | S fuel' =>
    if i <=? 0 then -1
    else
      let '(r, size) := utf8.DecodeLastRuneInString (slice s 0 (Z.to_nat i)) in
      let i := i - Z.of_nat size in
      if negb (f r) then i
      else lastIndexFunc_not fuel' f s i
  end.

(** [strings.TrimLeftFunc] *)
Definition TrimLeftFunc (s : string) (f : Z -> bool) : string :=
  let i := indexFunc_not (len s) f s 0 in
  if i =? -1 then EmptyString else slice_from s (Z.to_nat i).

(** [strings.TrimRightFunc] *)
Definition TrimRightFunc (s : string) (f : Z -> bool) : string :=
  let i := lastIndexFunc_not (len s) f s (Z.of_nat (len s)) in
  let i :=
    if (0 <=? i) && (utf8.RuneSelf <=? idx s (Z.to_nat i)) then
      let '(_, wid) := utf8.DecodeRuneInString (slice_from s (Z.to_nat i)) in
      i + Z.of_nat wid
    else i + 1 in
  slice s 0 (Z.to_nat i).

(** [strings.TrimFunc] *)
Definition TrimFunc (s : string) (f : Z -> bool) : string :=
  TrimRightFunc (TrimLeftFunc s f) f.

(** The first loop of [strings.TrimSpace]: [inl start] when the loop ends
    with that [start], [inr r] when it returns [r] from inside the loop. *)
Fixpoint TrimSpace_start (fuel : nat) (s : string) (start : nat) : nat + string :=
  match fuel with
  | O => inl start
  | S fuel' =>
    if (start <? len s)%nat then
      let c := idx s start in
      if utf8.RuneSelf <=? c then inr (TrimFunc (slice_from s start) unicode.IsSpace)
      else if asciiSpace c =? 0 then inl start
      else TrimSpace_start fuel' s (S start)
    else inl start
  end.

(** The second loop of [strings.TrimSpace]. *)
Fixpoint TrimSpace_stop (fuel : nat) (s : string) (start stop : nat) : nat + string :=
  match fuel with
  | O => inl stop
  | S fuel' =>
    if (start <? stop)%nat then
      let c := idx s (stop - 1) in
      if utf8.RuneSelf <=? c then inr (TrimRightFunc (slice s start stop) unicode.IsSpace)
      else if asciiSpace c =? 0 then inl stop
      else TrimSpace_stop fuel' s start (stop - 1)
    else inl stop
  end.

(** [strings.TrimSpace] *)
Definition TrimSpace (s : string) : string :=
  match TrimSpace_start (S (len s)) s 0 with
  | inr r => r
  | inl start =>
    match TrimSpace_stop (S (len s)) s start (len s) with
    | inr r => r
    | inl stop => slice s start stop
    end
  end.

(** [strings.Index(s, substr)]: the index of the first instance of
    [substr] in [s], or -1. *)
Fixpoint Index (s substr : string) : Z :=
  if HasPrefix s substr then 0
  else
    match s with
    | EmptyString => -1
    | String _ s' =>
      let i := Index s' substr in
      if i =? -1 then -1 else i + 1
    end.

(** [strings.Contains(s, substr)]: [Index(s, substr) >= 0] *)
Definition Contains (s substr : string) : bool := 0 <=? Index s substr.

End gostrings.

(** [fmt.Sprintf("%d", n)] for an unsigned [n]. *)
Definition Sprintf_d (n : N) : string := NilEmpty.string_of_uint (N.to_uint n).

(** [fmt.Sprintf("%d", n)] for a signed [n]. *)
Definition Sprintf_d_int (n : Z) : string :=
  if n <? 0 then String "-" (Sprintf_d (Z.to_N (- n))) else Sprintf_d (Z.to_N n).

(** [strings.Split(s, sep)] for a separator of one byte. *)
Fixpoint Split (s : string) (sep : ascii) : list string :=
  match s with
  | EmptyString => [EmptyString]
  | String c s' =>
    if Ascii.eqb c sep then EmptyString :: Split s' sep
    else
      match Split s' sep with
      | [] => [String c EmptyString]
      | p :: ps => String c p :: ps
      end
  end.

(** [strings.Join(elems, sep)] *)
Fixpoint Join (elems : list string) (sep : string) : string :=
  match elems with
  | [] => EmptyString
  | [e] => e
  | e :: es => e +:+ sep +:+ Join es sep
  end.

(* ===================================================================== *)
(** * Go errors *)
(* ===================================================================== *)

(** An error value is either the value allocated by one [errors.New] call,
    or a value that carries a message and wraps other errors
    ([fmt.Errorf], with one [%w] verb for each wrapped error, and the joined
    errors of golang-jwt).  [errors.New] returns a fresh pointer at each
    call: the first argument of [errorString] names the package variable
    that holds the value and stands for that pointer, so that two
    variables with the same text are still different errors. *)
#[local] Set Warnings "-register-all".

Inductive error : Type :=
| errorString (var : string) (text : string)
| wrapError (msg : string) (errs : list error).

Inductive Result (A : Type) : Type :=
| Ok (a : A)
| Err (e : error).
Arguments Ok {A} a.
Arguments Err {A} e.

Module errors.

(** [err.Error()] *)
Definition Error (e : error) : string :=
  match e with
  | errorString _ text => text
  | wrapError msg _ => msg
  end.

(** [err == target], for a [target] that is a package variable.  A value
    made by [fmt.Errorf] is a fresh allocation and equals no variable. *)
Definition same (e target : error) : bool :=
  match e, target with
  | errorString v _, errorString v' _ => String.eqb v v'
  | _, _ => false
  end.

(** [errors.Is(err, target)]: [err] or an error it wraps, at any depth, is
    [target]. *)
Fixpoint Is (e target : error) : bool :=
  same e target ||
  match e with
  | errorString _ _ => false
  | wrapError _ errs =>
    (fix any (l : list error) : bool :=
       match l with
       | [] => false
       | e' :: l' => Is e' target || any l'
       end) errs
  end.

(** An error of some other package of which only the message matters. *)
Definition opaque (msg : string) : error := wrapError msg [].

End errors.

(* ===================================================================== *)
(** * Package time *)
(* ===================================================================== *)

Module time.

Definition Time := Z.
Definition Duration := Z.

Definition Nanosecond : Duration := 1.
Definition Microsecond : Duration := 1000 * Nanosecond.
Definition Millisecond : Duration := 1000 * Microsecond.
Definition Second : Duration := 1000 * Millisecond.
Definition Minute : Duration := 60 * Second.
Definition Hour : Duration := 60 * Minute.

Definition Add (t : Time) (d : Duration) : Time := t + d.
Definition Before (t u : Time) : bool := t <? u.

(** [t.Truncate(d)]: [t] rounded down to a multiple of [d]. *)
Definition Truncate (t : Time) (d : Duration) : Time := t - t mod d.

(** [d.Seconds()] converted to [int64], for a whole number of seconds. *)
Definition Seconds (d : Duration) : Z := d / Second.

(** The zero [Time], January 1 of the year 1, 00:00:00 UTC, and
    [t.IsZero()]. *)
Definition zero : Time := - 62135596800 * Second.
Definition IsZero (t : Time) : bool := t =? zero.

(** [t.After(u)] *)
Definition After (t u : Time) : bool := u <? t.

End time.

(* ===================================================================== *)
(** * golang-jwt/jwt/v5 *)
(* ===================================================================== *)

Module jwt.

(** ** Errors (errors.go) *)

Definition ErrInvalidKey := errorString "jwt.ErrInvalidKey" "key is invalid".
Definition ErrInvalidKeyType := errorString "jwt.ErrInvalidKeyType" "key is of invalid type".
Definition ErrTokenMalformed := errorString "jwt.ErrTokenMalformed" "token is malformed".
Definition ErrTokenUnverifiable := errorString "jwt.ErrTokenUnverifiable" "token is unverifiable".
Definition ErrTokenSignatureInvalid :=
  errorString "jwt.ErrTokenSignatureInvalid" "token signature is invalid".
Definition ErrTokenExpired := errorString "jwt.ErrTokenExpired" "token is expired".
Definition ErrTokenNotValidYet := errorString "jwt.ErrTokenNotValidYet" "token is not valid yet".
Definition ErrTokenInvalidClaims :=
  errorString "jwt.ErrTokenInvalidClaims" "token has invalid claims".
Definition ErrSignatureInvalid := errorString "jwt.ErrSignatureInvalid" "signature is invalid".
Definition NoneSignatureTypeDisallowedError :=
  errorString "jwt.NoneSignatureTypeDisallowedError" "'none' signature type is not allowed".

(** [joinErrors(errs...)]: the message is the messages joined by [", "],
    and every element is wrapped. *)
Definition joinErrors (errs : list error) : error :=
  wrapError (Join (map errors.Error errs) ", ") errs.

(** [newError(message, err, more...)]: [fmt.Errorf] with the format
    ["%w: %s"] (or ["%w"] for an empty message) followed by [": %w"] for
    each further error. *)
Definition newError (message : string) (err : error) (more : list error) : error :=
  let head :=
    if String.eqb message "" then errors.Error err
    else errors.Error err +:+ ": " +:+ message in
  wrapError
    (fold_left (fun acc e => acc +:+ ": " +:+ errors.Error e) more head)
    (err :: more).

(** ** Claims (types.go, registered_claims.go, claims.go) *)

(** A [NumericDate] is a time with the precision [TimePrecision], one
    second: it is kept as its number of seconds since the Unix epoch. *)
Definition NumericDate := Z.

Definition TimePrecision : time.Duration := time.Second.

(** [NewNumericDate(t)]: [t.Truncate(TimePrecision)] *)
Definition NewNumericDate (t : time.Time) : NumericDate :=
  time.Truncate t TimePrecision / TimePrecision.

(** The field [Time] of a [NumericDate]. *)
Definition Time_of (d : NumericDate) : time.Time := d * TimePrecision.

Record RegisteredClaims : Type := {
  Issuer : string;
  Subject : string;
  Audience : list string;
  ExpiresAt : option NumericDate;
  NotBefore : option NumericDate;
  IssuedAt : option NumericDate;
  ID : string
}.

(** The interface [Claims], as far as the validator uses it without
    options. *)
Class Claims (C : Type) : Type := {
  GetExpirationTime : C -> option NumericDate;
  GetNotBefore : C -> option NumericDate;
  GetIssuedAt : C -> option NumericDate
}.

#[global] Instance RegisteredClaims_Claims : Claims RegisteredClaims := {
  GetExpirationTime c := ExpiresAt c;
  GetNotBefore c := NotBefore c;
  GetIssuedAt c := IssuedAt c
}.

(** ** Signing methods (signing_method.go, hmac.go, ...) *)

Inductive Hash : Type := SHA256 | SHA384 | SHA512.

Inductive SigningMethod : Type :=
| SigningMethodHMAC (h : Hash)
| SigningMethodRSA (h : Hash)
| SigningMethodRSAPSS (h : Hash)
| SigningMethodECDSA (h : Hash)
| SigningMethodEd25519
| SigningMethodNone.

Definition SigningMethodHS256 := SigningMethodHMAC SHA256.
Definition SigningMethodHS384 := SigningMethodHMAC SHA384.
Definition SigningMethodHS512 := SigningMethodHMAC SHA512.

(** [m.Alg()] *)
Definition Alg (m : SigningMethod) : string :=
  match m with
  | SigningMethodHMAC SHA256 => "HS256"
  | SigningMethodHMAC SHA384 => "HS384"
  | SigningMethodHMAC SHA512 => "HS512"
  | SigningMethodRSA SHA256 => "RS256"
  | SigningMethodRSA SHA384 => "RS384"
  | SigningMethodRSA SHA512 => "RS512"
  | SigningMethodRSAPSS SHA256 => "PS256"
  | SigningMethodRSAPSS SHA384 => "PS384"
  | SigningMethodRSAPSS SHA512 => "PS512"
  | SigningMethodECDSA SHA256 => "ES256"
  | SigningMethodECDSA SHA384 => "ES384"
  | SigningMethodECDSA SHA512 => "ES512"
  | SigningMethodEd25519 => "EdDSA"
  | SigningMethodNone => "none"
  end.

(** The methods that the package registers in its [init] functions. *)
Definition signingMethods : list SigningMethod :=
  [ SigningMethodHMAC SHA256; SigningMethodHMAC SHA384; SigningMethodHMAC SHA512;
    SigningMethodRSA SHA256; SigningMethodRSA SHA384; SigningMethodRSA SHA512;
    SigningMethodRSAPSS SHA256; SigningMethodRSAPSS SHA384; SigningMethodRSAPSS SHA512;
    SigningMethodECDSA SHA256; SigningMethodECDSA SHA384; SigningMethodECDSA SHA512;
    SigningMethodEd25519; SigningMethodNone ].

(** [GetSigningMethod(alg)]: [nil] for a name that is not registered. *)
Definition GetSigningMethod (alg : string) : option SigningMethod :=
  find (fun m => String.eqb (Alg m) alg) signingMethods.

(** The type assertion [method.( *SigningMethodHMAC)]. *)
Definition is_SigningMethodHMAC (m : SigningMethod) : bool :=
  match m with
  | SigningMethodHMAC _ => true
  | _ => false
  end.

(** ** Tokens (token.go) *)

(** The header is a [map[string]interface{}]; the entries whose value is
    a JSON string are kept, which is all that the parser and this service
    read ([Header["alg"].(string)]). *)
Record Token (C : Type) : Type := {
  Raw : string;
  Method : option SigningMethod;
  Header : gmap string string;
  Claims_ : C;
  Signature : string;
  Valid : bool
}.
Arguments Raw {C} t.
Arguments Method {C} t.
Arguments Header {C} t.
Arguments Claims_ {C} t.
Arguments Signature {C} t.
Arguments Valid {C} t.

(** What a parse returns, [(token *Token, err error)]: the token alone
    when [err] is [nil], and otherwise the error with the token as far as
    it was built ([nil] when the string does not have three segments). *)
Inductive Parsed (C : Type) : Type :=
| ParseOk (token : Token C)
| ParseErr (token : option (Token C)) (err : error).
Arguments ParseOk {C} token.
Arguments ParseErr {C} token err.

(** [Keyfunc]: the key is a [[]byte]. *)
Definition Keyfunc (C : Type) : Type := Token C -> Result string.

(** The characters of the URL alphabet of base64. *)
Definition urlchar (c : ascii) : bool :=
  let b := byte c in
  ((0x41 <=? b) && (b <=? 0x5A)) || ((0x61 <=? b) && (b <=? 0x7A)) ||
  ((0x30 <=? b) && (b <=? 0x39)) || (b =? 0x2D) || (b =? 0x5F).

Definition urlchars (s : string) : bool :=
  forallb urlchar (list_ascii_of_string s).

(** What the package takes from [encoding/base64], [encoding/json] and
    [crypto/hmac], with the properties of these that the service relies
    on: a segment decodes to the bytes it encodes and is written in the
    URL alphabet of base64, and the header that [NewWithClaims] makes
    decodes to itself. *)
Class Encoding : Type := {
  EncodeSegment : string -> string;
  DecodeSegment : string -> Result string;
  Marshal_Header : gmap string string -> string;
  Unmarshal_Header : string -> Result (gmap string string);
  HMAC : Hash -> string -> string -> string;
  DecodeSegment_EncodeSegment :
    forall b, DecodeSegment (EncodeSegment b) = Ok b;
  EncodeSegment_urlchars :
    forall b, urlchars (EncodeSegment b) = true;
  Unmarshal_Marshal_Header :
    forall m : SigningMethod,
      let h : gmap string string := <["alg" := Alg m]> (<["typ" := "JWT"]> ∅) in
      Unmarshal_Header (Marshal_Header h) = Ok h
}.

(** ** Validator (validator.go), with the default options: no leeway, no
    required claim, no check of [iat], no expected audience, issuer or
    subject. *)

Section Validator.
Context {C : Type} `{Claims C}.

Definition leeway : time.Duration := 0.

(** [verifyExpiresAt]: [cmp.Before(exp.Add(+leeway))] or
    [ErrTokenExpired]; a missing claim passes. *)
Definition verifyExpiresAt (claims : C) (cmp : time.Time) : option error :=
  match GetExpirationTime claims with
  | None => None
  | Some exp =>
    if time.Before cmp (time.Add (Time_of exp) leeway) then None
    else Some ErrTokenExpired
  end.

(** [verifyNotBefore]: [!cmp.Before(nbf.Add(-leeway))] or
    [ErrTokenNotValidYet]; a missing claim passes. *)
Definition verifyNotBefore (claims : C) (cmp : time.Time) : option error :=
  match GetNotBefore claims with
  | None => None
  | Some nbf =>
    if negb (time.Before cmp (time.Add (Time_of nbf) (- leeway))) then None
    else Some ErrTokenNotValidYet
  end.

(** [Validate]: every check is made and the failures are joined. *)
Definition Validate (claims : C) (now : time.Time) : option error :=
  let errs := [] in
  let errs :=
    match verifyExpiresAt claims now with
    | Some err => errs ++ [err]
    | None => errs
    end in
  let errs :=
    match verifyNotBefore claims now with
    | Some err => errs ++ [err]
    | None => errs
    end in
  if (length errs =? 0)%nat then None else Some (joinErrors errs).

End Validator.

(** ** Signing and parsing (hmac.go, token.go, parser.go) *)

Section Parser.
Context `{Encoding} {C : Type} `{Claims C}.

(** [json.Marshal] and [json.Unmarshal] at the type of the claims. *)
Variable Marshal_Claims : C -> string.
Variable Unmarshal_Claims : string -> Result C.

(** [method.Verify(signingString, sig, key)] for a key that is a
    [[]byte]: the methods other than HMAC refuse the type of the key. *)
Definition Verify (m : SigningMethod) (signingString sig key : string) : option error :=
  match m with
  | SigningMethodHMAC h =>
    if String.eqb sig (HMAC h key signingString) then None
    else Some ErrSignatureInvalid
  | SigningMethodNone => Some NoneSignatureTypeDisallowedError
  | _ => Some ErrInvalidKeyType
  end.

(** [method.Sign(signingString, key)] for a key that is a [[]byte]. *)
Definition Sign (m : SigningMethod) (signingString key : string) : Result string :=
  match m with
  | SigningMethodHMAC h => Ok (HMAC h key signingString)
  | SigningMethodNone => Err NoneSignatureTypeDisallowedError
  | _ => Err ErrInvalidKeyType
  end.

(** [NewWithClaims(method, claims)] *)
Definition NewWithClaims (method : SigningMethod) (claims : C) : Token C :=
  {| Raw := "";
     Method := Some method;
     Header := <["alg" := Alg method]> (<["typ" := "JWT"]> ∅);
     Claims_ := claims;
     Signature := "";
     Valid := false |}.

(** [t.SigningString()] *)
Definition SigningString (t : Token C) : string :=
  EncodeSegment (Marshal_Header (Header t)) +:+ "." +:+
  EncodeSegment (Marshal_Claims (Claims_ t)).

(** [t.SignedString(key)] *)
Definition SignedString (t : Token C) (key : string) : Result string :=
  let sstr := SigningString t in
  match Method t with
  | None => Err ErrInvalidKey
  | Some method =>
    match Sign method sstr key with
    | Err err => Err err
    | Ok sig => Ok (sstr +:+ "." +:+ EncodeSegment sig)
    end
  end.

(** [p.ParseUnverified(tokenString, claims)]: the segments and the
    result.  [claims] is the value behind the pointer that the caller
    passes; the token holds what was decoded into it. *)
Definition ParseUnverified (tokenString : string) (claims : C)
  : list string * Parsed C :=
  let parts := Split tokenString "." in
  match parts with
  | [p0; p1; p2] =>
    let token :=
      {| Raw := tokenString; Method := None; Header := ∅; Claims_ := claims;
         Signature := ""; Valid := false |} in
    match DecodeSegment p0 with
    | Err err =>
      (parts, ParseErr (Some token)
         (newError "could not base64 decode header" ErrTokenMalformed [err]))
    | Ok headerBytes =>
      match Unmarshal_Header headerBytes with
      | Err err =>
        (parts, ParseErr (Some token)
           (newError "could not JSON decode header" ErrTokenMalformed [err]))
      | Ok header =>
        let token :=
          {| Raw := tokenString; Method := None; Header := header;
             Claims_ := claims; Signature := ""; Valid := false |} in
        match DecodeSegment p1 with
        | Err err =>
          (parts, ParseErr (Some token)
             (newError "could not base64 decode claim" ErrTokenMalformed [err]))
        | Ok claimBytes =>
          match Unmarshal_Claims claimBytes with
          | Err err =>
            (parts, ParseErr (Some token)
               (newError "could not JSON decode claim" ErrTokenMalformed [err]))
          | Ok decoded =>
            let token :=
              {| Raw := tokenString; Method := None; Header := header;
                 Claims_ := decoded; Signature := ""; Valid := false |} in
            match header !! "alg" with
            | Some method =>
              match GetSigningMethod method with
              | None =>
                (parts, ParseErr (Some token)
                   (newError "signing method (alg) is unavailable"
                             ErrTokenUnverifiable []))
              | Some m =>
                (parts,
                 ParseOk {| Raw := tokenString; Method := Some m; Header := header;
                            Claims_ := decoded; Signature := ""; Valid := false |})
              end
            | None =>
              (parts, ParseErr (Some token)
                 (newError "signing method (alg) is unspecified"
                           ErrTokenUnverifiable []))
            end
          end
        end
      end
    end
  | _ =>
    (parts, ParseErr None
       (newError "token contains an invalid number of segments"
                 ErrTokenMalformed []))
  end.

(** [ParseWithClaims(tokenString, claims, keyFunc)] with the default
    parser; [now] is what [time.Now()] returns in the validator. *)
Definition ParseWithClaims (tokenString : string) (claims : C) (keyFunc : Keyfunc C)
           (now : time.Time) : Parsed C :=
  match ParseUnverified tokenString claims with
  | (_, ParseErr token err) => ParseErr token err
  | (parts, ParseOk token) =>
    match DecodeSegment (nth 2 parts "") with
    | Err err =>
      ParseErr (Some token)
        (newError "could not base64 decode signature" ErrTokenMalformed [err])
    | Ok sig =>
      let token :=
        {| Raw := Raw token; Method := Method token; Header := Header token;
           Claims_ := Claims_ token; Signature := sig; Valid := false |} in
      let text := Join (firstn 2 parts) "." in
      match keyFunc token with
      | Err err =>
        ParseErr (Some token)
          (newError "error while executing keyfunc" ErrTokenUnverifiable [err])
      | Ok key =>
        match
          match Method token with
          | Some m => Verify m text sig key
          | None => Some ErrTokenUnverifiable
          end
        with
        | Some err => ParseErr (Some token) (newError "" ErrTokenSignatureInvalid [err])
        | None =>
          match Validate (Claims_ token) now with
          | Some err => ParseErr (Some token) (newError "" ErrTokenInvalidClaims [err])
          | None =>
            ParseOk {| Raw := Raw token; Method := Method token;
                       Header := Header token; Claims_ := Claims_ token;
                       Signature := sig; Valid := true |}
          end
        end
      end
    end
  end.

End Parser.

End jwt.

(* ===================================================================== *)
(** * gin *)
(* ===================================================================== *)

(** A value that is rendered as JSON in the body of a response. *)
Inductive JSON : Type :=
| JSON_string (s : string)
| JSON_number (n : Z)
| JSON_time (t : time.Time)
| JSON_object (fields : list (string * JSON)).

Module http.
Definition StatusOK : Z := 200.
Definition StatusBadRequest : Z := 400.
Definition StatusUnauthorized : Z := 401.
Definition StatusNotFound : Z := 404.
Definition StatusUnprocessableEntity : Z := 422.
Definition StatusInternalServerError : Z := 500.
End http.

Module gin.

(** A value stored under a key of the context. *)
Inductive Any : Type :=
| Any_uint (n : N)
| Any_string (s : string).

(** The part of [gin.Context] that the service touches: the header and
    the body of the request, the address of the client, the keys, the
    position in the chain of handlers, and what was written with [JSON]
    (status and body, in the order of the calls). *)
Record Context : Type := {
  Header : gmap string (list string);
  Body : string;
  ClientIP : string;
  Keys : gmap string Any;
  index : Z;
  Writer : list (Z * JSON)
}.

(** [gin.H{...}], rendered with its keys in order. *)
Definition H (fields : list (string * JSON)) : JSON := JSON_object fields.

(** [abortIndex int8 = math.MaxInt8 >> 1] *)
Definition abortIndex : Z := 63.

(** [c.GetHeader(key)], for a key in canonical form: the first value of
    the header, or the empty string. *)
Definition GetHeader (c : Context) (key : string) : string :=
  match Header c !! key with
  | Some (v :: _) => v
  | _ => ""
  end.

(** [c.JSON(code, obj)] *)
Definition JSON (code : Z) (obj : JSON) (c : Context) : Context :=
  {| Header := Header c; Body := Body c; ClientIP := ClientIP c; Keys := Keys c;
     index := index c; Writer := Writer c ++ [(code, obj)] |}.

(** [c.Abort()] *)
Definition Abort (c : Context) : Context :=
  {| Header := Header c; Body := Body c; ClientIP := ClientIP c; Keys := Keys c;
     index := abortIndex; Writer := Writer c |}.

(** [c.Set(key, value)] *)
Definition Set_ (key : string) (value : Any) (c : Context) : Context :=
  {| Header := Header c; Body := Body c; ClientIP := ClientIP c;
     Keys := <[key := value]> (Keys c);
     index := index c; Writer := Writer c |}.

(** [c.Get(key)] *)
Definition Get (key : string) (c : Context) : option Any := Keys c !! key.

Definition set_index (i : Z) (c : Context) : Context :=
  {| Header := Header c; Body := Body c; ClientIP := ClientIP c; Keys := Keys c;
     index := i; Writer := Writer c |}.

(** A handler.  Its first argument is what [c.Next()] does in the chain
    that runs the handler. *)
Definition HandlerFunc : Type := (Context -> Context) -> Context -> Context.

(** The loop of [c.Next()]:
    [for c.index < len(c.handlers) { c.handlers[c.index](c); c.index++ }].
    A handler may itself call [c.Next()], and may set the index; [fuel]
    bounds the number of calls of handlers. *)
Fixpoint run (fuel : nat) (handlers : list HandlerFunc) (c : Context) : Context :=
  match fuel with
  | O => c
  | S fuel' =>
    if index c <? Z.of_nat (length handlers) then
      let next := fun c' => run fuel' handlers (set_index (index c' + 1) c') in
      let c1 :=
        match handlers !! Z.to_nat (index c) with
        | Some h => h next c
        | None => c
        end in
      run fuel' handlers (set_index (index c1 + 1) c1)
    else c
  end.

(** [c.Next()]: [c.index++] and the loop. *)
Definition Next (fuel : nat) (handlers : list HandlerFunc) (c : Context) : Context :=
  run fuel handlers (set_index (index c + 1) c).

(** The engine serving a request with the handlers of its route:
    [c.reset()] puts the index at -1, then [c.Next()]. *)
Definition serve (fuel : nat) (handlers : list HandlerFunc) (c : Context) : Context :=
  Next fuel handlers (set_index (-1) c).

End gin.

(* ===================================================================== *)
(** * internal/auth/auth.go *)
(* ===================================================================== *)

(** [fmt.Errorf("%w: %v", err, v)]: the message of [err], a colon and the
    text of [v]; only [err] is wrapped. *)
Definition Errorf_w_v (err : error) (v : string) : error :=
  wrapError (errors.Error err +:+ ": " +:+ v) [err].

Module auth.

Definition TokenExpirationTime : time.Duration := 24 * time.Hour.
Definition RefreshTokenExpirationTime : time.Duration := 7 * 24 * time.Hour.
Definition TokenType : string := "Bearer".

Definition ErrTokenMissing :=
  errorString "auth.ErrTokenMissing" "authorization token is missing".
Definition ErrTokenInvalid :=
  errorString "auth.ErrTokenInvalid" "token is invalid or malformed".
Definition ErrTokenExpired :=
  errorString "auth.ErrTokenExpired" "token has expired".
Definition ErrTokenNotValidYet :=
  errorString "auth.ErrTokenNotValidYet" "token is not valid yet".
Definition ErrInvalidSigningMethod :=
  errorString "auth.ErrInvalidSigningMethod" "invalid token signing method".
Definition ErrJWTSecretNotSet :=
  errorString "auth.ErrJWTSecretNotSet" "JWT_SECRET environment variable not set".

Record Claims : Type := {
  UserID : N;
  Email : string;
  RegisteredClaims : jwt.RegisteredClaims
}.

(** The methods of the embedded [jwt.RegisteredClaims]. *)
#[global] Instance Claims_Claims : jwt.Claims Claims := {
  jwt.GetExpirationTime c := jwt.ExpiresAt (RegisteredClaims c);
  jwt.GetNotBefore c := jwt.NotBefore (RegisteredClaims c);
  jwt.GetIssuedAt c := jwt.IssuedAt (RegisteredClaims c)
}.

(** [&Claims{}] *)
Definition Claims_zero : Claims :=
  {| UserID := 0; Email := "";
     RegisteredClaims :=
       {| jwt.Issuer := ""; jwt.Subject := ""; jwt.Audience := [];
          jwt.ExpiresAt := None; jwt.NotBefore := None; jwt.IssuedAt := None;
          jwt.ID := "" |} |}.

(** The claims that [encoding/json] writes and reads back unchanged: the
    user ID is a [uint] of 64 bits, the strings are valid UTF-8 (an
    invalid byte is written as U+FFFD), and the dates are within the
    integers that a [float64] holds exactly, as the dates are read through
    a [float64]. *)
Definition date_exact (d : option jwt.NumericDate) : bool :=
  match d with
  | None => true
  | Some s => (- 2 ^ 53 <=? s) && (s <=? 2 ^ 53)
  end.

Definition json_exact (c : Claims) : bool :=
  (UserID c <? 2 ^ 64)%N &&
  utf8.ValidString (Email c) &&
  utf8.ValidString (jwt.Issuer (RegisteredClaims c)) &&
  utf8.ValidString (jwt.Subject (RegisteredClaims c)) &&
  forallb utf8.ValidString (jwt.Audience (RegisteredClaims c)) &&
  utf8.ValidString (jwt.ID (RegisteredClaims c)) &&
  date_exact (jwt.ExpiresAt (RegisteredClaims c)) &&
  date_exact (jwt.NotBefore (RegisteredClaims c)) &&
  date_exact (jwt.IssuedAt (RegisteredClaims c)).

(** [json.Marshal] and [json.Unmarshal] at the type [Claims]. *)
Class ClaimsJSON : Type := {
  Marshal_Claims : Claims -> string;
  Unmarshal_Claims : string -> Result Claims;
  Unmarshal_Marshal_Claims :
    forall c, json_exact c = true -> Unmarshal_Claims (Marshal_Claims c) = Ok c
}.

(** The claims that [CreateToken] builds. *)
Definition newClaims (now : time.Time) (userID : N) (email : string) : Claims :=
  let expirationTime := time.Add now TokenExpirationTime in
  {| UserID := userID;
     Email := email;
     RegisteredClaims :=
       {| jwt.ExpiresAt := Some (jwt.NewNumericDate expirationTime);
          jwt.IssuedAt := Some (jwt.NewNumericDate now);
          jwt.NotBefore := Some (jwt.NewNumericDate now);
          jwt.Issuer := "wedding_planner_service";
          jwt.Subject := Sprintf_d userID;
          jwt.Audience := [];
          jwt.ID := "" |} |}.

Section Auth.
Context `{jwt.Encoding} `{ClaimsJSON}.

(** [configs.JWT_SECRET], set once when the process starts. *)
Variable JWT_SECRET : string.

(** [jwt.ParseWithClaims]: the functions below use only what it
    returns. *)
Variable ParseWithClaims :
  string -> Claims -> jwt.Keyfunc Claims -> time.Time -> jwt.Parsed Claims.

(** [CreateToken]; [now] is what [time.Now()] returns. *)
Definition CreateToken (now : time.Time) (userID : N) (email : string)
  : Result string :=
  let claims := newClaims now userID email in
  let token := jwt.NewWithClaims jwt.SigningMethodHS256 claims in
  jwt.SignedString Marshal_Claims token JWT_SECRET.

Definition ExtractToken (c : gin.Context) : string :=
  let authHeader := gin.GetHeader c "Authorization" in
  if (7 <? len authHeader)%nat && gostrings.HasPrefix authHeader "Bearer " then
    gostrings.TrimSpace (slice_from authHeader 7)
  else "".

Definition returnVerificationKey (token : jwt.Token Claims) : Result string :=
  if negb (match jwt.Method token with
           | Some m => jwt.is_SigningMethodHMAC m
           | None => false
           end)
  then
    Err (Errorf_w_v ErrInvalidSigningMethod
           (match jwt.Header token !! "alg" with
            | Some alg => alg
            | None => "<nil>"
            end))
  else Ok JWT_SECRET.

Definition VerifyToken (now : time.Time) (c : gin.Context) : option error :=
  let tokenString := ExtractToken c in
  if String.eqb tokenString "" then Some ErrTokenMissing
  else
    match ParseWithClaims tokenString Claims_zero returnVerificationKey now with
    | jwt.ParseErr _ err =>
      if errors.Is err jwt.ErrTokenExpired then Some ErrTokenExpired
      else if errors.Is err jwt.ErrTokenNotValidYet then Some ErrTokenNotValidYet
      else Some (Errorf_w_v ErrTokenInvalid (errors.Error err))
    | jwt.ParseOk token =>
      if negb (jwt.Valid token) then Some ErrTokenInvalid
      else None
    end.

(** [claims] points to what the token holds once the parse is done. *)
Definition ExtractUserID (now : time.Time) (c : gin.Context) : Result N :=
  let tokenString := ExtractToken c in
  if String.eqb tokenString "" then Err ErrTokenMissing
  else
    match ParseWithClaims tokenString Claims_zero returnVerificationKey now with
    | jwt.ParseErr _ _ => Err ErrTokenInvalid
    | jwt.ParseOk token =>
      if negb (jwt.Valid token) then Err ErrTokenInvalid
      else Ok (UserID (jwt.Claims_ token))
    end.

Definition ExtractTokenMetadata (now : time.Time) (c : gin.Context) : Result Claims :=
  let tokenString := ExtractToken c in
  if String.eqb tokenString "" then Err ErrTokenMissing
  else
    match ParseWithClaims tokenString Claims_zero returnVerificationKey now with
    | jwt.ParseErr _ _ => Err ErrTokenInvalid
    | jwt.ParseOk token =>
      if negb (jwt.Valid token) then Err ErrTokenInvalid
      else Ok (jwt.Claims_ token)
    end.

(** [AuthMiddleware()] of package auth; [now1] and [now2] are the two
    readings of the clock, by the parse in [VerifyToken] and the parse in
    [ExtractUserID]. *)
Definition AuthMiddleware (now1 now2 : time.Time) : gin.HandlerFunc :=
  fun Next c =>
    match VerifyToken now1 c with
    | Some err =>
      let c := gin.JSON 401 (gin.H [("error", JSON_string (errors.Error err))]) c in
      gin.Abort c
    | None =>
      match ExtractUserID now2 c with
      | Err _ =>
        let c :=
          gin.JSON 401
            (gin.H [("error", JSON_string "failed to extract user information")]) c in
        gin.Abort c
      | Ok userID =>
        let c := gin.Set_ "user_id" (gin.Any_uint userID) c in
        Next c
      end
    end.

End Auth.

End auth.

(* ===================================================================== *)
(** * internal/server/middlewares/auth.go *)
(* ===================================================================== *)

Module middlewares.

Section Middleware.
Context `{jwt.Encoding} `{auth.ClaimsJSON}.
Variable JWT_SECRET : string.
Variable ParseWithClaims :
  string -> auth.Claims -> jwt.Keyfunc auth.Claims -> time.Time ->
  jwt.Parsed auth.Claims.

(** [AuthMiddleware()]; [now1] and [now2] are the two readings of the
    clock, by the parse in [VerifyToken] and the parse in
    [ExtractUserID]. *)
Definition AuthMiddleware (now1 now2 : time.Time) : gin.HandlerFunc :=
  fun Next c =>
    match auth.VerifyToken JWT_SECRET ParseWithClaims now1 c with
    | Some err =>
      let c := gin.JSON 401 (gin.H [("error", JSON_string (errors.Error err))]) c in
      gin.Abort c
    | None =>
      match auth.ExtractUserID JWT_SECRET ParseWithClaims now2 c with
      | Err _ =>
        let c :=
          gin.JSON 401
            (gin.H [("error", JSON_string "failed to extract user information")]) c in
        gin.Abort c
      | Ok userID =>
        let c := gin.Set_ "user_id" (gin.Any_uint userID) c in
        Next c
      end
    end.

End Middleware.

End middlewares.

(* ===================================================================== *)
(** * golang.org/x/crypto/bcrypt *)
(* ===================================================================== *)

Module bcrypt.

Definition MinCost : Z := 4.
Definition MaxCost : Z := 31.
Definition DefaultCost : Z := 10.

Definition majorVersion : ascii := "2".
Definition minorVersion : ascii := "a".
Definition maxSaltSize : nat := 16.
Definition maxCryptedHashSize : nat := 23.

Definition ErrMismatchedHashAndPassword :=
  errorString "bcrypt.ErrMismatchedHashAndPassword"
    "crypto/bcrypt: hashedPassword is not the hash of the given password".
Definition ErrHashTooShort :=
  errorString "bcrypt.ErrHashTooShort"
    "crypto/bcrypt: hashedSecret too short to be a bcrypted password".
Definition ErrPasswordTooLong :=
  errorString "bcrypt.ErrPasswordTooLong" "bcrypt: password length exceeds 72 bytes".

(** [InvalidCostError(cost)] *)
Definition InvalidCostError (cost : Z) : error :=
  errors.opaque "crypto/bcrypt: cost is outside allowed inclusive range".

Record hashed : Type := {
  hash : string;
  salt : string;
  cost : Z;
  major : ascii;
  minor : ascii
}.

(** [getNextWord(b, &pos)] of package blowfish: four bytes of the key,
    read from [pos] on and starting again at the first byte when the end
    of the key is reached. *)
Fixpoint getNextWord (k : nat) (b : string) (j : nat) (w : Z) : Z * nat :=
  match k with
  | O => (w, j)
  | S k' =>
    let w := Z.lor (Z.shiftl w 8 mod 2 ^ 32) (idx b j) in
    let j := S j in
    let j := if (len b <=? j)%nat then 0%nat else j in
    getNextWord k' b j w
  end.

(** The words that [blowfish.ExpandKey] and [blowfish.NewSaltedCipher]
    read from the key, [n] of them: both combine the 18 entries of the
    P-array with 18 words of the key, read from its first byte on. *)
Fixpoint keyWords (n : nat) (key : string) (j : nat) : list Z :=
  match n with
  | O => []
  | S n' =>
    let '(w, j') := getNextWord 4 key j 0 in
    w :: keyWords n' key j'
  end.

(** What the package takes from package blowfish and from its own
    encoding: [crypt words cost csalt] is the 23 bytes that the cipher set
    up with the key words, the cost and the salt makes of the magic text;
    [Hash] writes a hashed password and [newFromHash] reads one, failing
    on a string that is not one. *)
Class Primitives : Type := {
  base64Encode : string -> string;
  base64Decode : string -> Result string;
  crypt : list Z -> Z -> string -> string;
  Hash : hashed -> string;
  newFromHash : string -> Result hashed;
  base64Decode_base64Encode :
    forall b, base64Decode (base64Encode b) = Ok b;
  crypt_length :
    forall w c s, len (crypt w c s) = maxCryptedHashSize;
  newFromHash_Hash :
    forall h s c,
      len h = maxCryptedHashSize -> len s = maxSaltSize ->
      MinCost <= c <= MaxCost ->
      let p := {| hash := base64Encode h; salt := base64Encode s; cost := c;
                  major := majorVersion; minor := minorVersion |} in
      newFromHash (Hash p) = Ok p
}.

Section Bcrypt.
Context `{Primitives}.

(** [checkCost] *)
Definition checkCost (cost : Z) : option error :=
  if (cost <? MinCost) || (MaxCost <? cost) then Some (InvalidCostError cost)
  else None.

(** [bcrypt(password, cost, salt)], with [expensiveBlowfishSetup]: the
    key of the cipher is the password followed by a zero byte. *)
Definition bcrypt_ (password : string) (cost : Z) (salt : string) : Result string :=
  match base64Decode salt with
  | Err err => Err err
  | Ok csalt =>
    let ckey := password +:+ String zero EmptyString in
    Ok (base64Encode (crypt (keyWords 18 ckey 0) cost csalt))
  end.

(** [newFromPassword]; [rand] is what reading 16 bytes from
    [rand.Reader] gives. *)
Definition newFromPassword (password : string) (cost : Z) (rand : Result string)
  : Result hashed :=
  let cost := if cost <? MinCost then DefaultCost else cost in
  match checkCost cost with
  | Some err => Err err
  | None =>
    match rand with
    | Err err => Err err
    | Ok unencodedSalt =>
      let salt := base64Encode unencodedSalt in
      match bcrypt_ password cost salt with
      | Err err => Err err
      | Ok hash =>
        Ok {| hash := hash; salt := salt; cost := cost;
              major := majorVersion; minor := minorVersion |}
      end
    end
  end.

(** [GenerateFromPassword] *)
Definition GenerateFromPassword (password : string) (cost : Z) (rand : Result string)
  : Result string :=
  if (72 <? len password)%nat then Err ErrPasswordTooLong
  else
    match newFromPassword password cost rand with
    | Err err => Err err
    | Ok p => Ok (Hash p)
    end.

(** [CompareHashAndPassword]; the comparison in constant time is an
    equality of strings. *)
Definition CompareHashAndPassword (hashedPassword password : string) : option error :=
  match newFromHash hashedPassword with
  | Err err => Some err
  | Ok p =>
    match bcrypt_ password (cost p) (salt p) with
    | Err err => Some err
    | Ok otherHash =>
      let otherP := {| hash := otherHash; salt := salt p; cost := cost p;
                       major := major p; minor := minor p |} in
      if String.eqb (Hash p) (Hash otherP) then None
      else Some ErrMismatchedHashAndPassword
    end
  end.

End Bcrypt.

End bcrypt.

(* ===================================================================== *)
(** * internal/security/security.go *)
(* ===================================================================== *)

Module security.

Section Security.
Context `{bcrypt.Primitives}.

Definition EncryptPassword (password : string) (rand : Result string) : Result string :=
  bcrypt.GenerateFromPassword password bcrypt.DefaultCost rand.

Definition CheckPassword (hash : string) (password : string) : option error :=
  bcrypt.CompareHashAndPassword hash password.

End Security.

End security.

(* ===================================================================== *)
(** * Package strconv *)
(* ===================================================================== *)

Module strconv.

Definition ErrRange := errorString "strconv.ErrRange" "value out of range".
Definition ErrSyntax := errorString "strconv.ErrSyntax" "invalid syntax".

(** [&NumError{fn, str, err}].  The message quotes [str] with
    [strconv.Quote]: it is written here as it is for a [str] in which
    nothing is escaped. *)
Definition NumError (fn str : string) (err : error) : error :=
  wrapError
    ("strconv." +:+ fn +:+ ": parsing " +:+
     String (ascii_of_nat 34) (str +:+ String (ascii_of_nat 34) (": " +:+ errors.Error err)))
    [err].

Definition maxUint64 : N := 2 ^ 64 - 1.

(** The loop of [ParseUint] over the bytes of the string, in base 10: a
    byte that is not a digit is an error of syntax; the value is checked
    against the cutoff before it is multiplied, and against [maxVal] and
    the wrap-around of 64 bits after the digit is added. *)
Fixpoint ParseUint_loop (fn s0 s : string) (n maxVal : N) : Result N :=
  match s with
  | EmptyString => Ok n
  | String c s' =>
    let b := byte c in
    if negb ((0x30 <=? b) && (b <=? 0x39)) then Err (NumError fn s0 ErrSyntax)
    else
      let d := Z.to_N (b - 0x30) in
      if (maxUint64 / 10 + 1 <=? n)%N then Err (NumError fn s0 ErrRange)
      else
        let n := (n * 10)%N in
        let n1 := ((n + d) mod 2 ^ 64)%N in
        if (n1 <? n)%N || (maxVal <? n1)%N then Err (NumError fn s0 ErrRange)
        else ParseUint_loop fn s0 s' n1 maxVal
  end.

(** [ParseUint(s, 10, bitSize)] for [0 < bitSize <= 64]; [fn] is the name
    of the function in the error.  (With an error of range the library
    also returns the greatest value, which no caller here reads.) *)
Definition ParseUint_base10 (fn s : string) (bitSize : N) : Result N :=
  if String.eqb s "" then Err (NumError fn s ErrSyntax)
  else ParseUint_loop fn s s 0 (2 ^ bitSize - 1).

(** [Atoi(s)]: [ParseInt(s, 10, 0)] with the name of the function in the
    error set to [Atoi]; an [int] has 64 bits.  The fast path of the short
    strings gives the same. *)
Definition Atoi (s : string) : Result Z :=
  match s with
  | EmptyString => Err (NumError "Atoi" s ErrSyntax)
  | String c s' =>
    let neg := Ascii.eqb c "-" in
    let digits := if Ascii.eqb c "+" || Ascii.eqb c "-" then s' else s in
    match ParseUint_base10 "Atoi" digits 64 with
    | Err err =>
      if errors.Is err ErrRange then Err (NumError "Atoi" s ErrRange)
      else Err (NumError "Atoi" s ErrSyntax)
    | Ok un =>
      let cutoff := (2 ^ 63)%N in
      if negb neg && (cutoff <=? un)%N then Err (NumError "Atoi" s ErrRange)
      else if neg && (cutoff <? un)%N then Err (NumError "Atoi" s ErrRange)
      else Ok (if neg then - Z.of_N un else Z.of_N un)
    end
  end.

End strconv.

(* ===================================================================== *)
(** * Package regexp *)
(* ===================================================================== *)

(** The patterns of the service are made of classes of ASCII characters,
    sequence, alternative and option.  A match consumes ASCII characters
    only, and a byte of a character outside ASCII is 0x80 or more and in no
    class: matching the bytes is matching the runes. *)
Module regexp.

Inductive Regexp : Type :=
| EmptyMatch
| CharClass (member : ascii -> bool)
| Concat (r1 r2 : Regexp)
| Alternate (r1 r2 : Regexp)
| Quest (r : Regexp).

(** The classes [[lo-hi]] and [[c]]. *)
Definition Range (lo hi : ascii) : ascii -> bool :=
  fun c => (byte lo <=? byte c) && (byte c <=? byte hi).

Definition Char (c0 : ascii) : ascii -> bool := fun c => Ascii.eqb c c0.

(** A literal text. *)
Fixpoint Literal (text : string) : Regexp :=
  match text with
  | EmptyString => EmptyMatch
  | String c text' => Concat (CharClass (Char c)) (Literal text')
  end.

(** What is left of [s] after each match of [r] at the start of [s]. *)
Fixpoint rests (r : Regexp) (s : string) : list string :=
  match r with
  | EmptyMatch => [s]
  | CharClass member =>
    match s with
    | String c s' => if member c then [s'] else []
    | EmptyString => []
    end
  | Concat r1 r2 => flat_map (rests r2) (rests r1 s)
  | Alternate r1 r2 => rests r1 s ++ rests r2 s
  | Quest r1 => rests r1 s ++ [s]
  end.

(** [regexp.MatchString(pattern, s)] for the pattern [^r$]: [r] matches
    the whole of [s]. *)
Definition MatchString_whole (r : Regexp) (s : string) : bool :=
  existsb (fun rest => String.eqb rest "") (rests r s).

(** [regexp.MatchString(pattern, s)] for the pattern [r], not anchored:
    [r] matches somewhere in [s]. *)
Fixpoint MatchString (r : Regexp) (s : string) : bool :=
  match rests r s with
  | _ :: _ => true
  | [] =>
    match s with
    | EmptyString => false
    | String _ s' => MatchString r s'
    end
  end.

End regexp.

(* ===================================================================== *)
(** * Package net/mail *)
(* ===================================================================== *)

Module mail.

(** [mail.Address] *)
Record Address : Type := {
  Address_Name : string;
  Address_Address : string
}.

End mail.

(* ===================================================================== *)
(** * Packages os and godotenv *)
(* ===================================================================== *)

Module os.

(** The environment of the process. *)
Definition Environ : Type := gmap string string.

(** [os.Getenv(key)]: the empty string for a variable that is not set. *)
Definition Getenv (env : Environ) (key : string) : string :=
  default "" (env !! key).

End os.

Module godotenv.

(** [godotenv.Load(".env")]; [file] is what reading and parsing the file
    gives.  A variable that the environment has already is left as it
    is. *)
Definition Load (file : Result os.Environ) (env : os.Environ)
  : os.Environ * option error :=
  match file with
  | Err err => (env, Some err)
  | Ok vars => (env ∪ vars, None)
  end.

End godotenv.

(* ===================================================================== *)
(** * Package configs *)
(* ===================================================================== *)

Module configs.

(** The package variables that [LoadEnv] sets. *)
Record Config : Type := {
  PORT : string;
  DATABASE_URL : string;
  ENV : string;
  GIN_MODE : string;
  MAX_DB_CONNS : Z;
  READ_TIMEOUT_SECS : Z;
  WRITE_TIMEOUT_SECS : Z;
  JWT_SECRET : string
}.

(** [getEnv] *)
Definition getEnv (env : os.Environ) (key defaultValue : string) : string :=
  let value := os.Getenv env key in
  if negb (String.eqb value "") then value else defaultValue.

(** [getEnvInt]: the value and the line that it logs, if any. *)
Definition getEnvInt (env : os.Environ) (key : string) (defaultValue : Z)
  : Z * list string :=
  let value := os.Getenv env key in
  if negb (String.eqb value "") then
    match strconv.Atoi value with
    | Ok intVal => (intVal, [])
    | Err _ =>
      (defaultValue,
       ["⚠️  " +:+ key +:+ " inválido, usando padrão: " +:+ Sprintf_d_int defaultValue])
    end
  else (defaultValue, []).

(** [LoadEnv]; [env] is the environment of the process and [file] what
    reading the file [.env] gives.  The result is the variables of the
    package, or [None] when [log.Fatal] ends the process, and the lines
    that were logged. *)
Definition LoadEnv (env : os.Environ) (file : Result os.Environ)
  : option Config * list string :=
  let '(env, log) :=
    if negb (String.eqb (os.Getenv env "ENV") "production") then
      match godotenv.Load file env with
      | (env, Some _) =>
        (env, ["⚠️  Arquivo .env não encontrado, usando variáveis do sistema"])
      | (env, None) => (env, [])
      end
    else (env, []) in
  let ENV := getEnv env "ENV" "development" in
  let PORT := getEnv env "PORT" "8080" in
  let GIN_MODE := getEnv env "GIN_MODE" "debug" in
  let '(GIN_MODE, log) :=
    if String.eqb ENV "production" && String.eqb GIN_MODE "debug" then
      ("release",
       log ++ ["⚠️  GIN_MODE alterado para 'release' em ambiente de produção"])
    else (GIN_MODE, log) in
  let DATABASE_URL := os.Getenv env "DATABASE_URL" in
  if String.eqb DATABASE_URL "" then
    (None, log ++ ["❌ DATABASE_URL não definida"])
  else if negb (gostrings.Contains DATABASE_URL "@") ||
          negb (gostrings.Contains DATABASE_URL "tcp(") then
    (None,
     log ++ ["❌ DATABASE_URL inválida. Formato esperado: user:pass@tcp(host:port)/dbname?params"])
  else
    let JWT_SECRET := os.Getenv env "JWT_SECRET" in
    if (len JWT_SECRET =? 0)%nat then (None, log ++ ["❌ JWT_SECRET não definida"])
    else
      let '(MAX_DB_CONNS, l1) := getEnvInt env "MAX_DB_CONNS" 100 in
      let '(READ_TIMEOUT_SECS, l2) := getEnvInt env "READ_TIMEOUT_SECS" 30 in
      let '(WRITE_TIMEOUT_SECS, l3) := getEnvInt env "WRITE_TIMEOUT_SECS" 30 in
      (Some {| PORT := PORT; DATABASE_URL := DATABASE_URL; ENV := ENV;
               GIN_MODE := GIN_MODE; MAX_DB_CONNS := MAX_DB_CONNS;
               READ_TIMEOUT_SECS := READ_TIMEOUT_SECS;
               WRITE_TIMEOUT_SECS := WRITE_TIMEOUT_SECS;
               JWT_SECRET := JWT_SECRET |},
       log ++ l1 ++ l2 ++ l3 ++
       ["✅ Configurações carregadas: ENV=" +:+ ENV +:+ ", PORT=" +:+ PORT +:+
        ", GIN_MODE=" +:+ GIN_MODE]).

(** [MaskDSN] *)
Definition MaskDSN (dsn : string) : string :=
  let idx := gostrings.Index dsn "@" in
  if 0 <? idx then "***" +:+ slice_from dsn (Z.to_nat idx)
  else "***".

End configs.

(* ===================================================================== *)
(** * internal/database/database.go *)
(* ===================================================================== *)

Module database.

(** What the calls that leave the process give: [Open i] is the error of
    the call of [gorm.Open] number [i], counted from 0; [DB_DB] the error of
    [DB.DB()]; [PingContext] the error of the ping. *)
Record Outside : Type := {
  Open : nat -> option error;
  DB_DB : option error;
  PingContext : option error
}.

(** [fmt.Errorf(format + ": %w", err)] *)
Definition Errorf_w (text : string) (err : error) : error :=
  wrapError (text +:+ ": " +:+ errors.Error err) [err].

(** The loop of [ConnectDB], [for i := 0; i < maxRetries; i++], from [i]
    on with [fuel] turns left; [err] is the variable of the function.  It
    gives the value of [err] after the loop, the lines logged and the
    durations slept.  A [waitTime] is a whole number of seconds below one
    minute, which [%v] prints as the number and the letter s. *)
Fixpoint connect (o : Outside) (dsn : string) (maxRetries fuel i : nat)
         (err : option error) : option error * list string * list time.Duration :=
  match fuel with
  | O => (err, [], [])
  | S fuel' =>
    match Open o i with
    | None => (None, [], [])
    | Some err =>
      let waitTime := (Z.of_nat i + 1) * 2 * time.Second in
      let line :=
        "⚠️  Tentativa " +:+ Sprintf_d_int (Z.of_nat i + 1) +:+ "/" +:+
        Sprintf_d_int (Z.of_nat maxRetries) +:+ " falhou. Aguardando " +:+
        Sprintf_d_int (waitTime / time.Second) +:+ "s... (DSN: " +:+
        configs.MaskDSN dsn +:+ ")" in
      let '(err, log, slept) := connect o dsn maxRetries fuel' (S i) (Some err) in
      (err, line :: log, waitTime :: slept)
    end
  end.

(** [ConnectDB]; [dsn] is [configs.DATABASE_URL]. *)
Definition ConnectDB (dsn : string) (o : Outside)
  : option error * list string * list time.Duration :=
  if String.eqb dsn "" then
    (Some (errors.opaque "DATABASE_URL não configurada"), [], [])
  else
    let maxRetries := 5%nat in
    let '(err, log, slept) := connect o dsn maxRetries maxRetries 0 None in
    match err with
    | Some err =>
      (Some (Errorf_w ("falha ao conectar após " +:+ Sprintf_d_int (Z.of_nat maxRetries) +:+
                       " tentativas") err),
       log, slept)
    | None =>
      match DB_DB o with
      | Some err => (Some (Errorf_w "erro ao obter *sql.DB" err), log, slept)
      | None =>
        match PingContext o with
        | Some err => (Some (Errorf_w "falha no ping do banco" err), log, slept)
        | None =>
          (None, log ++ ["✅ Conexão com banco de dados estabelecida com sucesso!"], slept)
        end
      end
    end.

End database.

(* ===================================================================== *)
(** * internal/models *)
(* ===================================================================== *)

Module models.

(** [User]; [DeletedAt] is a [gorm.DeletedAt], [None] for a row that is
    not deleted. *)
Record User : Type := {
  ID : N;
  CreatedAt : time.Time;
  UpdatedAt : time.Time;
  DeletedAt : option time.Time;
  Name : string;
  Email : string;
  PasswordHash : string;
  PartnerName : string
}.

(** Modelled from the spec: the declaration of [LoginRequest] is not among
    the sources; the login endpoint takes [{email, password}], and
    [Login] reads the fields [Email] and [Password]. *)
Record LoginRequest : Type := {
  LoginRequest_Email : string;
  LoginRequest_Password : string
}.

(** ** The methods of [User] *)

(** The classes of characters of [validatePassword]: [\d], [[A-Z]],
    [[a-z]] and the class of the 20 special characters, exclamation mark,
    at, hash, dollar, percent, caret, ampersand, asterisk, parentheses,
    comma, dot, question mark, double quote, colon, braces, bar, less and
    greater. *)
Definition special (c : ascii) : bool :=
  existsb (Z.eqb (byte c))
    [0x21; 0x40; 0x23; 0x24; 0x25; 0x5E; 0x26; 0x2A; 0x28; 0x29;
     0x2C; 0x2E; 0x3F; 0x22; 0x3A; 0x7B; 0x7D; 0x7C; 0x3C; 0x3E].

Section User_methods.
Context `{bcrypt.Primitives}.

(** [mail.ParseAddress] *)
Variable ParseAddress : string -> Result mail.Address.

(** [trimSpaces] *)
Definition trimSpaces (u : User) : User :=
  {| ID := ID u; CreatedAt := CreatedAt u; UpdatedAt := UpdatedAt u;
     DeletedAt := DeletedAt u;
     Name := gostrings.TrimSpace (Name u);
     Email := gostrings.TrimSpace (Email u);
     PasswordHash := PasswordHash u;
     PartnerName := gostrings.TrimSpace (PartnerName u) |}.

(** [checkBlankFields] *)
Definition checkBlankFields (u : User) : option error :=
  if String.eqb (Name u) "" then
    Some (errorString "models.checkBlankFields.Name" "name cannot be empty")
  else if String.eqb (Email u) "" then
    Some (errorString "models.checkBlankFields.Email" "email cannot be empty")
  else if String.eqb (PartnerName u) "" then
    Some (errorString "models.checkBlankFields.PartnerName"
                      "partner name cannot be empty")
  else if String.eqb (PasswordHash u) "" then
    Some (errorString "models.checkBlankFields.PasswordHash"
                      "password hash cannot be empty")
  else None.

(** [validateEmail] *)
Definition validateEmail (u : User) : option error :=
  match ParseAddress (Email u) with
  | Err _ => Some (errorString "models.validateEmail" "invalid email format")
  | Ok _ => None
  end.

(** [validatePassword]; the patterns compile, so [regexp.MatchString]
    gives no error. *)
Definition validatePassword (u : User) : option error :=
  let pass := PasswordHash u in
  if (len pass <? 8)%nat then
    Some (errorString "models.validatePassword.len"
                      "password must be at least 8 characters long")
  else if negb (regexp.MatchString (regexp.CharClass (regexp.Range "0" "9")) pass) then
    Some (errorString "models.validatePassword.number"
                      "password must contain at least one number")
  else if negb (regexp.MatchString (regexp.CharClass (regexp.Range "A" "Z")) pass) then
    Some (errorString "models.validatePassword.uppercase"
                      "password must contain at least one uppercase letter")
  else if negb (regexp.MatchString (regexp.CharClass (regexp.Range "a" "z")) pass) then
    Some (errorString "models.validatePassword.lowercase"
                      "password must contain at least one lowercase letter")
  else if negb (regexp.MatchString (regexp.CharClass special) pass) then
    Some (errorString "models.validatePassword.special"
                      "password must contain at least one special character")
  else None.

Definition set_PasswordHash (hash : string) (u : User) : User :=
  {| ID := ID u; CreatedAt := CreatedAt u; UpdatedAt := UpdatedAt u;
     DeletedAt := DeletedAt u; Name := Name u; Email := Email u;
     PasswordHash := hash; PartnerName := PartnerName u |}.

(** [hashPasswordIfNeeded]; [rand] is what reading the salt from
    [rand.Reader] gives.  The user after the call, and the error. *)
Definition hashPasswordIfNeeded (step : string) (rand : Result string) (u : User)
  : User * option error :=
  if String.eqb step "register" then
    match security.EncryptPassword (PasswordHash u) rand with
    | Err err => (u, Some err)
    | Ok hashed => (set_PasswordHash hashed u, None)
    end
  else (u, None).

(** [isValid]: the user after the call, and the error. *)
Definition isValid (step : string) (rand : Result string) (u : User)
  : User * option error :=
  let u := trimSpaces u in
  match checkBlankFields u with
  | Some err => (u, Some err)
  | None =>
    match validateEmail u with
    | Some err => (u, Some err)
    | None =>
      match validatePassword u with
      | Some err => (u, Some err)
      | None => hashPasswordIfNeeded step rand u
      end
    end
  end.

End User_methods.

(** ** [Wedding] and its methods *)

Record Wedding : Type := {
  Wedding_ID : N;
  Wedding_CreatedAt : time.Time;
  Wedding_UpdatedAt : time.Time;
  Wedding_DeletedAt : option time.Time;
  UserID : N;
  VenueName : string;
  VenueAddress : string;
  EventDate : time.Time;
  EventTime : string;
  MaxGuests : Z;
  CurrentGuestCount : Z
}.

(** [^([01]?[0-9]|2[0-3]):[0-5][0-9]$] *)
Definition timeRegex24h : regexp.Regexp :=
  regexp.Concat
    (regexp.Alternate
       (regexp.Concat (regexp.Quest (regexp.CharClass (regexp.Range "0" "1")))
                      (regexp.CharClass (regexp.Range "0" "9")))
       (regexp.Concat (regexp.CharClass (regexp.Char "2"))
                      (regexp.CharClass (regexp.Range "0" "3"))))
    (regexp.Concat (regexp.CharClass (regexp.Char ":"))
       (regexp.Concat (regexp.CharClass (regexp.Range "0" "5"))
                      (regexp.CharClass (regexp.Range "0" "9")))).

(** The class [\s]: tab, line feed, form feed, carriage return, space. *)
Definition perl_space (c : ascii) : bool :=
  existsb (Z.eqb (byte c)) [0x09; 0x0A; 0x0C; 0x0D; 0x20].

(** [^(0?[1-9]|1[0-2]):[0-5][0-9]\s?(AM|PM|am|pm)$] *)
Definition timeRegex12h : regexp.Regexp :=
  regexp.Concat
    (regexp.Alternate
       (regexp.Concat (regexp.Quest (regexp.CharClass (regexp.Char "0")))
                      (regexp.CharClass (regexp.Range "1" "9")))
       (regexp.Concat (regexp.CharClass (regexp.Char "1"))
                      (regexp.CharClass (regexp.Range "0" "2"))))
    (regexp.Concat (regexp.CharClass (regexp.Char ":"))
       (regexp.Concat (regexp.CharClass (regexp.Range "0" "5"))
          (regexp.Concat (regexp.CharClass (regexp.Range "0" "9"))
             (regexp.Concat (regexp.Quest (regexp.CharClass perl_space))
                (regexp.Alternate (regexp.Literal "AM")
                   (regexp.Alternate (regexp.Literal "PM")
                      (regexp.Alternate (regexp.Literal "am")
                                        (regexp.Literal "pm")))))))).

Section Wedding_methods.

(** [t.AddDate(years, months, days)], in the time zone of the process. *)
Variable AddDate : time.Time -> Z -> Z -> Z -> time.Time.

(** [normalize] *)
Definition normalize (w : Wedding) : Wedding :=
  {| Wedding_ID := Wedding_ID w; Wedding_CreatedAt := Wedding_CreatedAt w;
     Wedding_UpdatedAt := Wedding_UpdatedAt w; Wedding_DeletedAt := Wedding_DeletedAt w;
     UserID := UserID w;
     VenueName := gostrings.TrimSpace (VenueName w);
     VenueAddress := gostrings.TrimSpace (VenueAddress w);
     EventDate := EventDate w;
     EventTime := gostrings.TrimSpace (EventTime w);
     MaxGuests := MaxGuests w;
     CurrentGuestCount := CurrentGuestCount w |}.

(** [validateEventDate]; [now1] and [now2] are the two readings of the
    clock. *)
Definition validateEventDate (now1 now2 : time.Time) (w : Wedding) : option error :=
  if time.IsZero (EventDate w) then
    Some (errorString "models.validateEventDate.required" "event date is required")
  else
    let oneYearAgo := AddDate now1 (-1) 0 0 in
    if time.Before (EventDate w) oneYearAgo then
      Some (errorString "models.validateEventDate.past"
                        "event date cannot be more than 1 year in the past")
    else
      let tenYearsFromNow := AddDate now2 10 0 0 in
      if time.After (EventDate w) tenYearsFromNow then
        Some (errorString "models.validateEventDate.future"
                          "event date cannot be more than 10 years in the future")
      else None.

(** [validateVenueName] *)
Definition validateVenueName (w : Wedding) : option error :=
  if String.eqb (VenueName w) "" then
    Some (errorString "models.validateVenueName.required" "venue name is required")
  else if (len (VenueName w) <? 3)%nat then
    Some (errorString "models.validateVenueName.short"
                      "venue name must be at least 3 characters long")
  else if (200 <? len (VenueName w))%nat then
    Some (errorString "models.validateVenueName.long"
                      "venue name must not exceed 200 characters")
  else None.

(** [validateVenueAddress] *)
Definition validateVenueAddress (w : Wedding) : option error :=
  if String.eqb (VenueAddress w) "" then
    Some (errorString "models.validateVenueAddress.required" "venue address is required")
  else if (len (VenueAddress w) <? 10)%nat then
    Some (errorString "models.validateVenueAddress.short"
                      "venue address must be at least 10 characters long")
  else if (1000 <? len (VenueAddress w))%nat then
    Some (errorString "models.validateVenueAddress.long"
                      "venue address must not exceed 1000 characters")
  else None.

(** [validateEventTime] *)
Definition validateEventTime (w : Wedding) : option error :=
  if String.eqb (EventTime w) "" then
    Some (errorString "models.validateEventTime.required" "event time is required")
  else if negb (regexp.MatchString_whole timeRegex24h (EventTime w)) &&
          negb (regexp.MatchString_whole timeRegex12h (EventTime w)) then
    Some (errorString "models.validateEventTime.format"
                      "event time must be in format HH:MM or HH:MM AM/PM")
  else None.

(** [validateMaxGuests] *)
Definition validateMaxGuests (w : Wedding) : option error :=
  if MaxGuests w <? 0 then
    Some (errorString "models.validateMaxGuests.negative" "max guests cannot be negative")
  else if 10000 <? MaxGuests w then
    Some (errorString "models.validateMaxGuests.many" "max guests cannot exceed 10,000")
  else if MaxGuests w <? CurrentGuestCount w then
    Some (errorString "models.validateMaxGuests.count"
                      "current guest count cannot exceed max guests")
  else None.

(** [IsValid]: the wedding after the call, and the error. *)
Definition IsValid (now1 now2 : time.Time) (w : Wedding) : Wedding * option error :=
  let w := normalize w in
  match validateEventDate now1 now2 w with
  | Some err => (w, Some err)
  | None =>
    match validateVenueName w with
    | Some err => (w, Some err)
    | None =>
      match validateVenueAddress w with
      | Some err => (w, Some err)
      | None =>
        match validateEventTime w with
        | Some err => (w, Some err)
        | None => (w, validateMaxGuests w)
        end
      end
    end
  end.

End Wedding_methods.

End models.

(* ===================================================================== *)
(** * gorm, as the user repository uses it *)
(* ===================================================================== *)

Module gorm.

Definition ErrRecordNotFound :=
  errorString "gorm.ErrRecordNotFound" "record not found".

(** The table [users], by primary key, and what goes wrong with the
    statements to come: each statement takes the first element of
    [faults], and fails with it when it is an error. *)
Record DB : Type := {
  users : gmap N models.User;
  faults : list (option error)
}.

Definition next_fault (db : DB) : option error * DB :=
  match faults db with
  | [] => (None, db)
  | f :: fs => (f, {| users := users db; faults := fs |})
  end.

(** The row with the least primary key in a list of rows. *)
Definition least (rows : list (N * models.User)) : option models.User :=
  snd <$>
  foldr (fun r acc =>
           match acc with
           | None => Some r
           | Some r' => if (fst r <? fst r')%N then Some r else Some r'
           end) None rows.

(** [db.Where(cond).First(&user)]: the row that satisfies the condition,
    is not deleted and has the least primary key, or
    [ErrRecordNotFound]. *)
Definition First (cond : models.User -> bool) (db : DB) : Result models.User * DB :=
  match next_fault db with
  | (Some err, db') => (Err err, db')
  | (None, db') =>
    let live :=
      filter (fun r => cond (snd r) = true /\ models.DeletedAt (snd r) = None)
             (map_to_list (users db')) in
    match least live with
    | Some u => (Ok u, db')
    | None => (Err ErrRecordNotFound, db')
    end
  end.

Definition with_times (created updated : time.Time) (u : models.User) : models.User :=
  {| models.ID := models.ID u; models.CreatedAt := created;
     models.UpdatedAt := updated; models.DeletedAt := models.DeletedAt u;
     models.Name := models.Name u; models.Email := models.Email u;
     models.PasswordHash := models.PasswordHash u;
     models.PartnerName := models.PartnerName u |}.

Definition with_ID (id : N) (u : models.User) : models.User :=
  {| models.ID := id; models.CreatedAt := models.CreatedAt u;
     models.UpdatedAt := models.UpdatedAt u; models.DeletedAt := models.DeletedAt u;
     models.Name := models.Name u; models.Email := models.Email u;
     models.PasswordHash := models.PasswordHash u;
     models.PartnerName := models.PartnerName u |}.

(** The primary key that the table gives to a new row. *)
Definition fresh_ID (rows : gmap N models.User) : N :=
  (1 + foldr N.max 0 (fst <$> map_to_list rows))%N.

(** [db.Create(&user)]: the row is stored under a new primary key, with
    the times of creation and of update set to [now]; the user that is
    returned is the row. *)
Definition Create (u : models.User) (now : time.Time) (db : DB)
  : option error * models.User * DB :=
  match next_fault db with
  | (Some err, db') => (Some err, u, db')
  | (None, db') =>
    let id := if (models.ID u =? 0)%N then fresh_ID (users db') else models.ID u in
    let row := with_times now now (with_ID id u) in
    (None, row, {| users := <[id := row]> (users db'); faults := faults db' |})
  end.

(** [db.Save(user)]: with a primary key that is not zero, every column of
    the row with that key is written from the user, and the time of
    update is set to [now]; with a zero primary key, [Create]. *)
Definition Save (u : models.User) (now : time.Time) (db : DB)
  : option error * models.User * DB :=
  if (models.ID u =? 0)%N then Create u now db
  else
    match next_fault db with
    | (Some err, db') => (Some err, u, db')
    | (None, db') =>
      let row := with_times (models.CreatedAt u) now u in
      (None, row,
       {| users := <[models.ID u := row]> (users db'); faults := faults db' |})
    end.

Definition with_DeletedAt (deleted : option time.Time) (u : models.User) : models.User :=
  {| models.ID := models.ID u; models.CreatedAt := models.CreatedAt u;
     models.UpdatedAt := models.UpdatedAt u; models.DeletedAt := deleted;
     models.Name := models.Name u; models.Email := models.Email u;
     models.PasswordHash := models.PasswordHash u;
     models.PartnerName := models.PartnerName u |}.

(** [db.Delete(&models.User{}, id)]: the model has a [DeletedAt], so the
    statement is
    [UPDATE users SET deleted_at = now WHERE id = ? AND deleted_at IS NULL];
    that no row is updated is no error. *)
Definition Delete (id : N) (now : time.Time) (db : DB) : option error * DB :=
  match next_fault db with
  | (Some err, db') => (Some err, db')
  | (None, db') =>
    (None,
     {| users :=
          (fun u =>
             if (models.ID u =? id)%N && bool_decide (models.DeletedAt u = None)
             then with_DeletedAt (Some now) u else u) <$> users db';
        faults := faults db' |})
  end.


End gorm.

(* ===================================================================== *)
(** * internal/repository/user.go *)
(* ===================================================================== *)

Module repository.

(** [FindByEmail] *)
Definition FindByEmail (email : string) (db : gorm.DB) : Result models.User * gorm.DB :=
  match gorm.First (fun u => String.eqb (models.Email u) email) db with
  | (Err err, db') =>
    if errors.Is err gorm.ErrRecordNotFound
    then (Err (errorString "repository.FindByEmail" "user not found"), db')
    else (Err err, db')
  | (Ok user, db') => (Ok user, db')
  end.

(** [FindByID] *)
Definition FindByID (id : N) (db : gorm.DB) : Result models.User * gorm.DB :=
  match gorm.First (fun u => (models.ID u =? id)%N) db with
  | (Err err, db') =>
    if errors.Is err gorm.ErrRecordNotFound
    then (Err (errorString "repository.FindByID" "user not found"), db')
    else (Err err, db')
  | (Ok user, db') => (Ok user, db')
  end.

(** [Update] *)
Definition Update (user : models.User) (now : time.Time) (db : gorm.DB)
  : option error * models.User * gorm.DB :=
  gorm.Save user now db.

(** [Create] *)
Definition Create (user : models.User) (now : time.Time) (db : gorm.DB)
  : option error * models.User * gorm.DB :=
  gorm.Create user now db.

(** [Delete] *)
Definition Delete (id : N) (now : time.Time) (db : gorm.DB) : option error * gorm.DB :=
  gorm.Delete id now db.


End repository.

(* ===================================================================== *)
(** * The user controllers *)
(* ===================================================================== *)

(** go-playground/validator, as the binding tags of the controllers use it:
    [min] and [max] on a string bound its number of runes, and [omitempty]
    skips the other tags on an empty string. *)
Module validator.

(** [utf8.RuneCountInString] *)
Fixpoint count_from (fuel : nat) (s : string) (n : Z) : Z :=
  match fuel with
  | O => n
  | S fuel' =>
    if (len s =? 0)%nat then n
    else
      let '(_, size) := utf8.DecodeRuneInString s in
      count_from fuel' (slice_from s size) (n + 1)
  end.

Definition RuneCountInString (s : string) : Z := count_from (len s) s 0.

(** The tags [omitempty,min=lo,max=hi] on a string. *)
Definition omitempty_min_max (lo hi : Z) (s : string) : bool :=
  String.eqb s "" ||
  ((lo <=? RuneCountInString s) && (RuneCountInString s <=? hi)).

End validator.

Module controllers.

Definition maxRequestBodySize : Z := 2 ^ 20.
Definition timingAttackDelay : time.Duration := 100 * time.Millisecond.

(** What a handler acts on besides the context of the request: the
    database, the lines written with [log.Printf], and the durations
    given to [time.Sleep], both in the order of the calls. *)
Record World : Type := {
  database : gorm.DB;
  Log : list string;
  Slept : list time.Duration
}.

Definition set_database (db : gorm.DB) (w : World) : World :=
  {| database := db; Log := Log w; Slept := Slept w |}.

(** [log.Printf(...)], given the formatted line. *)
Definition Printf (line : string) (w : World) : World :=
  {| database := database w; Log := Log w ++ [line]; Slept := Slept w |}.

(** [time.Sleep(d)] *)
Definition Sleep (d : time.Duration) (w : World) : World :=
  {| database := database w; Log := Log w; Slept := Slept w ++ [d] |}.

(** The struct [userResponse] as JSON. *)
Definition userResponse (user : models.User) : JSON :=
  JSON_object
    [ ("id", JSON_number (Z.of_N (models.ID user)));
      ("name", JSON_string (models.Name user));
      ("email", JSON_string (models.Email user));
      ("partner_name", JSON_string (models.PartnerName user));
      ("created_at", JSON_time (models.CreatedAt user)) ].

(** The struct [loginResponse] as JSON. *)
Definition loginResponse (token : string) (expiresIn : Z) (user : JSON) : JSON :=
  JSON_object
    [ ("token", JSON_string token);
      ("expires_in", JSON_number expiresIn);
      ("user", user) ].

(** The struct [errorResponse] as JSON. *)
Definition errorResponse (msg : string) : JSON :=
  JSON_object [ ("error", JSON_string msg) ].

(** The anonymous struct [updateData] of [UpdateProfile]. *)
Record updateData : Type := {
  updateData_Name : string;
  updateData_PartnerName : string
}.

(** [parseIDParam] of the wedding controllers; [Param] is [c.Param]. *)
Definition parseIDParam (Param : string -> string) (paramName : string) : Result N :=
  let idStr := Param paramName in
  match strconv.ParseUint_base10 "ParseUint" idStr 32 with
  | Err _ => Err (errorString "controllers.parseIDParam" "invalid ID parameter")
  | Ok id =>
    if (id =? 0)%N then Err (errorString "controllers.parseIDParam" "invalid ID parameter")
    else Ok id
  end.

Section Controllers.
Context `{jwt.Encoding} `{auth.ClaimsJSON} `{bcrypt.Primitives}.
Variable JWT_SECRET : string.
Variable ParseWithClaims :
  string -> auth.Claims -> jwt.Keyfunc auth.Claims -> time.Time ->
  jwt.Parsed auth.Claims.

(** [json] decoding of a body that is read through
    [http.MaxBytesReader] with the given limit, at the two types that
    the handlers bind. *)
Variable Decode_LoginRequest : Z -> string -> Result models.LoginRequest.
Variable Decode_updateData : Z -> string -> Result updateData.

(** [c.ShouldBindJSON(&updateData)]: the decoding, then the binding
    tags [omitempty,min=2,max=100] and [omitempty,max=100]. *)
Definition ShouldBindJSON_updateData (limit : Z) (body : string) : Result updateData :=
  match Decode_updateData limit body with
  | Err err => Err err
  | Ok d =>
    if validator.omitempty_min_max 2 100 (updateData_Name d) &&
       validator.omitempty_min_max 0 100 (updateData_PartnerName d)
    then Ok d
    else Err (errors.opaque "validation of the request failed")
  end.

(** [Login]; [now] is what [time.Now()] returns in [CreateToken]. *)
Definition Login (now : time.Time) (c : gin.Context) (w : World)
  : gin.Context * World :=
  match Decode_LoginRequest maxRequestBodySize (gin.Body c) with
  | Err _ =>
    (gin.JSON http.StatusUnprocessableEntity (errorResponse "invalid request data") c,
     w)
  | Ok loginReq =>
    match repository.FindByEmail (models.LoginRequest_Email loginReq) (database w) with
    | (Err _, db) =>
      let w := set_database db w in
      let w := Sleep timingAttackDelay w in
      (gin.JSON http.StatusUnauthorized (errorResponse "invalid email or password") c,
       w)
    | (Ok user, db) =>
      let w := set_database db w in
      match security.CheckPassword (models.PasswordHash user)
                                   (models.LoginRequest_Password loginReq) with
      | Some _ =>
        let w := Sleep timingAttackDelay w in
        let w :=
          Printf ("[SECURITY] Failed login attempt for email: " +:+
                  models.LoginRequest_Email loginReq +:+ " from IP: " +:+
                  gin.ClientIP c) w in
        (gin.JSON http.StatusUnauthorized
                  (errorResponse "invalid email or password") c,
         w)
      | None =>
        match auth.CreateToken JWT_SECRET now (models.ID user) (models.Email user) with
        | Err err =>
          let w :=
            Printf ("[ERROR] Failed to create token for user " +:+
                    Sprintf_d (models.ID user) +:+ ": " +:+ errors.Error err) w in
          (gin.JSON http.StatusInternalServerError
                    (errorResponse "unable to complete authentication") c,
           w)
        | Ok token =>
          let w :=
            Printf ("[INFO] Successful login for user " +:+
                    Sprintf_d (models.ID user) +:+ " (" +:+ models.Email user +:+
                    ") from IP: " +:+ gin.ClientIP c) w in
          (gin.JSON http.StatusOK
                    (loginResponse token
                       (time.Seconds auth.TokenExpirationTime)
                       (userResponse user)) c,
           w)
        end
      end
    end
  end.

Definition set_Name (name : string) (u : models.User) : models.User :=
  {| models.ID := models.ID u; models.CreatedAt := models.CreatedAt u;
     models.UpdatedAt := models.UpdatedAt u; models.DeletedAt := models.DeletedAt u;
     models.Name := name; models.Email := models.Email u;
     models.PasswordHash := models.PasswordHash u;
     models.PartnerName := models.PartnerName u |}.

Definition set_PartnerName (name : string) (u : models.User) : models.User :=
  {| models.ID := models.ID u; models.CreatedAt := models.CreatedAt u;
     models.UpdatedAt := models.UpdatedAt u; models.DeletedAt := models.DeletedAt u;
     models.Name := models.Name u; models.Email := models.Email u;
     models.PasswordHash := models.PasswordHash u;
     models.PartnerName := name |}.

(** [UpdateProfile]; [now1] is the reading of the clock by the parse of
    the token, [now2] the one by the update of the row. *)
Definition UpdateProfile (now1 now2 : time.Time) (c : gin.Context) (w : World)
  : gin.Context * World :=
  match auth.ExtractUserID JWT_SECRET ParseWithClaims now1 c with
  | Err err =>
    (gin.JSON http.StatusUnauthorized (errorResponse (errors.Error err)) c, w)
  | Ok userID =>
    match ShouldBindJSON_updateData (2 ^ 20) (gin.Body c) with
    | Err _ =>
      (gin.JSON http.StatusBadRequest (errorResponse "invalid request data") c, w)
    | Ok updateData =>
      match repository.FindByID userID (database w) with
      | (Err _, db) =>
        (gin.JSON http.StatusNotFound (errorResponse "user not found") c,
         set_database db w)
      | (Ok user, db) =>
        let w := set_database db w in
        let user :=
          if negb (String.eqb (updateData_Name updateData) "")
          then set_Name (gostrings.TrimSpace (updateData_Name updateData)) user
          else user in
        let user :=
          if negb (String.eqb (updateData_PartnerName updateData) "")
          then set_PartnerName
                 (gostrings.TrimSpace (updateData_PartnerName updateData)) user
          else user in
        match repository.Update user now2 (database w) with
        | (Some err, _, db) =>
          let w := set_database db w in
          let w :=
            Printf ("[ERROR] Failed to update user " +:+ Sprintf_d userID +:+
                    ": " +:+ errors.Error err) w in
          (gin.JSON http.StatusInternalServerError
                    (errorResponse "unable to update profile") c,
           w)
        | (None, user, db) =>
          (gin.JSON http.StatusOK
                    (gin.H [ ("message", JSON_string "profile updated successfully");
                             ("user", userResponse user) ]) c,
           set_database db w)
        end
      end
    end
  end.

(** [GetProfile].  The result is [None] when the type assertion
    [userID.(uint)] panics: the value under ["user_id"] is not a [uint]. *)
Definition GetProfile (c : gin.Context) (w : World) : option (gin.Context * World) :=
  match gin.Get "user_id" c with
  | None =>
    Some (gin.JSON http.StatusUnauthorized (errorResponse "authentication required") c,
          w)
  | Some (gin.Any_uint userID) =>
    match repository.FindByID userID (database w) with
    | (Err err, db) =>
      let w := set_database db w in
      if errors.Is err gorm.ErrRecordNotFound then
        Some (gin.JSON http.StatusNotFound (errorResponse "user not found") c, w)
      else
        let w :=
          Printf ("[ERROR] Failed to fetch user " +:+ Sprintf_d userID +:+ ": " +:+
                  errors.Error err) w in
        Some (gin.JSON http.StatusInternalServerError
                       (errorResponse "unable to fetch user profile") c,
              w)
    | (Ok user, db) =>
      Some (gin.JSON http.StatusOK (userResponse user) c, set_database db w)
    end
  | Some _ => None
  end.

(** [DeleteUser]; [now1] is the reading of the clock by the parse of the
    token, [now2] the one by the deletion of the row. *)
Definition DeleteUser (now1 now2 : time.Time) (c : gin.Context) (w : World)
  : gin.Context * World :=
  match auth.ExtractUserID JWT_SECRET ParseWithClaims now1 c with
  | Err err =>
    (gin.JSON http.StatusUnauthorized (errorResponse (errors.Error err)) c, w)
  | Ok userID =>
    match repository.Delete userID now2 (database w) with
    | (Some err, db) =>
      let w := set_database db w in
      let w :=
        Printf ("[ERROR] Failed to delete user " +:+ Sprintf_d userID +:+ ": " +:+
                errors.Error err) w in
      (gin.JSON http.StatusInternalServerError
                (errorResponse "unable to delete user account") c,
       w)
    | (None, db) =>
      let w := set_database db w in
      let w :=
        Printf ("[INFO] User " +:+ Sprintf_d userID +:+ " deleted account from IP: " +:+
                gin.ClientIP c) w in
      (gin.JSON http.StatusOK
                (gin.H [ ("message", JSON_string "user account deleted successfully") ]) c,
       w)
    end
  end.

End Controllers.

End controllers.
(* ===================================================================== *)
(** * Properties of the string functions *)
(* ===================================================================== *)

Lemma substring_all (s : string) : substring 0 (String.length s) s = s.
Proof. induction s as [|c s IH]; simpl; [reflexivity | by rewrite IH]. Qed.

Lemma substring_0_0 (s : string) : substring 0 0 s = EmptyString.
Proof. destruct s; reflexivity. Qed.

Lemma append_String (c : ascii) (a b : string) :
  String c a +:+ b = String c (a +:+ b).
Proof. reflexivity. Qed.

Lemma append_empty (b : string) : EmptyString +:+ b = b.
Proof. reflexivity. Qed.

Lemma length_append (a b : string) :
  String.length (a +:+ b) = (String.length a + String.length b)%nat.
Proof.
  induction a as [|c a IH]; [reflexivity |].
  rewrite append_String. simpl. by rewrite IH.
Qed.

Lemma substring_append_r (a b : string) (n : nat) :
  substring (String.length a) n (a +:+ b) = substring 0 n b.
Proof.
  induction a as [|c a IH]; [reflexivity |].
  rewrite append_String. simpl. exact IH.
Qed.

Lemma substring_append_l (a b : string) :
  substring 0 (String.length a) (a +:+ b) = a.
Proof.
  induction a as [|c a IH]; [apply substring_0_0 |].
  rewrite append_String. simpl. by rewrite IH.
Qed.

Lemma slice_from_append (a b : string) : slice_from (a +:+ b) (len a) = b.
Proof.
  unfold slice_from, slice, len. rewrite length_append.
  replace (String.length a + String.length b - String.length a)%nat
    with (String.length b) by lia.
  rewrite substring_append_r. apply substring_all.
Qed.

(** [strings.HasPrefix] holds of the strings that start with the prefix. *)
Lemma HasPrefix_append (p r : string) : gostrings.HasPrefix (p +:+ r) p = true.
Proof.
  unfold gostrings.HasPrefix, slice, len. rewrite length_append.
  rewrite Nat.sub_0_r, substring_append_l, String.eqb_refl.
  rewrite andb_true_r. apply Nat.leb_le. lia.
Qed.



(** A character of a signed token: a letter, a digit, [-], [_] or [.]. *)
Definition tokchar (c : ascii) : bool := jwt.urlchar c || Ascii.eqb c ".".

Definition tokchars (s : string) : bool := forallb tokchar (list_ascii_of_string s).

Lemma tokchar_not_space (c : ascii) :
  tokchar c = true ->
  (byte c <? utf8.RuneSelf) = true /\ gostrings.asciiSpace (byte c) = 0.
Proof.
  destruct c as [[] [] [] [] [] [] [] []]; vm_compute; intros; try discriminate; auto.
Qed.

Lemma tokchars_get (s : string) (i : nat) (c : ascii) :
  tokchars s = true -> String.get i s = Some c -> tokchar c = true.
Proof.
  unfold tokchars. revert i. induction s as [|d s IH]; intros i Hs Hg; simpl in *.
  - discriminate.
  - apply andb_true_iff in Hs as [Hd Hs]. destruct i as [|i].
    + by inversion Hg; subst.
    + eauto.
Qed.

Lemma get_is_Some (s : string) (i : nat) :
  (i < String.length s)%nat -> exists c, String.get i s = Some c.
Proof.
  revert i. induction s as [|d s IH]; intros i Hi; simpl in *; [lia |].
  destruct i as [|i]; [eauto | apply IH; lia].
Qed.

Lemma tokchars_idx (s : string) (i : nat) :
  tokchars s = true -> (i < len s)%nat ->
  (idx s i <? utf8.RuneSelf) = true /\ gostrings.asciiSpace (idx s i) = 0.
Proof.
  intros Hs Hi. destruct (get_is_Some s i Hi) as [c Hc].
  unfold idx. rewrite Hc. apply tokchar_not_space. eapply tokchars_get; eauto.
Qed.

(** Trimming leaves a string of token characters as it is. *)
Lemma TrimSpace_tokchars (s : string) : tokchars s = true -> gostrings.TrimSpace s = s.
Proof.
  intros Hs. unfold gostrings.TrimSpace.
  destruct (Nat.eq_dec (len s) 0%nat) as [H0|H0].
  - destruct s; [reflexivity | discriminate].
  - assert (Hstart : gostrings.TrimSpace_start (S (len s)) s 0%nat = inl 0%nat).
    { simpl. destruct (Nat.ltb_spec 0%nat (len s)) as [Hlt|]; [|lia].
      destruct (tokchars_idx s 0%nat Hs Hlt) as [Ha Hb].
      unfold utf8.RuneSelf in *.
      destruct (Z.leb_spec 128 (idx s 0%nat)); [apply Z.ltb_lt in Ha; lia |].
      rewrite Hb. reflexivity. }
    rewrite Hstart.
    assert (Hstop : gostrings.TrimSpace_stop (S (len s)) s 0%nat (len s) = inl (len s)).
    { simpl. destruct (Nat.ltb_spec 0%nat (len s)) as [Hlt|]; [|lia].
      destruct (tokchars_idx s (len s - 1) Hs ltac:(lia)) as [Ha Hb].
      unfold utf8.RuneSelf in *.
      destruct (Z.leb_spec 128 (idx s (len s - 1))); [apply Z.ltb_lt in Ha; lia |].
      rewrite Hb. reflexivity. }
    rewrite Hstop. unfold slice. rewrite Nat.sub_0_r. apply substring_all.
Qed.

Definition nodot (s : string) : bool :=
  forallb (fun c => negb (Ascii.eqb c ".")) (list_ascii_of_string s).

Lemma urlchar_nodot (c : ascii) : jwt.urlchar c = true -> negb (Ascii.eqb c ".") = true.
Proof.
  destruct c as [[] [] [] [] [] [] [] []]; vm_compute; intros; try discriminate; auto.
Qed.

Lemma urlchars_nodot (s : string) : jwt.urlchars s = true -> nodot s = true.
Proof.
  unfold jwt.urlchars, nodot. induction s as [|c s IH]; simpl; [auto |].
  intros [Hc Hs]%andb_true_iff. rewrite urlchar_nodot, IH by assumption. reflexivity.
Qed.

Lemma urlchars_tokchars (s : string) : jwt.urlchars s = true -> tokchars s = true.
Proof.
  unfold jwt.urlchars, tokchars, tokchar. induction s as [|c s IH]; simpl; [auto |].
  intros [Hc Hs]%andb_true_iff. rewrite Hc, IH by assumption. reflexivity.
Qed.

Lemma tokchars_append (a b : string) :
  tokchars a = true -> tokchars b = true -> tokchars (a +:+ b) = true.
Proof.
  unfold tokchars. induction a as [|c a IH]; intros Ha Hb; [exact Hb |].
  rewrite append_String. simpl in *.
  apply andb_true_iff in Ha as [Hc Ha]. rewrite Hc, IH by assumption. reflexivity.
Qed.

Lemma Split_nodot (a : string) : nodot a = true -> Split a "." = [a].
Proof.
  unfold nodot. induction a as [|c a IH]; simpl; [reflexivity |].
  intros [Hc Ha]%andb_true_iff.
  destruct (Ascii.eqb c "."); [discriminate |].
  rewrite IH by assumption. reflexivity.
Qed.

Lemma Split_append (a r : string) :
  nodot a = true -> Split (a +:+ String "." r) "." = a :: Split r ".".
Proof.
  unfold nodot. induction a as [|c a IH]; [reflexivity |].
  rewrite append_String. simpl.
  intros [Hc Ha]%andb_true_iff.
  destruct (Ascii.eqb c "."); [discriminate |].
  rewrite IH by assumption. reflexivity.
Qed.

(** The three segments of a signed token come back from the split. *)
Lemma Split_segments (a b c : string) :
  nodot a = true -> nodot b = true -> nodot c = true ->
  Split (a +:+ "." +:+ b +:+ "." +:+ c) "." = [a; b; c].
Proof.
  intros Ha Hb Hc.
  change (a +:+ "." +:+ b +:+ "." +:+ c)
    with (a +:+ String "." (b +:+ String "." c)).
  rewrite Split_append by assumption.
  rewrite Split_append by assumption.
  rewrite Split_nodot by assumption. reflexivity.
Qed.

(* ===================================================================== *)
(** * The requests of the statements *)
(* ===================================================================== *)

(** A request as the engine hands it to the first handler of its route. *)
Definition request (header : gmap string (list string)) (body : string) : gin.Context :=
  {| gin.Header := header; gin.Body := body; gin.ClientIP := "192.0.2.1";
     gin.Keys := ∅; gin.index := 0; gin.Writer := [] |}.

(** A request whose header [Authorization] has the one value [v]. *)
Definition authorized (v : string) : gin.Context :=
  request {[ "Authorization" := [v] ]} "".

Lemma GetHeader_authorized (v : string) :
  gin.GetHeader (authorized v) "Authorization" = v.
Proof. unfold gin.GetHeader, authorized, request. simpl. by rewrite lookup_singleton_eq. Qed.

(* ===================================================================== *)
(** * ExtractToken *)
(* ===================================================================== *)

Lemma ExtractToken_Bearer (c : gin.Context) (rest : string) :
  gin.GetHeader c "Authorization" = "Bearer " +:+ rest ->
  auth.ExtractToken c = gostrings.TrimSpace rest.
Proof.
  intros Hh. unfold auth.ExtractToken. rewrite Hh.
  rewrite HasPrefix_append.
  change 7%nat with (len "Bearer "). rewrite slice_from_append.
  unfold len. rewrite length_append. simpl String.length.
  destruct rest as [|d rest]; reflexivity.
Qed.



(* ===================================================================== *)
(** * Parsing a well-formed token *)
(* ===================================================================== *)

Lemma Is_ErrTokenInvalid_wrap (v : string) (target : error) :
  errors.Is (Errorf_w_v auth.ErrTokenInvalid v) target =
  errors.same auth.ErrTokenInvalid target.
Proof.
  unfold Errorf_w_v. simpl. destruct target; simpl; by rewrite ?orb_false_r.
Qed.

Lemma GetSigningMethod_Alg (m : jwt.SigningMethod) :
  jwt.GetSigningMethod (jwt.Alg m) = Some m.
Proof. destruct m as [[]|[]|[]|[]| |]; reflexivity. Qed.

Lemma GetSigningMethod_Some (alg : string) (m : jwt.SigningMethod) :
  jwt.GetSigningMethod alg = Some m -> jwt.Alg m = alg.
Proof.
  unfold jwt.GetSigningMethod. intros Hf.
  apply find_some in Hf as [_ Hf]. by apply String.eqb_eq.
Qed.

Section Tokens.
Context `{jwt.Encoding} `{auth.ClaimsJSON}.
Variable JWT_SECRET : string.

(** The parse of the service: [jwt.ParseWithClaims] at the type
    [auth.Claims]. *)
Definition parse :
  string -> auth.Claims -> jwt.Keyfunc auth.Claims -> time.Time ->
  jwt.Parsed auth.Claims :=
  jwt.ParseWithClaims auth.Unmarshal_Claims.

(** A token that is well formed: it has three segments, of which the first
    decodes to the header, the second to the claims and the third to the
    signature; [text] is what the signature signs. *)
Definition decodes (tokenString : string) (header : gmap string string)
           (claims : auth.Claims) (sig text : string) : Prop :=
  exists p0 p1 p2 headerBytes claimBytes,
    Split tokenString "." = [p0; p1; p2] /\
    jwt.DecodeSegment p0 = Ok headerBytes /\
    jwt.Unmarshal_Header headerBytes = Ok header /\
    jwt.DecodeSegment p1 = Ok claimBytes /\
    auth.Unmarshal_Claims claimBytes = Ok claims /\
    jwt.DecodeSegment p2 = Ok sig /\
    text = p0 +:+ "." +:+ p1.

Lemma decodes_not_empty ts header claims sig text :
  decodes ts header claims sig text -> String.eqb ts "" = false.
Proof.
  intros (p0 & p1 & p2 & hb & cb & Hs & _). destruct ts; [discriminate | reflexivity].
Qed.

(** The token that the parse builds once the method is known. *)
Definition parsed_token (ts : string) (m : jwt.SigningMethod)
           (header : gmap string string) (claims : auth.Claims) (sig : string)
           (valid : bool) : jwt.Token auth.Claims :=
  {| jwt.Raw := ts; jwt.Method := Some m; jwt.Header := header;
     jwt.Claims_ := claims; jwt.Signature := sig; jwt.Valid := valid |}.

(** The parse of a well-formed token, step by step: the method of the
    header, the key function, the signature, the claims. *)
Lemma parse_decodes ts header claims sig text zero keyFunc now :
  decodes ts header claims sig text ->
  parse ts zero keyFunc now =
  match header !! "alg" with
  | None =>
    jwt.ParseErr
      (Some {| jwt.Raw := ts; jwt.Method := None; jwt.Header := header;
               jwt.Claims_ := claims; jwt.Signature := ""; jwt.Valid := false |})
      (jwt.newError "signing method (alg) is unspecified" jwt.ErrTokenUnverifiable [])
  | Some alg =>
    match jwt.GetSigningMethod alg with
    | None =>
      jwt.ParseErr
        (Some {| jwt.Raw := ts; jwt.Method := None; jwt.Header := header;
                 jwt.Claims_ := claims; jwt.Signature := ""; jwt.Valid := false |})
        (jwt.newError "signing method (alg) is unavailable" jwt.ErrTokenUnverifiable [])
    | Some m =>
      let token := parsed_token ts m header claims sig false in
      match keyFunc token with
      | Err err =>
        jwt.ParseErr (Some token)
          (jwt.newError "error while executing keyfunc" jwt.ErrTokenUnverifiable [err])
      | Ok key =>
        match jwt.Verify m text sig key with
        | Some err =>
          jwt.ParseErr (Some token) (jwt.newError "" jwt.ErrTokenSignatureInvalid [err])
        | None =>
          match jwt.Validate claims now with
          | Some err =>
            jwt.ParseErr (Some token) (jwt.newError "" jwt.ErrTokenInvalidClaims [err])
          | None => jwt.ParseOk (parsed_token ts m header claims sig true)
          end
        end
      end
    end
  end.
Proof.
  intros (p0 & p1 & p2 & hb & cb & Hs & Hd0 & Hh & Hd1 & Hc & Hd2 & ->).
  unfold parse, jwt.ParseWithClaims, jwt.ParseUnverified.
  rewrite Hs, Hd0, Hh, Hd1, Hc.
  destruct (header !! "alg") as [alg|]; [|reflexivity].
  destruct (jwt.GetSigningMethod alg) as [m|]; [|reflexivity].
  cbn [nth]. rewrite Hd2. reflexivity.
Qed.

(** The key function gives the secret for a method of the HMAC family and
    an error that wraps [ErrInvalidSigningMethod] for any other. *)
Lemma returnVerificationKey_HMAC ts h header claims sig valid :
  auth.returnVerificationKey JWT_SECRET
    (parsed_token ts (jwt.SigningMethodHMAC h) header claims sig valid) = Ok JWT_SECRET.
Proof. reflexivity. Qed.

Lemma returnVerificationKey_other ts m header claims sig valid :
  jwt.is_SigningMethodHMAC m = false ->
  exists v,
    auth.returnVerificationKey JWT_SECRET (parsed_token ts m header claims sig valid) =
    Err (Errorf_w_v auth.ErrInvalidSigningMethod v).
Proof.
  intros Hm. unfold auth.returnVerificationKey. simpl. rewrite Hm. simpl. eauto.
Qed.

(** Whether the validator finds the claims expired, and not valid yet. *)
Definition expired (claims : auth.Claims) (now : time.Time) : bool :=
  match jwt.ExpiresAt (auth.RegisteredClaims claims) with
  | Some exp => negb (now <? jwt.Time_of exp)
  | None => false
  end.

Definition not_valid_yet (claims : auth.Claims) (now : time.Time) : bool :=
  match jwt.NotBefore (auth.RegisteredClaims claims) with
  | Some nbf => now <? jwt.Time_of nbf
  | None => false
  end.

Lemma Validate_cases (claims : auth.Claims) (now : time.Time) :
  jwt.Validate claims now =
  match expired claims now, not_valid_yet claims now with
  | false, false => None
  | true, false => Some (jwt.joinErrors [jwt.ErrTokenExpired])
  | false, true => Some (jwt.joinErrors [jwt.ErrTokenNotValidYet])
  | true, true => Some (jwt.joinErrors [jwt.ErrTokenExpired; jwt.ErrTokenNotValidYet])
  end.
Proof.
  unfold jwt.Validate, jwt.verifyExpiresAt, jwt.verifyNotBefore, expired, not_valid_yet.
  unfold time.Before, time.Add, jwt.leeway. simpl.
  destruct (jwt.ExpiresAt _) as [e|], (jwt.NotBefore _) as [n|]; simpl;
    rewrite ?Z.add_0_r; repeat (destruct (_ <? _)); reflexivity.
Qed.

(** [VerifyToken] on a request that carries a well-formed token signed
    with HMAC under the secret of the process: the outcome is decided by the
    times of the claims, expiry first. *)
Lemma VerifyToken_signed c ts h header claims sig text now :
  auth.ExtractToken c = ts ->
  decodes ts header claims sig text ->
  header !! "alg" = Some (jwt.Alg (jwt.SigningMethodHMAC h)) ->
  sig = jwt.HMAC h JWT_SECRET text ->
  auth.VerifyToken JWT_SECRET parse now c =
  if expired claims now then Some auth.ErrTokenExpired
  else if not_valid_yet claims now then Some auth.ErrTokenNotValidYet
  else None.
Proof.
  intros Hts Hd Halg ->. unfold auth.VerifyToken. rewrite Hts.
  rewrite (decodes_not_empty _ _ _ _ _ Hd).
  rewrite (parse_decodes _ _ _ _ _ _ _ _ Hd), Halg, GetSigningMethod_Alg.
  cbn zeta. rewrite returnVerificationKey_HMAC.
  unfold jwt.Verify. rewrite String.eqb_refl.
  rewrite Validate_cases.
  destruct (expired claims now), (not_valid_yet claims now); reflexivity.
Qed.

(** The same for [ExtractTokenMetadata] and [ExtractUserID]: every failure
    is [ErrTokenInvalid]. *)
Lemma ExtractTokenMetadata_signed c ts h header claims sig text now :
  auth.ExtractToken c = ts ->
  decodes ts header claims sig text ->
  header !! "alg" = Some (jwt.Alg (jwt.SigningMethodHMAC h)) ->
  sig = jwt.HMAC h JWT_SECRET text ->
  auth.ExtractTokenMetadata JWT_SECRET parse now c =
  if expired claims now || not_valid_yet claims now then Err auth.ErrTokenInvalid
  else Ok claims.
Proof.
  intros Hts Hd Halg ->. unfold auth.ExtractTokenMetadata. rewrite Hts.
  rewrite (decodes_not_empty _ _ _ _ _ Hd).
  rewrite (parse_decodes _ _ _ _ _ _ _ _ Hd), Halg, GetSigningMethod_Alg.
  cbn zeta. rewrite returnVerificationKey_HMAC.
  unfold jwt.Verify. rewrite String.eqb_refl.
  rewrite Validate_cases.
  destruct (expired claims now), (not_valid_yet claims now); reflexivity.
Qed.

Lemma ExtractUserID_signed c ts h header claims sig text now :
  auth.ExtractToken c = ts ->
  decodes ts header claims sig text ->
  header !! "alg" = Some (jwt.Alg (jwt.SigningMethodHMAC h)) ->
  sig = jwt.HMAC h JWT_SECRET text ->
  auth.ExtractUserID JWT_SECRET parse now c =
  if expired claims now || not_valid_yet claims now then Err auth.ErrTokenInvalid
  else Ok (auth.UserID claims).
Proof.
  intros Hts Hd Halg ->. unfold auth.ExtractUserID. rewrite Hts.
  rewrite (decodes_not_empty _ _ _ _ _ Hd).
  rewrite (parse_decodes _ _ _ _ _ _ _ _ Hd), Halg, GetSigningMethod_Alg.
  cbn zeta. rewrite returnVerificationKey_HMAC.
  unfold jwt.Verify. rewrite String.eqb_refl.
  rewrite Validate_cases.
  destruct (expired claims now), (not_valid_yet claims now); reflexivity.
Qed.

End Tokens.

(* ===================================================================== *)
(** * Issued tokens *)
(* ===================================================================== *)

Lemma Second_val : time.Second = 1000000000.
Proof. reflexivity. Qed.

Lemma TokenExpirationTime_val : auth.TokenExpirationTime = 86400 * time.Second.
Proof. reflexivity. Qed.

(** The date of a time is its number of whole seconds. *)
Lemma NewNumericDate_div (t : time.Time) : jwt.NewNumericDate t = t / time.Second.
Proof.
  unfold jwt.NewNumericDate, time.Truncate, jwt.TimePrecision. rewrite Second_val.
  rewrite (Z.div_mod t 1000000000) at 1 by lia.
  replace (1000000000 * (t / 1000000000) + t mod 1000000000 - t mod 1000000000)
    with (t / 1000000000 * 1000000000) by lia.
  apply Z.div_mul. lia.
Qed.

Lemma NewNumericDate_bounds (t : time.Time) :
  jwt.Time_of (jwt.NewNumericDate t) <= t < jwt.Time_of (jwt.NewNumericDate t) + time.Second.
Proof.
  rewrite NewNumericDate_div. unfold jwt.Time_of, jwt.TimePrecision.
  rewrite Second_val.
  pose proof (Z.div_mod t 1000000000 ltac:(lia)).
  pose proof (Z.mod_pos_bound t 1000000000 ltac:(lia)). lia.
Qed.

Lemma NewNumericDate_expiration (now : time.Time) :
  jwt.NewNumericDate (time.Add now auth.TokenExpirationTime) =
  jwt.NewNumericDate now + 86400.
Proof.
  rewrite !NewNumericDate_div. unfold time.Add.
  rewrite TokenExpirationTime_val, Second_val. apply Z.div_add. lia.
Qed.

Lemma DecodeRune_ascii (c : ascii) (s : string) :
  byte c < utf8.RuneSelf -> utf8.DecodeRuneInString (String c s) = (byte c, 1%nat).
Proof.
  intros Hc. unfold utf8.DecodeRuneInString. cbn [len String.length Nat.ltb Nat.leb].
  change (idx (String c s) 0) with (byte c).
  destruct (Z.ltb_spec (byte c) utf8.RuneSelf); [reflexivity | lia].
Qed.

Definition ascii_only (s : string) : bool :=
  forallb (fun c => byte c <? utf8.RuneSelf) (list_ascii_of_string s).

Lemma slice_from_tail (c : ascii) (s : string) : slice_from (String c s) 1 = s.
Proof.
  unfold slice_from, slice, len. simpl. rewrite Nat.sub_0_r. apply substring_all.
Qed.

Lemma valid_from_ascii (fuel : nat) (s : string) :
  ascii_only s = true -> utf8.valid_from fuel s = true.
Proof.
  unfold ascii_only. revert s. induction fuel as [|fuel IH]; intros s Hs; [reflexivity |].
  destruct s as [|c s]; [reflexivity |].
  simpl in Hs. apply andb_true_iff in Hs as [Hc Hs]. apply Z.ltb_lt in Hc.
  cbn [utf8.valid_from len String.length Nat.eqb].
  rewrite DecodeRune_ascii by assumption.
  replace (byte c =? utf8.RuneError) with false
    by (symmetry; apply Z.eqb_neq; unfold utf8.RuneSelf, utf8.RuneError in *; lia).
  cbn [andb]. rewrite slice_from_tail. by apply IH.
Qed.

Lemma ValidString_ascii (s : string) : ascii_only s = true -> utf8.ValidString s = true.
Proof. apply valid_from_ascii. Qed.

Lemma Sprintf_d_ascii (n : N) : ascii_only (Sprintf_d n) = true.
Proof.
  unfold Sprintf_d. generalize (N.to_uint n). intros d.
  induction d; simpl; auto.
Qed.

Lemma append_assoc (a b c : string) : (a +:+ b) +:+ c = a +:+ (b +:+ c).
Proof.
  induction a as [|d a IH]; [reflexivity |].
  rewrite !append_String. by rewrite IH.
Qed.

Section Issue.
Context `{jwt.Encoding} `{auth.ClaimsJSON}.
Variable JWT_SECRET : string.

(** The compact form of a token: header, claims and signature, each as a
    segment, with a dot between them. *)
Definition compact (header : gmap string string) (claims : auth.Claims) (sig : string)
  : string :=
  jwt.EncodeSegment (jwt.Marshal_Header header) +:+ "." +:+
  jwt.EncodeSegment (auth.Marshal_Claims claims) +:+ "." +:+
  jwt.EncodeSegment sig.

(** What a signature of the token signs. *)
Definition signing_text (header : gmap string string) (claims : auth.Claims) : string :=
  jwt.EncodeSegment (jwt.Marshal_Header header) +:+ "." +:+
  jwt.EncodeSegment (auth.Marshal_Claims claims).

(** The header that [NewWithClaims] gives a token. *)
Definition header_of (m : jwt.SigningMethod) : gmap string string :=
  <["alg" := jwt.Alg m]> (<["typ" := "JWT"]> ∅).

Lemma header_of_alg (m : jwt.SigningMethod) : header_of m !! "alg" = Some (jwt.Alg m).
Proof. unfold header_of. by rewrite lookup_insert_eq. Qed.

Lemma compact_tokchars header claims sig : tokchars (compact header claims sig) = true.
Proof.
  unfold compact.
  repeat (apply tokchars_append;
          [first [ apply urlchars_tokchars, jwt.EncodeSegment_urlchars | reflexivity ] |]).
  apply urlchars_tokchars, jwt.EncodeSegment_urlchars.
Qed.

(** A compact token is well formed. *)
Lemma compact_decodes (m : jwt.SigningMethod) (claims : auth.Claims) (sig : string) :
  auth.json_exact claims = true ->
  decodes (compact (header_of m) claims sig) (header_of m) claims sig
          (signing_text (header_of m) claims).
Proof.
  intros Hc. unfold decodes.
  exists (jwt.EncodeSegment (jwt.Marshal_Header (header_of m))),
         (jwt.EncodeSegment (auth.Marshal_Claims claims)),
         (jwt.EncodeSegment sig),
         (jwt.Marshal_Header (header_of m)), (auth.Marshal_Claims claims).
  split.
  { apply Split_segments; apply urlchars_nodot, jwt.EncodeSegment_urlchars. }
  rewrite !jwt.DecodeSegment_EncodeSegment.
  rewrite auth.Unmarshal_Marshal_Claims by assumption.
  pose proof (jwt.Unmarshal_Marshal_Header m) as Hh. cbn zeta in Hh.
  repeat split; try reflexivity. exact Hh.
Qed.

(** A request whose header is ["Bearer "] and a compact token carries that
    token. *)
Lemma ExtractToken_compact c header claims sig :
  gin.GetHeader c "Authorization" = "Bearer " +:+ compact header claims sig ->
  auth.ExtractToken c = compact header claims sig.
Proof.
  intros Hh. rewrite (ExtractToken_Bearer _ _ Hh).
  apply TrimSpace_tokchars, compact_tokchars.
Qed.

(** [CreateToken] never fails: it gives the compact form of the claims
    that it builds, under the header of HS256, signed with the secret. *)
Lemma CreateToken_compact now userID email :
  auth.CreateToken JWT_SECRET now userID email =
  Ok (compact (header_of jwt.SigningMethodHS256) (auth.newClaims now userID email)
        (jwt.HMAC jwt.SHA256 JWT_SECRET
           (signing_text (header_of jwt.SigningMethodHS256)
              (auth.newClaims now userID email)))).
Proof.
  unfold auth.CreateToken, jwt.SignedString, jwt.SigningString, compact, signing_text.
  simpl. fold (header_of jwt.SigningMethodHS256).
  by rewrite <- !append_assoc.
Qed.

Lemma newClaims_json_exact now userID email :
  (userID < 2 ^ 64)%N -> utf8.ValidString email = true -> 0 <= now < 2 ^ 63 ->
  auth.json_exact (auth.newClaims now userID email) = true.
Proof.
  intros Hu He Hn. unfold auth.json_exact, auth.newClaims.
  cbn [auth.UserID auth.Email auth.RegisteredClaims jwt.Issuer jwt.Subject
       jwt.Audience jwt.ID jwt.ExpiresAt jwt.NotBefore jwt.IssuedAt forallb
       auth.date_exact].
  rewrite He, (ValidString_ascii _ (Sprintf_d_ascii userID)).
  rewrite (ValidString_ascii "wedding_planner_service") by reflexivity.
  rewrite (ValidString_ascii "") by reflexivity.
  apply N.ltb_lt in Hu. rewrite Hu.
  rewrite NewNumericDate_expiration, NewNumericDate_div, Second_val.
  assert (0 <= now / 1000000000 <= 9223372037) as Hd.
  { split; [apply Z.div_pos; lia |].
    apply Z.div_le_upper_bound; lia. }
  assert (forall d, 0 <= d <= 9223458437 ->
                    (- 2 ^ 53 <=? d) && (d <=? 2 ^ 53) = true) as Hb.
  { intros d Hdd. apply andb_true_iff. split; apply Z.leb_le; lia. }
  rewrite !Hb by lia. reflexivity.
Qed.

End Issue.

(* ===================================================================== *)
(** * An instance of the library interfaces *)
(* ===================================================================== *)

(** The interfaces [jwt.Encoding], [auth.ClaimsJSON] and [bcrypt.Primitives]
    state what the service relies on.  The instance below meets them with
    functions that compute: a segment is its bytes in hexadecimal, a value
    is marshalled as the decimal digits of its code as a countable value,
    a message authentication code is the method, the key and the message
    side by side.  It shows that the properties can be met together, and it
    runs the definitions on concrete requests. *)
Module Model.

Definition hexdigit (n : N) : ascii :=
  if (n <? 10)%N then ascii_of_N (48 + n) else ascii_of_N (87 + n).

Definition unhex (c : ascii) : option N :=
  let n := N_of_ascii c in
  if (48 <=? n)%N && (n <=? 57)%N then Some (n - 48)%N
  else if (97 <=? n)%N && (n <=? 102)%N then Some (n - 87)%N
  else None.

Fixpoint hex_encode (s : string) : string :=
  match s with
  | EmptyString => EmptyString
  | String c r =>
    String (hexdigit (N_of_ascii c / 16)) (String (hexdigit (N_of_ascii c mod 16))
           (hex_encode r))
  end.

Fixpoint hex_decode (s : string) : option string :=
  match s with
  | EmptyString => Some EmptyString
  | String _ EmptyString => None
  | String a (String b r) =>
    match unhex a, unhex b, hex_decode r with
    | Some x, Some y, Some t => Some (String (ascii_of_N (16 * x + y)) t)
    | _, _, _ => None
    end
  end.

Definition decode_segment (s : string) : Result string :=
  match hex_decode s with
  | Some b => Ok b
  | None => Err (errors.opaque "illegal base64 data")
  end.

Lemma hex_byte (c : ascii) :
  unhex (hexdigit (N_of_ascii c / 16)) = Some (N_of_ascii c / 16)%N /\
  unhex (hexdigit (N_of_ascii c mod 16)) = Some (N_of_ascii c mod 16)%N /\
  ascii_of_N (16 * (N_of_ascii c / 16) + N_of_ascii c mod 16) = c /\
  jwt.urlchar (hexdigit (N_of_ascii c / 16)) = true /\
  jwt.urlchar (hexdigit (N_of_ascii c mod 16)) = true.
Proof. destruct c as [[] [] [] [] [] [] [] []]; vm_compute; auto. Qed.

Lemma hex_decode_encode (b : string) : hex_decode (hex_encode b) = Some b.
Proof.
  induction b as [|c b IH]; [reflexivity |].
  destruct (hex_byte c) as (Ha & Hb & Hc & _).
  cbn [hex_encode hex_decode]. rewrite Ha, Hb, IH, Hc. reflexivity.
Qed.

Lemma decode_segment_encode (b : string) : decode_segment (hex_encode b) = Ok b.
Proof. unfold decode_segment. by rewrite hex_decode_encode. Qed.

Lemma hex_encode_urlchars (b : string) : jwt.urlchars (hex_encode b) = true.
Proof.
  unfold jwt.urlchars. induction b as [|c b IH]; [reflexivity |].
  destruct (hex_byte c) as (_ & _ & _ & Ha & Hb).
  cbn [hex_encode list_ascii_of_string forallb]. rewrite Ha, Hb, IH. reflexivity.
Qed.

(** A countable value as the decimal digits of its code, and back. *)
Definition to_text {A} `{Countable A} (a : A) : string :=
  NilEmpty.string_of_uint (Pos.to_uint (encode a)).

Definition of_text {A} `{Countable A} (s : string) : Result A :=
  match NilEmpty.uint_of_string s with
  | Some d =>
    match Pos.of_uint d with
    | Npos p =>
      match decode p with
      | Some a => Ok a
      | None => Err (errors.opaque "invalid character looking for beginning of value")
      end
    | N0 => Err (errors.opaque "invalid character looking for beginning of value")
    end
  | None => Err (errors.opaque "invalid character looking for beginning of value")
  end.

Lemma of_to_text {A} `{Countable A} (a : A) : of_text (to_text a) = Ok a.
Proof.
  unfold of_text, to_text. rewrite NilEmpty.usu.
  rewrite DecimalPos.Unsigned.of_to, decode_encode. reflexivity.
Qed.

Definition hmac (h : jwt.Hash) (key msg : string) : string :=
  jwt.Alg (jwt.SigningMethodHMAC h) +:+ ":" +:+ key +:+ ":" +:+ msg.

#[global] Instance encoding : jwt.Encoding := {|
  jwt.EncodeSegment := hex_encode;
  jwt.DecodeSegment := decode_segment;
  jwt.Marshal_Header := to_text;
  jwt.Unmarshal_Header := of_text;
  jwt.HMAC := hmac;
  jwt.DecodeSegment_EncodeSegment := decode_segment_encode;
  jwt.EncodeSegment_urlchars := hex_encode_urlchars;
  jwt.Unmarshal_Marshal_Header := fun m => of_to_text _
|}.

(** The fields of the claims, in the order of the struct. *)
Definition field : Type := (string + (N + option Z + list string))%type.

Definition fields (c : auth.Claims) : list field :=
  let r := auth.RegisteredClaims c in
  [ inr (inl (inl (auth.UserID c))); inl (auth.Email c);
    inl (jwt.Issuer r); inl (jwt.Subject r); inr (inr (jwt.Audience r));
    inr (inl (inr (jwt.ExpiresAt r))); inr (inl (inr (jwt.NotBefore r)));
    inr (inl (inr (jwt.IssuedAt r))); inl (jwt.ID r) ].

Definition of_fields (l : list field) : Result auth.Claims :=
  match l with
  | [ inr (inl (inl u)); inl e; inl i; inl s; inr (inr a);
      inr (inl (inr x)); inr (inl (inr n)); inr (inl (inr t)); inl d ] =>
    Ok {| auth.UserID := u; auth.Email := e;
          auth.RegisteredClaims :=
            {| jwt.Issuer := i; jwt.Subject := s; jwt.Audience := a;
               jwt.ExpiresAt := x; jwt.NotBefore := n; jwt.IssuedAt := t;
               jwt.ID := d |} |}
  | _ => Err (errors.opaque "json: cannot unmarshal into Go value of type auth.Claims")
  end.

Definition marshal_claims (c : auth.Claims) : string := to_text (fields c).

Definition unmarshal_claims (s : string) : Result auth.Claims :=
  match of_text s with
  | Ok l => of_fields l
  | Err err => Err err
  end.

Lemma unmarshal_marshal_claims (c : auth.Claims) :
  auth.json_exact c = true -> unmarshal_claims (marshal_claims c) = Ok c.
Proof.
  intros _. unfold unmarshal_claims, marshal_claims. rewrite of_to_text.
  destruct c as [u e []]. reflexivity.
Qed.

#[global] Instance claims_json : auth.ClaimsJSON := {|
  auth.Marshal_Claims := marshal_claims;
  auth.Unmarshal_Claims := unmarshal_claims;
  auth.Unmarshal_Marshal_Claims := unmarshal_marshal_claims
|}.

(** The 23 bytes of the cipher: here the bytes of the key words, the cost
    and the length of the salt added up, from each of 23 positions on. *)
Definition crypt (words : list Z) (cost : Z) (csalt : string) : string :=
  string_of_list_ascii
    (map (fun i =>
            ascii_of_N
              (Z.to_N ((nth i words 0 + nth (i + 1) words 0 + cost +
                        Z.of_nat (len csalt) + Z.of_nat i) mod 256)))
         (seq 0 23)).

Lemma length_string_of_list_ascii (l : list ascii) :
  String.length (string_of_list_ascii l) = length l.
Proof. induction l as [|c l IH]; simpl; [reflexivity | by rewrite IH]. Qed.

Lemma crypt_length (w : list Z) (c : Z) (s : string) :
  len (crypt w c s) = bcrypt.maxCryptedHashSize.
Proof.
  unfold crypt, len. rewrite length_string_of_list_ascii, length_map, length_seq.
  reflexivity.
Qed.

Definition hashed_fields (p : bcrypt.hashed) : string * string * Z * N * N :=
  (bcrypt.hash p, bcrypt.salt p, bcrypt.cost p,
   N_of_ascii (bcrypt.major p), N_of_ascii (bcrypt.minor p)).

Definition of_hashed_fields (t : string * string * Z * N * N) : bcrypt.hashed :=
  let '(h, s, c, ma, mi) := t in
  {| bcrypt.hash := h; bcrypt.salt := s; bcrypt.cost := c;
     bcrypt.major := ascii_of_N ma; bcrypt.minor := ascii_of_N mi |}.

Definition format_hash (p : bcrypt.hashed) : string := to_text (hashed_fields p).

Definition parse_hash (s : string) : Result bcrypt.hashed :=
  match of_text s with
  | Ok t => Ok (of_hashed_fields t)
  | Err _ => Err bcrypt.ErrHashTooShort
  end.

Lemma parse_format_hash (p : bcrypt.hashed) : parse_hash (format_hash p) = Ok p.
Proof.
  unfold parse_hash, format_hash. rewrite of_to_text.
  destruct p as [h s c ma mi]. unfold hashed_fields, of_hashed_fields. simpl.
  by rewrite !ascii_N_embedding.
Qed.

#[global] Instance primitives : bcrypt.Primitives := {|
  bcrypt.base64Encode := hex_encode;
  bcrypt.base64Decode := decode_segment;
  bcrypt.crypt := crypt;
  bcrypt.Hash := format_hash;
  bcrypt.newFromHash := parse_hash;
  bcrypt.base64Decode_base64Encode := decode_segment_encode;
  bcrypt.crypt_length := crypt_length;
  bcrypt.newFromHash_Hash := fun h s c _ _ _ => parse_format_hash _
|}.

End Model.

(* ===================================================================== *)
(** * The claims on the tokens *)
(* ===================================================================== *)

Section Auth_claims.
Context `{jwt.Encoding} `{auth.ClaimsJSON}.
Variable JWT_SECRET : string.

(** C1.  What the code does with a well-formed token whose header names an
    algorithm outside the HMAC family: [VerifyToken] rejects it, whatever
    its signature and its claims are, but with an error that wraps
    [ErrTokenInvalid] and not [ErrInvalidSigningMethod]; the error of the
    key function survives in the text of the message only. *)
Theorem VerifyToken_other_algorithm c ts header claims sig text alg now :
  auth.ExtractToken c = ts ->
  decodes ts header claims sig text ->
  header !! "alg" = Some alg ->
  (forall h, alg <> jwt.Alg (jwt.SigningMethodHMAC h)) ->
  exists err,
    auth.VerifyToken JWT_SECRET parse now c = Some err /\
    errors.Is err auth.ErrTokenInvalid = true /\
    errors.Is err auth.ErrInvalidSigningMethod = false /\
    err = Errorf_w_v auth.ErrTokenInvalid
            match jwt.GetSigningMethod alg with
            | Some _ =>
              "token is unverifiable: error while executing keyfunc: " +:+
              "invalid token signing method: " +:+ alg
            | None => "token is unverifiable: signing method (alg) is unavailable"
            end.
Proof.
  intros Hts Hd Halg Hother. unfold auth.VerifyToken. rewrite Hts.
  rewrite (decodes_not_empty _ _ _ _ _ Hd).
  rewrite (parse_decodes _ _ _ _ _ _ _ _ Hd), Halg.
  destruct (jwt.GetSigningMethod alg) as [m|] eqn:Hm.
  - assert (jwt.is_SigningMethodHMAC m = false) as Hnot.
    { apply GetSigningMethod_Some in Hm. destruct m; try reflexivity.
      exfalso. eapply Hother. symmetry. exact Hm. }
    cbn zeta. unfold auth.returnVerificationKey, parsed_token.
    cbn [jwt.Method jwt.Header]. rewrite Hnot, Halg. cbn [negb].
    eexists. split; [reflexivity |].
    rewrite !Is_ErrTokenInvalid_wrap. repeat split; reflexivity.
  - eexists. split; [reflexivity |].
    rewrite !Is_ErrTokenInvalid_wrap. repeat split; reflexivity.
Qed.




End Auth_claims.

Section Authenticator.
Variable JWT_SECRET : string.
Variable P :
  string -> auth.Claims -> jwt.Keyfunc auth.Claims -> time.Time -> jwt.Parsed auth.Claims.

(** C8, with what the code does on a failure of the parse.  For every
    request and every behaviour of the parser: [ExtractUserID] fails with
    [ErrTokenMissing] when the request carries no token; with
    [ErrTokenInvalid] when the parse gives no error and a token whose
    validity flag is false; and with [ErrTokenInvalid] again whenever
    [VerifyToken] fails on a token that is present, whatever the error of
    [VerifyToken] is: the specific error is not passed on.  When
    [VerifyToken] succeeds, it gives the user ID of the claims. *)
Theorem ExtractUserID_errors now c :
  (auth.ExtractToken c = "" ->
   auth.ExtractUserID JWT_SECRET P now c = Err auth.ErrTokenMissing) /\
  (forall token,
      auth.ExtractToken c <> "" ->
      P (auth.ExtractToken c) auth.Claims_zero
        (auth.returnVerificationKey JWT_SECRET) now = jwt.ParseOk token ->
      jwt.Valid token = false ->
      auth.ExtractUserID JWT_SECRET P now c = Err auth.ErrTokenInvalid) /\
  (forall err,
      auth.ExtractToken c <> "" ->
      auth.VerifyToken JWT_SECRET P now c = Some err ->
      auth.ExtractUserID JWT_SECRET P now c = Err auth.ErrTokenInvalid) /\
  (auth.VerifyToken JWT_SECRET P now c = None ->
   exists token,
     P (auth.ExtractToken c) auth.Claims_zero
       (auth.returnVerificationKey JWT_SECRET) now = jwt.ParseOk token /\
     auth.ExtractUserID JWT_SECRET P now c = Ok (auth.UserID (jwt.Claims_ token))).
Proof.
  unfold auth.ExtractUserID, auth.VerifyToken.
  repeat split.
  - intros ->. reflexivity.
  - intros token Hne Hp Hv. apply String.eqb_neq in Hne. rewrite Hne, Hp, Hv.
    reflexivity.
  - intros err Hne. apply String.eqb_neq in Hne. rewrite Hne.
    destruct (P _ _ _ _) as [token|token perr]; [| reflexivity].
    destruct (jwt.Valid token); [discriminate | reflexivity].
  - destruct (String.eqb _ _); [discriminate |].
    destruct (P _ _ _ _) as [token|token perr].
    + destruct (jwt.Valid token); [eauto | discriminate].
    + repeat destruct (errors.Is _ _); discriminate.
Qed.

End Authenticator.

(* ===================================================================== *)
(** * The claims on the tokens, on concrete requests *)
(* ===================================================================== *)

Definition sample_secret : string := "s3cr3t".

(** 2023-11-14 22:13:20.123456789 UTC *)
Definition sample_now : time.Time := 1700000000123456789.

Definition sample_claims : auth.Claims := auth.newClaims sample_now 42 "a@b.com".

(** The token that [CreateToken] issues at [sample_now] for the user 42. *)
Definition sample_token : string :=
  compact (header_of jwt.SigningMethodHS256) sample_claims
    (jwt.HMAC jwt.SHA256 sample_secret
       (signing_text (header_of jwt.SigningMethodHS256) sample_claims)).

(** The same claims under a header that names RS256, with a signature made
    up. *)
Definition forged_token : string :=
  compact (header_of (jwt.SigningMethodRSA jwt.SHA256)) sample_claims "forged".



Lemma sample_claims_exact : auth.json_exact sample_claims = true.
Proof. vm_compute. reflexivity. Qed.


Lemma ExtractToken_authorized_compact header claims sig :
  auth.ExtractToken (authorized ("Bearer " +:+ compact header claims sig)) =
  compact header claims sig.
Proof. apply ExtractToken_compact, GetHeader_authorized. Qed.

(** C1 on a request: the token with the header of RS256 is rejected with an
    error that is [ErrTokenInvalid] and is not [ErrInvalidSigningMethod]. *)
Lemma VerifyToken_other_algorithm_RS256 :
  exists err,
    auth.VerifyToken sample_secret parse sample_now
      (authorized ("Bearer " +:+ forged_token)) = Some err /\
    errors.Is err auth.ErrTokenInvalid = true /\
    errors.Is err auth.ErrInvalidSigningMethod = false /\
    err = Errorf_w_v auth.ErrTokenInvalid
            match jwt.GetSigningMethod "RS256" with
            | Some _ =>
              "token is unverifiable: error while executing keyfunc: " +:+
              "invalid token signing method: " +:+ "RS256"
            | None => "token is unverifiable: signing method (alg) is unavailable"
            end.
Proof.
  apply (VerifyToken_other_algorithm sample_secret
           (authorized ("Bearer " +:+ forged_token)) forged_token
           (header_of (jwt.SigningMethodRSA jwt.SHA256)) sample_claims "forged"
           (signing_text (header_of (jwt.SigningMethodRSA jwt.SHA256)) sample_claims)
           "RS256" sample_now).
  - apply ExtractToken_authorized_compact.
  - apply compact_decodes, sample_claims_exact.
  - apply (header_of_alg (jwt.SigningMethodRSA jwt.SHA256)).
  - intros []; discriminate.
Defined.




(** C8 as stated fails on the token issued at [sample_now], 25 hours later:
    [VerifyToken] fails with [ErrTokenExpired], and [ExtractUserID] with
    [ErrTokenInvalid], which is a different error. *)
Lemma ExtractUserID_hides_expiry :
  auth.VerifyToken sample_secret parse (sample_now + 25 * time.Hour)
    (authorized ("Bearer " +:+ sample_token)) = Some auth.ErrTokenExpired /\
  auth.ExtractUserID sample_secret parse (sample_now + 25 * time.Hour)
    (authorized ("Bearer " +:+ sample_token)) = Err auth.ErrTokenInvalid /\
  auth.ErrTokenInvalid <> auth.ErrTokenExpired.
Proof.
  split; [vm_compute; reflexivity |].
  split; [vm_compute; reflexivity | discriminate].
Qed.

(** A parser that accepts every string and leaves the validity flag
    unset. *)
Definition careless_parser :
  string -> auth.Claims -> jwt.Keyfunc auth.Claims -> time.Time ->
  jwt.Parsed auth.Claims :=
  fun tokenString claims _ _ =>
    jwt.ParseOk {| jwt.Raw := tokenString; jwt.Method := None; jwt.Header := ∅;
                   jwt.Claims_ := claims; jwt.Signature := ""; jwt.Valid := false |}.

(** C8 on requests: no header, a token on which the parser leaves the flag
    unset, and the token issued at [sample_now], 25 hours later. *)
Lemma ExtractUserID_errors_samples :
  auth.ExtractUserID sample_secret parse sample_now (request ∅ "") =
    Err auth.ErrTokenMissing /\
  auth.ExtractUserID sample_secret careless_parser sample_now
    (authorized "Bearer abc123") = Err auth.ErrTokenInvalid /\
  auth.ExtractUserID sample_secret parse (sample_now + 25 * time.Hour)
    (authorized ("Bearer " +:+ sample_token)) = Err auth.ErrTokenInvalid.
Proof.
  split; [| split].
  - apply (proj1 (ExtractUserID_errors sample_secret parse sample_now (request ∅ ""))).
    reflexivity.
  - eapply (proj1 (proj2 (ExtractUserID_errors sample_secret careless_parser sample_now
                            (authorized "Bearer abc123")))).
    + vm_compute. discriminate.
    + reflexivity.
    + reflexivity.
  - apply (proj1 (proj2 (proj2 (ExtractUserID_errors sample_secret parse
                                  (sample_now + 25 * time.Hour)
                                  (authorized ("Bearer " +:+ sample_token)))))
             auth.ErrTokenExpired).
    + vm_compute. discriminate.
    + vm_compute. reflexivity.
Defined.

(* ===================================================================== *)
(** * The Authorization Gate *)
(* ===================================================================== *)

Section Gate.
Variable JWT_SECRET : string.
Variable P :
  string -> auth.Claims -> jwt.Keyfunc auth.Claims -> time.Time -> jwt.Parsed auth.Claims.

(** What [VerifyToken] and [ExtractUserID] give depends on the header of
    the request only. *)
Lemma VerifyToken_header (now : time.Time) (c c' : gin.Context) :
  gin.Header c' = gin.Header c ->
  auth.VerifyToken JWT_SECRET P now c' = auth.VerifyToken JWT_SECRET P now c.
Proof.
  intros Hh. unfold auth.VerifyToken, auth.ExtractToken, gin.GetHeader.
  by rewrite Hh.
Qed.

Lemma ExtractUserID_header (now : time.Time) (c c' : gin.Context) :
  gin.Header c' = gin.Header c ->
  auth.ExtractUserID JWT_SECRET P now c' = auth.ExtractUserID JWT_SECRET P now c.
Proof.
  intros Hh. unfold auth.ExtractUserID, auth.ExtractToken, gin.GetHeader.
  by rewrite Hh.
Qed.

Lemma VerifyToken_no_header (now : time.Time) (c : gin.Context) :
  gin.Header c !! "Authorization" = None ->
  auth.VerifyToken JWT_SECRET P now c = Some auth.ErrTokenMissing.
Proof.
  intros Hh. unfold auth.VerifyToken, auth.ExtractToken, gin.GetHeader.
  rewrite Hh. reflexivity.
Qed.

(** The request as the gate leaves it when it rejects it: the status 401
    and the message are written, and the index is past every handler. *)
Definition rejected (msg : string) (c : gin.Context) : gin.Context :=
  {| gin.Header := gin.Header c; gin.Body := gin.Body c;
     gin.ClientIP := gin.ClientIP c; gin.Keys := gin.Keys c;
     gin.index := gin.abortIndex + 1;
     gin.Writer := gin.Writer c ++ [(401, gin.H [("error", JSON_string msg)])] |}.

(** The request as the gate hands it to the next handler: the user ID is
    stored under ["user_id"], and nothing is written. *)
Definition let_through (userID : N) (c : gin.Context) : gin.Context :=
  {| gin.Header := gin.Header c; gin.Body := gin.Body c;
     gin.ClientIP := gin.ClientIP c;
     gin.Keys := <["user_id" := gin.Any_uint userID]> (gin.Keys c);
     gin.index := 1;
     gin.Writer := gin.Writer c |}.

Lemma run_past_the_end (fuel : nat) (handlers : list gin.HandlerFunc) (c : gin.Context) :
  Z.of_nat (length handlers) <= gin.index c -> gin.run fuel handlers c = c.
Proof.
  intros Hle. destruct fuel; [reflexivity |]. simpl.
  destruct (Z.ltb_spec (gin.index c) (Z.of_nat (length handlers))); [lia | reflexivity].
Qed.

(** One turn of the loop of [c.Next()]. *)
Lemma run_step (fuel : nat) (handlers : list gin.HandlerFunc) (c : gin.Context)
      (h : gin.HandlerFunc) :
  0 <= gin.index c ->
  gin.index c < Z.of_nat (length handlers) ->
  handlers !! Z.to_nat (gin.index c) = Some h ->
  gin.run (S fuel) handlers c =
  let c1 := h (fun c' => gin.run fuel handlers (gin.set_index (gin.index c' + 1) c')) c in
  gin.run fuel handlers (gin.set_index (gin.index c1 + 1) c1).
Proof.
  intros _ Hlt Hh. simpl.
  destruct (Z.ltb_spec (gin.index c) (Z.of_nat (length handlers))); [| lia].
  unfold gin.HandlerFunc in *. rewrite Hh. reflexivity.
Qed.

(** C6.  A route whose first handler is the gate, followed by any handlers
    [rest], fewer than 63 in all as gin requires, serving any request.
    When [VerifyToken] fails, the request ends with the status 401 and the
    message of the error written, whatever [rest] is: no handler of [rest]
    runs.  A request with no header [Authorization] fails so, with the
    message ["authorization token is missing"].  When [VerifyToken] and
    [ExtractUserID] succeed, the gate stores the user ID under ["user_id"],
    writes nothing and calls the next handler: the rest of the route runs
    on that request. *)
Theorem AuthMiddleware_gate now1 now2 (rest : list gin.HandlerFunc) fuel c :
  let route := middlewares.AuthMiddleware JWT_SECRET P now1 now2 :: rest in
  (forall err,
      (length route < 63)%nat ->
      auth.VerifyToken JWT_SECRET P now1 c = Some err ->
      gin.serve (S fuel) route c = rejected (errors.Error err) c) /\
  (gin.Header c !! "Authorization" = None ->
   auth.VerifyToken JWT_SECRET P now1 c = Some auth.ErrTokenMissing /\
   errors.Error auth.ErrTokenMissing = "authorization token is missing") /\
  (forall userID,
      auth.VerifyToken JWT_SECRET P now1 c = None ->
      auth.ExtractUserID JWT_SECRET P now2 c = Ok userID ->
      gin.Get "user_id" (let_through userID c) = Some (gin.Any_uint userID) /\
      (forall next,
          middlewares.AuthMiddleware JWT_SECRET P now1 now2 next c =
          next (gin.Set_ "user_id" (gin.Any_uint userID) c)) /\
      gin.serve (S fuel) route c =
        let c1 := gin.run fuel route (let_through userID c) in
        gin.run fuel route (gin.set_index (gin.index c1 + 1) c1)).
Proof.
  intros route.
  assert (forall f, gin.serve (S f) route c =
                    let c1 := middlewares.AuthMiddleware JWT_SECRET P now1 now2
                                (fun c' => gin.run f route
                                             (gin.set_index (gin.index c' + 1) c'))
                                (gin.set_index 0 c) in
                    gin.run f route (gin.set_index (gin.index c1 + 1) c1)) as Hserve.
  { intros f. unfold gin.serve, gin.Next.
    change (gin.set_index (gin.index (gin.set_index (-1) c) + 1)
                          (gin.set_index (-1) c))
      with (gin.set_index 0 c).
    apply run_step; [reflexivity | simpl; lia | reflexivity]. }
  split; [| split].
  - intros err Hlen Hv. rewrite Hserve. cbn zeta.
    unfold middlewares.AuthMiddleware.
    rewrite (VerifyToken_header now1 c (gin.set_index 0 c) eq_refl), Hv.
    rewrite run_past_the_end; [reflexivity |].
    cbn. unfold gin.abortIndex. simpl in Hlen. lia.
  - intros Hh. split; [by apply VerifyToken_no_header | reflexivity].
  - intros userID Hv Hu. split; [| split].
    + unfold gin.Get, let_through. cbn [gin.Keys]. by rewrite lookup_insert_eq.
    + intros next. unfold middlewares.AuthMiddleware. by rewrite Hv, Hu.
    + rewrite Hserve. cbn zeta. unfold middlewares.AuthMiddleware.
      rewrite (VerifyToken_header now1 c (gin.set_index 0 c) eq_refl), Hv.
      rewrite (ExtractUserID_header now2 c (gin.set_index 0 c) eq_refl), Hu.
      reflexivity.
Qed.

End Gate.

(** A handler that writes the status 200 and an empty object. *)
Definition business : gin.HandlerFunc :=
  fun _ c => gin.JSON 200 (gin.H []) c.

(** C6 on requests: a request with no header is rejected and [business]
    does not run; a request with the token of the user 42 reaches
    [business] with the user ID stored. *)
Lemma AuthMiddleware_gate_samples :
  gin.serve 3
    [middlewares.AuthMiddleware sample_secret parse sample_now sample_now; business]
    (request ∅ "") =
    rejected "authorization token is missing" (request ∅ "") /\
  gin.Writer
    (gin.serve 3
       [middlewares.AuthMiddleware sample_secret parse sample_now sample_now; business]
       (authorized ("Bearer " +:+ sample_token))) = [(200, gin.H [])] /\
  gin.Get "user_id"
    (gin.serve 3
       [middlewares.AuthMiddleware sample_secret parse sample_now sample_now; business]
       (authorized ("Bearer " +:+ sample_token))) = Some (gin.Any_uint 42).
Proof.
  split; [| split].
  - apply (proj1 (AuthMiddleware_gate sample_secret parse sample_now sample_now
                    [business] 2 (request ∅ "")) auth.ErrTokenMissing).
    + simpl. lia.
    + reflexivity.
  - destruct (proj2 (proj2 (AuthMiddleware_gate sample_secret parse sample_now
                              sample_now [business] 2
                              (authorized ("Bearer " +:+ sample_token)))) 42%N)
      as (_ & _ & Hs); [vm_compute; reflexivity | vm_compute; reflexivity |].
    rewrite Hs. reflexivity.
  - destruct (proj2 (proj2 (AuthMiddleware_gate sample_secret parse sample_now
                              sample_now [business] 2
                              (authorized ("Bearer " +:+ sample_token)))) 42%N)
      as (_ & _ & Hs); [vm_compute; reflexivity | vm_compute; reflexivity |].
    rewrite Hs. vm_compute. reflexivity.
Defined.

(* ===================================================================== *)
(** * The password hasher *)
(* ===================================================================== *)

Section Hasher.
Context `{bcrypt.Primitives}.

(** The hashed password that [GenerateFromPassword] makes of a password,
    with the default cost and the salt read from the random source. *)
Definition hashed_of (password salt : string) : bcrypt.hashed :=
  {| bcrypt.hash :=
       bcrypt.base64Encode
         (bcrypt.crypt (bcrypt.keyWords 18 (password +:+ String zero EmptyString) 0)
                       bcrypt.DefaultCost salt);
     bcrypt.salt := bcrypt.base64Encode salt;
     bcrypt.cost := bcrypt.DefaultCost;
     bcrypt.major := bcrypt.majorVersion;
     bcrypt.minor := bcrypt.minorVersion |}.

Lemma EncryptPassword_hashed_of (password salt : string) :
  (len password <= 72)%nat ->
  security.EncryptPassword password (Ok salt) = Ok (bcrypt.Hash (hashed_of password salt)).
Proof.
  intros Hlen. unfold security.EncryptPassword, bcrypt.GenerateFromPassword.
  destruct (Nat.ltb_spec 72 (len password)); [lia |].
  unfold bcrypt.newFromPassword, bcrypt.bcrypt_.
  change (bcrypt.DefaultCost <? bcrypt.MinCost) with false. cbn iota.
  change (bcrypt.checkCost bcrypt.DefaultCost) with (@None error). cbn iota.
  rewrite bcrypt.base64Decode_base64Encode. reflexivity.
Qed.

Lemma newFromHash_hashed_of (password salt : string) :
  len salt = bcrypt.maxSaltSize ->
  bcrypt.newFromHash (bcrypt.Hash (hashed_of password salt)) = Ok (hashed_of password salt).
Proof.
  intros Hs. unfold hashed_of.
  apply bcrypt.newFromHash_Hash; [apply bcrypt.crypt_length | assumption |].
  unfold bcrypt.MinCost, bcrypt.MaxCost, bcrypt.DefaultCost. lia.
Qed.

(** The check of a candidate against the hash of a password compares the
    two hashed passwords as they are written. *)
Lemma CheckPassword_hashed_of (password salt candidate : string) :
  len salt = bcrypt.maxSaltSize ->
  security.CheckPassword (bcrypt.Hash (hashed_of password salt)) candidate =
  if String.eqb (bcrypt.Hash (hashed_of password salt))
                (bcrypt.Hash (hashed_of candidate salt))
  then None
  else Some bcrypt.ErrMismatchedHashAndPassword.
Proof.
  intros Hs. unfold security.CheckPassword, bcrypt.CompareHashAndPassword.
  rewrite newFromHash_hashed_of by assumption.
  unfold bcrypt.bcrypt_. cbn [hashed_of bcrypt.salt bcrypt.cost bcrypt.major bcrypt.minor].
  rewrite bcrypt.base64Decode_base64Encode. reflexivity.
Qed.

(** A candidate from which the cipher reads the same 18 words as from the
    password is taken for the password. *)
Lemma CheckPassword_same_key_words (password salt candidate : string) :
  len salt = bcrypt.maxSaltSize ->
  bcrypt.keyWords 18 (candidate +:+ String zero EmptyString) 0 =
  bcrypt.keyWords 18 (password +:+ String zero EmptyString) 0 ->
  security.CheckPassword (bcrypt.Hash (hashed_of password salt)) candidate = None.
Proof.
  intros Hs Hk. rewrite CheckPassword_hashed_of by assumption.
  unfold hashed_of. rewrite Hk, String.eqb_refl. reflexivity.
Qed.


End Hasher.



Definition sample_salt : string := "0123456789abcdef".



(* ===================================================================== *)
(** * The table of users *)
(* ===================================================================== *)

Lemma next_fault_users (db db' : gorm.DB) (f : option error) :
  gorm.next_fault db = (f, db') -> gorm.users db' = gorm.users db.
Proof.
  unfold gorm.next_fault. destruct (gorm.faults db); intros [= <- <-]; reflexivity.
Qed.

Lemma least_elem (rows : list (N * models.User)) (u : models.User) :
  gorm.least rows = Some u -> exists k, (k, u) ∈ rows.
Proof.
  unfold gorm.least.
  assert (forall r, foldr (fun r acc =>
                             match acc with
                             | None => Some r
                             | Some r' => if (r.1 <? r'.1)%N then Some r else Some r'
                             end) None rows = Some r -> r ∈ rows) as Hin.
  { induction rows as [|r0 rows IH]; intros r; simpl; [discriminate |].
    destruct (foldr _ None rows) as [r'|].
    - destruct (r0.1 <? r'.1)%N; intros [= <-].
      + apply list_elem_of_here.
      + apply list_elem_of_further, IH. reflexivity.
    - intros [= <-]. apply list_elem_of_here. }
  destruct (foldr _ None rows) as [[k u']|]; simpl; [| discriminate].
  intros [= <-]. exists k. by apply Hin.
Qed.

Lemma least_nil_inv (rows : list (N * models.User)) :
  gorm.least rows = None -> rows = [].
Proof.
  unfold gorm.least. destruct rows as [|r rows]; [reflexivity |]. simpl.
  destruct (foldr _ None rows) as [r'|]; [destruct (r.1 <? r'.1)%N |]; discriminate.
Qed.

(** A row that [First] finds is a row of the table that satisfies the
    condition and is not deleted; the table is as before. *)
Lemma First_Ok cond (db db' : gorm.DB) (u : models.User) :
  gorm.First cond db = (Ok u, db') ->
  gorm.users db' = gorm.users db /\
  exists k, gorm.users db !! k = Some u /\ cond u = true /\ models.DeletedAt u = None.
Proof.
  unfold gorm.First. destruct (gorm.next_fault db) as [[e|] db1] eqn:Hf; [discriminate |].
  pose proof (next_fault_users _ _ _ Hf) as Hu.
  destruct (gorm.least _) as [u'|] eqn:Hl; [| discriminate].
  intros [= <- <-]. split; [exact Hu |].
  apply least_elem in Hl as [k Hk].
  apply list_elem_of_filter in Hk as [[Hc Hd] Hk]. simpl in *.
  apply elem_of_map_to_list in Hk. rewrite Hu in Hk. eauto.
Qed.

(** Whatever [First] gives, the table is as before. *)
Lemma First_users cond (db db' : gorm.DB) r :
  gorm.First cond db = (r, db') -> gorm.users db' = gorm.users db.
Proof.
  unfold gorm.First. destruct (gorm.next_fault db) as [[e|] db1] eqn:Hf.
  - intros [= <- <-]. eapply next_fault_users; eauto.
  - pose proof (next_fault_users _ _ _ Hf) as Hu.
    destruct (gorm.least _); intros [= <- <-]; exact Hu.
Qed.

(** [First] fails when no row that is not deleted satisfies the
    condition. *)
Lemma First_none cond (db : gorm.DB) :
  (forall k u, gorm.users db !! k = Some u ->
               models.DeletedAt u = None -> cond u = false) ->
  exists err db', gorm.First cond db = (Err err, db').
Proof.
  intros Hno. unfold gorm.First.
  destruct (gorm.next_fault db) as [[e|] db1] eqn:Hf; [eauto |].
  pose proof (next_fault_users _ _ _ Hf) as Hu.
  destruct (gorm.least _) as [u|] eqn:Hl; [| eauto].
  exfalso. apply least_elem in Hl as [k Hk].
  apply list_elem_of_filter in Hk as [[Hc Hd] Hk]. simpl in *.
  apply elem_of_map_to_list in Hk. rewrite Hu in Hk.
  rewrite (Hno _ _ Hk Hd) in Hc. discriminate.
Qed.

Lemma FindByEmail_Ok email (db db' : gorm.DB) (u : models.User) :
  repository.FindByEmail email db = (Ok u, db') ->
  gorm.users db' = gorm.users db /\
  exists k, gorm.users db !! k = Some u /\ models.Email u = email /\
            models.DeletedAt u = None.
Proof.
  unfold repository.FindByEmail.
  destruct (gorm.First _ db) as [[u'|e] db1] eqn:Hf.
  - intros [= <- <-]. apply First_Ok in Hf as (Hu & k & Hk & He & Hd).
    apply String.eqb_eq in He. eauto.
  - destruct (errors.Is _ _); discriminate.
Qed.


Lemma FindByID_Ok id (db db' : gorm.DB) (u : models.User) :
  repository.FindByID id db = (Ok u, db') ->
  gorm.users db' = gorm.users db /\
  exists k, gorm.users db !! k = Some u /\ models.ID u = id /\
            models.DeletedAt u = None.
Proof.
  unfold repository.FindByID.
  destruct (gorm.First _ db) as [[u'|e] db1] eqn:Hf.
  - intros [= <- <-]. apply First_Ok in Hf as (Hu & k & Hk & He & Hd).
    apply N.eqb_eq in He. eauto.
  - destruct (errors.Is _ _); discriminate.
Qed.


(* ===================================================================== *)
(** * Login *)
(* ===================================================================== *)

Section Login_claims.
Context `{jwt.Encoding} `{auth.ClaimsJSON} `{bcrypt.Primitives}.
Variable JWT_SECRET : string.
Variable Decode_LoginRequest : Z -> string -> Result models.LoginRequest.


End Login_claims.

(* ===================================================================== *)
(** * UpdateProfile *)
(* ===================================================================== *)

Lemma JSON_status_inv (c : gin.Context) (s s' : Z) (b b' : JSON) :
  gin.Writer (gin.JSON s b c) = gin.Writer c ++ [(s', b')] -> s = s'.
Proof.
  unfold gin.JSON. cbn [gin.Writer]. intros Hw.
  apply app_inv_head in Hw. by inversion Hw.
Qed.

Section UpdateProfile_claims.
Variable JWT_SECRET : string.
Variable P :
  string -> auth.Claims -> jwt.Keyfunc auth.Claims -> time.Time -> jwt.Parsed auth.Claims.
Variable Decode_updateData : Z -> string -> Result controllers.updateData.

(** The primary key of a row is the key under which the table holds it. *)
Definition keyed (db : gorm.DB) : Prop :=
  forall k u, gorm.users db !! k = Some u -> models.ID u = k.


End UpdateProfile_claims.

(* ===================================================================== *)
(** * Login and UpdateProfile on concrete requests *)
(* ===================================================================== *)

(** Decoders for the instance: the body of a login is the email, a space
    and the password; the body of an update is the name, a comma and the
    partner name.  A body longer than the limit is refused. *)
Definition decode_login (limit : Z) (body : string) : Result models.LoginRequest :=
  if limit <? Z.of_nat (len body) then Err (errors.opaque "http: request body too large")
  else
    match Split body " " with
    | [email; password] =>
      Ok {| models.LoginRequest_Email := email;
            models.LoginRequest_Password := password |}
    | _ => Err (errors.opaque "unexpected end of JSON input")
    end.


(** The user 42, registered with the password ["Password1!"]. *)
Definition ana : models.User :=
  {| models.ID := 42; models.CreatedAt := 1690000000000000000;
     models.UpdatedAt := 1690000000000000000; models.DeletedAt := None;
     models.Name := "Ana"; models.Email := "a@b.com";
     models.PasswordHash := bcrypt.Hash (hashed_of "Password1!" sample_salt);
     models.PartnerName := "Bo" |}.

Definition sample_world : controllers.World :=
  {| controllers.database := {| gorm.users := {[ 42%N := ana ]}; gorm.faults := [] |};
     controllers.Log := []; controllers.Slept := [] |}.

Lemma sample_world_keyed : keyed (controllers.database sample_world).
Proof.
  intros k u. cbn [sample_world controllers.database gorm.users].
  intros [<- <-]%lookup_singleton_Some. reflexivity.
Qed.




(* ===================================================================== *)
(** * More on the verification of tokens *)
(* ===================================================================== *)

Section Verification.
Context `{jwt.Encoding} `{auth.ClaimsJSON}.
Variable JWT_SECRET : string.

(** A parse that succeeds went through every step. *)
Lemma parse_Ok_inv ts zero keyFunc now token :
  parse ts zero keyFunc now = jwt.ParseOk token ->
  exists header claims sig text m key,
    decodes ts header claims sig text /\
    header !! "alg" = Some (jwt.Alg m) /\
    keyFunc (parsed_token ts m header claims sig false) = Ok key /\
    jwt.Verify m text sig key = None /\
    jwt.Validate claims now = None /\
    token = parsed_token ts m header claims sig true.
Proof.
  unfold parse, jwt.ParseWithClaims, jwt.ParseUnverified.
  destruct (Split ts ".") as [|p0 [|p1 [|p2 [|p3 l]]]] eqn:Hs; try discriminate.
  destruct (jwt.DecodeSegment p0) as [hb|] eqn:Hd0; [| discriminate].
  destruct (jwt.Unmarshal_Header hb) as [header|] eqn:Hh; [| discriminate].
  destruct (jwt.DecodeSegment p1) as [cb|] eqn:Hd1; [| discriminate].
  destruct (auth.Unmarshal_Claims cb) as [claims|] eqn:Hc; [| discriminate].
  destruct (header !! "alg") as [alg|] eqn:Halg; [| discriminate].
  destruct (jwt.GetSigningMethod alg) as [m|] eqn:Hm; [| discriminate].
  cbn [nth].
  destruct (jwt.DecodeSegment p2) as [sig|] eqn:Hd2; [| discriminate].
  cbn [jwt.Raw jwt.Method jwt.Header jwt.Claims_ firstn Join].
  fold (parsed_token ts m header claims sig false).
  destruct (keyFunc _) as [key|] eqn:Hk; [| discriminate].
  destruct (jwt.Verify m _ sig key) eqn:Hv; [discriminate |].
  destruct (jwt.Validate claims now) eqn:Hval; [discriminate |].
  intros [= <-].
  exists header, claims, sig, (p0 +:+ "." +:+ p1), m, key.
  apply GetSigningMethod_Some in Hm. subst alg.
  repeat split; try assumption; try reflexivity.
  exists p0, p1, p2, hb, cb. repeat split; assumption.
Qed.

(** The key function gives a key to the methods of the HMAC family only,
    and the key is the secret. *)
Lemma returnVerificationKey_Ok ts m header claims sig valid key :
  auth.returnVerificationKey JWT_SECRET (parsed_token ts m header claims sig valid) = Ok key ->
  key = JWT_SECRET /\ exists h, m = jwt.SigningMethodHMAC h.
Proof.
  unfold auth.returnVerificationKey, parsed_token. cbn [jwt.Method].
  destruct m; cbn; try discriminate. intros [= <-]. eauto.
Qed.

Lemma Validate_None (claims : auth.Claims) (now : time.Time) :
  jwt.Validate claims now = None ->
  expired claims now = false /\ not_valid_yet claims now = false.
Proof.
  rewrite Validate_cases.
  destruct (expired claims now), (not_valid_yet claims now); try discriminate; auto.
Qed.

(** X1.  [VerifyToken] accepts a request only when its token is authentic
    and in date: the token has three segments that decode to a header, to
    claims and to a signature; the header names HS256, HS384 or HS512; the
    signature is the HMAC of the first two segments under the secret of the
    process; and the claims are neither expired nor not valid yet.
    [ExtractUserID] and [ExtractTokenMetadata] then give the user ID and
    the claims of that token. *)
Theorem VerifyToken_sound now c :
  auth.VerifyToken JWT_SECRET parse now c = None ->
  exists header claims h text,
    decodes (auth.ExtractToken c) header claims (jwt.HMAC h JWT_SECRET text) text /\
    header !! "alg" = Some (jwt.Alg (jwt.SigningMethodHMAC h)) /\
    expired claims now = false /\
    not_valid_yet claims now = false /\
    auth.ExtractUserID JWT_SECRET parse now c = Ok (auth.UserID claims) /\
    auth.ExtractTokenMetadata JWT_SECRET parse now c = Ok claims.
Proof.
  unfold auth.VerifyToken, auth.ExtractUserID, auth.ExtractTokenMetadata.
  destruct (String.eqb (auth.ExtractToken c) ""); [discriminate |].
  destruct (parse _ _ _ _) as [token|token perr] eqn:Hp.
  - intros _.
    apply parse_Ok_inv in Hp
      as (header & claims & sig & text & m & key & Hd & Halg & Hk & Hv & Hval & ->).
    apply returnVerificationKey_Ok in Hk as [-> [h ->]].
    unfold jwt.Verify in Hv.
    destruct (String.eqb sig _) eqn:Hsig; [| discriminate].
    apply String.eqb_eq in Hsig. subst sig.
    apply Validate_None in Hval as [Hexp Hnbf].
    exists header, claims, h, text. repeat split; assumption.
  - repeat destruct (errors.Is _ _); discriminate.
Qed.

(** X2.  A well-formed token whose header names a method of the HMAC
    family and whose signature is not the HMAC of its first two segments
    under the secret of the process, as when it was signed under another
    secret: [VerifyToken] rejects it whatever its claims and the time are,
    with an error that is [ErrTokenInvalid] and tells of the signature;
    [ExtractUserID] and [ExtractTokenMetadata] give [ErrTokenInvalid]. *)
Theorem VerifyToken_bad_signature c ts h header claims sig text now :
  auth.ExtractToken c = ts ->
  decodes ts header claims sig text ->
  header !! "alg" = Some (jwt.Alg (jwt.SigningMethodHMAC h)) ->
  sig <> jwt.HMAC h JWT_SECRET text ->
  auth.VerifyToken JWT_SECRET parse now c =
    Some (Errorf_w_v auth.ErrTokenInvalid
            "token signature is invalid: signature is invalid") /\
  errors.Is (Errorf_w_v auth.ErrTokenInvalid
               "token signature is invalid: signature is invalid")
            auth.ErrTokenInvalid = true /\
  auth.ExtractUserID JWT_SECRET parse now c = Err auth.ErrTokenInvalid /\
  auth.ExtractTokenMetadata JWT_SECRET parse now c = Err auth.ErrTokenInvalid.
Proof.
  intros Hts Hd Halg Hsig.
  unfold auth.VerifyToken, auth.ExtractUserID, auth.ExtractTokenMetadata.
  rewrite Hts, (decodes_not_empty _ _ _ _ _ Hd).
  rewrite (parse_decodes _ _ _ _ _ _ _ _ Hd), Halg, GetSigningMethod_Alg.
  cbn zeta. rewrite returnVerificationKey_HMAC.
  unfold jwt.Verify. apply String.eqb_neq in Hsig. rewrite Hsig.
  repeat split; reflexivity.
Qed.

(** X3.  A token that is not empty and does not have three segments
    between dots: [VerifyToken] rejects it with an error that is
    [ErrTokenInvalid] and tells of the number of segments, and
    [ExtractUserID] and [ExtractTokenMetadata] give [ErrTokenInvalid]; none
    of the segments is decoded, and the key function is not called. *)
Theorem VerifyToken_segments c now keyFunc :
  auth.ExtractToken c <> "" ->
  length (Split (auth.ExtractToken c) ".") <> 3%nat ->
  auth.VerifyToken JWT_SECRET parse now c =
    Some (Errorf_w_v auth.ErrTokenInvalid
            "token is malformed: token contains an invalid number of segments") /\
  auth.ExtractUserID JWT_SECRET parse now c = Err auth.ErrTokenInvalid /\
  auth.ExtractTokenMetadata JWT_SECRET parse now c = Err auth.ErrTokenInvalid /\
  parse (auth.ExtractToken c) auth.Claims_zero keyFunc now =
    jwt.ParseErr None
      (jwt.newError "token contains an invalid number of segments"
                    jwt.ErrTokenMalformed []).
Proof.
  intros Hne Hlen.
  assert (forall kf, parse (auth.ExtractToken c) auth.Claims_zero kf now =
                     jwt.ParseErr None
                       (jwt.newError "token contains an invalid number of segments"
                                     jwt.ErrTokenMalformed [])) as Hp.
  { intros kf. unfold parse, jwt.ParseWithClaims, jwt.ParseUnverified.
    destruct (Split (auth.ExtractToken c) ".") as [|p0 [|p1 [|p2 [|p3 l]]]];
      try reflexivity.
    by destruct Hlen. }
  unfold auth.VerifyToken, auth.ExtractUserID, auth.ExtractTokenMetadata.
  apply String.eqb_neq in Hne. rewrite Hne, !Hp.
  repeat split; reflexivity.
Qed.

End Verification.

Section Verification_errors.
Variable JWT_SECRET : string.
Variable P :
  string -> auth.Claims -> jwt.Keyfunc auth.Claims -> time.Time -> jwt.Parsed auth.Claims.

(** X4.  The errors of [VerifyToken], for every request and every
    behaviour of the parser: the error is [ErrTokenMissing], and then the
    request carries no token, or [ErrTokenExpired], or
    [ErrTokenNotValidYet], or [ErrTokenInvalid], alone or wrapped with the
    message of the parser.  It is never [ErrInvalidSigningMethod] and never
    [ErrJWTSecretNotSet]: these two are declared and not returned. *)
Theorem VerifyToken_errors now c err :
  auth.VerifyToken JWT_SECRET P now c = Some err ->
  ((err = auth.ErrTokenMissing /\ auth.ExtractToken c = "") \/
   err = auth.ErrTokenExpired \/
   err = auth.ErrTokenNotValidYet \/
   err = auth.ErrTokenInvalid \/
   exists v, err = Errorf_w_v auth.ErrTokenInvalid v) /\
  errors.Is err auth.ErrInvalidSigningMethod = false /\
  errors.Is err auth.ErrJWTSecretNotSet = false.
Proof.
  unfold auth.VerifyToken.
  destruct (String.eqb (auth.ExtractToken c) "") eqn:He.
  - intros [= <-]. apply String.eqb_eq in He. auto.
  - destruct (P _ _ _ _) as [token|token perr].
    + destruct (jwt.Valid token); [discriminate |]. intros [= <-]. auto 6.
    + destruct (errors.Is perr jwt.ErrTokenExpired); [intros [= <-]; auto |].
      destruct (errors.Is perr jwt.ErrTokenNotValidYet); [intros [= <-]; auto 6 |].
      intros [= <-]. rewrite !Is_ErrTokenInvalid_wrap. eauto 8.
Qed.

(** X5.  [ExtractUserID] is [ExtractTokenMetadata] followed by the reading
    of the user ID: on every request and for every behaviour of the parser
    they fail together, with the same error, and when they succeed the
    user ID is the one of the claims. *)
Theorem ExtractUserID_ExtractTokenMetadata now c :
  auth.ExtractUserID JWT_SECRET P now c =
  match auth.ExtractTokenMetadata JWT_SECRET P now c with
  | Ok claims => Ok (auth.UserID claims)
  | Err err => Err err
  end.
Proof.
  unfold auth.ExtractUserID, auth.ExtractTokenMetadata.
  destruct (String.eqb _ _); [reflexivity |].
  destruct (P _ _ _ _) as [token|token perr]; [| reflexivity].
  destruct (jwt.Valid token); reflexivity.
Qed.

End Verification_errors.

(** A token with the claims of [sample_claims] under the header of HS256,
    signed under another secret. *)
Definition foreign_token : string :=
  compact (header_of jwt.SigningMethodHS256) sample_claims
    (jwt.HMAC jwt.SHA256 "another secret"
       (signing_text (header_of jwt.SigningMethodHS256) sample_claims)).

(** X1 on a request: the token issued at [sample_now], at that time. *)
Lemma VerifyToken_sound_sample :
  exists header claims h text,
    decodes (auth.ExtractToken (authorized ("Bearer " +:+ sample_token))) header claims
            (jwt.HMAC h sample_secret text) text /\
    header !! "alg" = Some (jwt.Alg (jwt.SigningMethodHMAC h)) /\
    expired claims sample_now = false /\
    not_valid_yet claims sample_now = false /\
    auth.ExtractUserID sample_secret parse sample_now
      (authorized ("Bearer " +:+ sample_token)) = Ok (auth.UserID claims) /\
    auth.ExtractTokenMetadata sample_secret parse sample_now
      (authorized ("Bearer " +:+ sample_token)) = Ok claims.
Proof.
  apply (VerifyToken_sound sample_secret sample_now
           (authorized ("Bearer " +:+ sample_token))).
  vm_compute. reflexivity.
Defined.

(** X2 on a request: the token signed under another secret. *)
Lemma VerifyToken_bad_signature_foreign :
  auth.VerifyToken sample_secret parse sample_now
    (authorized ("Bearer " +:+ foreign_token)) =
    Some (Errorf_w_v auth.ErrTokenInvalid
            "token signature is invalid: signature is invalid") /\
  errors.Is (Errorf_w_v auth.ErrTokenInvalid
               "token signature is invalid: signature is invalid")
            auth.ErrTokenInvalid = true /\
  auth.ExtractUserID sample_secret parse sample_now
    (authorized ("Bearer " +:+ foreign_token)) = Err auth.ErrTokenInvalid /\
  auth.ExtractTokenMetadata sample_secret parse sample_now
    (authorized ("Bearer " +:+ foreign_token)) = Err auth.ErrTokenInvalid.
Proof.
  apply (VerifyToken_bad_signature sample_secret
           (authorized ("Bearer " +:+ foreign_token)) foreign_token jwt.SHA256
           (header_of jwt.SigningMethodHS256) sample_claims
           (jwt.HMAC jwt.SHA256 "another secret"
              (signing_text (header_of jwt.SigningMethodHS256) sample_claims))
           (signing_text (header_of jwt.SigningMethodHS256) sample_claims)
           sample_now).
  - apply ExtractToken_authorized_compact.
  - apply compact_decodes, sample_claims_exact.
  - apply (header_of_alg jwt.SigningMethodHS256).
  - vm_compute. discriminate.
Defined.

(** X3 on a request: the token ["abc123"] is one segment. *)
Lemma VerifyToken_segments_abc123 :
  auth.VerifyToken sample_secret parse sample_now (authorized "Bearer abc123") =
    Some (Errorf_w_v auth.ErrTokenInvalid
            "token is malformed: token contains an invalid number of segments") /\
  auth.ExtractUserID sample_secret parse sample_now (authorized "Bearer abc123") =
    Err auth.ErrTokenInvalid /\
  auth.ExtractTokenMetadata sample_secret parse sample_now (authorized "Bearer abc123") =
    Err auth.ErrTokenInvalid /\
  parse (auth.ExtractToken (authorized "Bearer abc123")) auth.Claims_zero
        (auth.returnVerificationKey sample_secret) sample_now =
    jwt.ParseErr None
      (jwt.newError "token contains an invalid number of segments"
                    jwt.ErrTokenMalformed []).
Proof.
  apply (VerifyToken_segments sample_secret (authorized "Bearer abc123") sample_now
           (auth.returnVerificationKey sample_secret)).
  - vm_compute. discriminate.
  - vm_compute. discriminate.
Defined.

(** X4 on a request: the error for the token with the header of RS256. *)
Lemma VerifyToken_errors_RS256 :
  ((Errorf_w_v auth.ErrTokenInvalid
      ("token is unverifiable: error while executing keyfunc: " +:+
       "invalid token signing method: RS256") = auth.ErrTokenMissing /\
    auth.ExtractToken (authorized ("Bearer " +:+ forged_token)) = "") \/
   Errorf_w_v auth.ErrTokenInvalid
      ("token is unverifiable: error while executing keyfunc: " +:+
       "invalid token signing method: RS256") = auth.ErrTokenExpired \/
   Errorf_w_v auth.ErrTokenInvalid
      ("token is unverifiable: error while executing keyfunc: " +:+
       "invalid token signing method: RS256") = auth.ErrTokenNotValidYet \/
   Errorf_w_v auth.ErrTokenInvalid
      ("token is unverifiable: error while executing keyfunc: " +:+
       "invalid token signing method: RS256") = auth.ErrTokenInvalid \/
   exists v,
     Errorf_w_v auth.ErrTokenInvalid
       ("token is unverifiable: error while executing keyfunc: " +:+
        "invalid token signing method: RS256") = Errorf_w_v auth.ErrTokenInvalid v) /\
  errors.Is
    (Errorf_w_v auth.ErrTokenInvalid
       ("token is unverifiable: error while executing keyfunc: " +:+
        "invalid token signing method: RS256")) auth.ErrInvalidSigningMethod = false /\
  errors.Is
    (Errorf_w_v auth.ErrTokenInvalid
       ("token is unverifiable: error while executing keyfunc: " +:+
        "invalid token signing method: RS256")) auth.ErrJWTSecretNotSet = false.
Proof.
  apply (VerifyToken_errors sample_secret parse sample_now
           (authorized ("Bearer " +:+ forged_token))).
  vm_compute. reflexivity.
Defined.

(* ===================================================================== *)
(** * More on the issued tokens *)
(* ===================================================================== *)

Section Tokens_more.
Context `{jwt.Encoding} `{auth.ClaimsJSON}.
Variable JWT_SECRET : string.

(** A token decodes in one way. *)
Lemma decodes_functional ts header claims sig text header' claims' sig' text' :
  decodes ts header claims sig text ->
  decodes ts header' claims' sig' text' ->
  header = header' /\ claims = claims' /\ sig = sig' /\ text = text'.
Proof.
  intros (p0 & p1 & p2 & hb & cb & Hs & Hd0 & Hh & Hd1 & Hc & Hd2 & ->)
         (q0 & q1 & q2 & hb' & cb' & Hs' & Hd0' & Hh' & Hd1' & Hc' & Hd2' & ->).
  rewrite Hs in Hs'. injection Hs' as <- <- <-.
  rewrite Hd0 in Hd0'. injection Hd0' as <-.
  rewrite Hd1 in Hd1'. injection Hd1' as <-.
  rewrite Hd2 in Hd2'. injection Hd2' as <-.
  rewrite Hh in Hh'. injection Hh' as <-.
  rewrite Hc in Hc'. injection Hc' as <-.
  auto.
Qed.

(** X29.  Two tokens that [CreateToken] issues are the same token only for
    the same user: for user IDs that are [uint], emails that are valid
    UTF-8 and clocks within 63 bits of nanoseconds, equal tokens have the
    same user ID and the same email, and were issued within the same
    second. *)
Theorem CreateToken_injective now1 now2 userID1 userID2 email1 email2 :
  (userID1 < 2 ^ 64)%N -> (userID2 < 2 ^ 64)%N ->
  utf8.ValidString email1 = true -> utf8.ValidString email2 = true ->
  0 <= now1 < 2 ^ 63 -> 0 <= now2 < 2 ^ 63 ->
  auth.CreateToken JWT_SECRET now1 userID1 email1 =
    auth.CreateToken JWT_SECRET now2 userID2 email2 ->
  userID1 = userID2 /\ email1 = email2 /\
  jwt.NewNumericDate now1 = jwt.NewNumericDate now2.
Proof.
  intros Hu1 Hu2 He1 He2 Hn1 Hn2. rewrite !CreateToken_compact. intros [= Heq].
  pose proof (compact_decodes jwt.SigningMethodHS256 _
                (jwt.HMAC jwt.SHA256 JWT_SECRET
                   (signing_text (header_of jwt.SigningMethodHS256)
                      (auth.newClaims now1 userID1 email1)))
                (newClaims_json_exact now1 userID1 email1 Hu1 He1 Hn1)) as Hd1.
  pose proof (compact_decodes jwt.SigningMethodHS256 _
                (jwt.HMAC jwt.SHA256 JWT_SECRET
                   (signing_text (header_of jwt.SigningMethodHS256)
                      (auth.newClaims now2 userID2 email2)))
                (newClaims_json_exact now2 userID2 email2 Hu2 He2 Hn2)) as Hd2.
  rewrite Heq in Hd1.
  destruct (decodes_functional _ _ _ _ _ _ _ _ _ Hd1 Hd2) as (_ & Hc & _).
  unfold auth.newClaims in Hc. injection Hc as Hexp Hiat _ _ Hemail Huser.
  auto.
Qed.

(** X30.  The times at which a token is accepted.  For a request that
    carries a well-formed token signed with HMAC under the secret of the
    process, [VerifyToken] succeeds exactly from the time before which the
    token is not valid, if it has one, until before its expiration, if it
    has one.  So between two times at which the token is accepted it is
    accepted, and once [VerifyToken] has reported it expired it reports it
    expired at every later time. *)
Theorem VerifyToken_window c ts h header claims text :
  auth.ExtractToken c = ts ->
  decodes ts header claims (jwt.HMAC h JWT_SECRET text) text ->
  header !! "alg" = Some (jwt.Alg (jwt.SigningMethodHMAC h)) ->
  (forall now,
      auth.VerifyToken JWT_SECRET parse now c = None <->
      (forall nbf, jwt.NotBefore (auth.RegisteredClaims claims) = Some nbf ->
                   jwt.Time_of nbf <= now) /\
      (forall exp, jwt.ExpiresAt (auth.RegisteredClaims claims) = Some exp ->
                   now < jwt.Time_of exp)) /\
  (forall now1 now2 now3,
      now1 <= now2 <= now3 ->
      auth.VerifyToken JWT_SECRET parse now1 c = None ->
      auth.VerifyToken JWT_SECRET parse now3 c = None ->
      auth.VerifyToken JWT_SECRET parse now2 c = None) /\
  (forall now now',
      now <= now' ->
      auth.VerifyToken JWT_SECRET parse now c = Some auth.ErrTokenExpired ->
      auth.VerifyToken JWT_SECRET parse now' c = Some auth.ErrTokenExpired).
Proof.
  intros Hts Hd Halg.
  assert (forall now,
      auth.VerifyToken JWT_SECRET parse now c = None <->
      (forall nbf, jwt.NotBefore (auth.RegisteredClaims claims) = Some nbf ->
                   jwt.Time_of nbf <= now) /\
      (forall exp, jwt.ExpiresAt (auth.RegisteredClaims claims) = Some exp ->
                   now < jwt.Time_of exp)) as Hiff.
  { intros now.
    rewrite (VerifyToken_signed JWT_SECRET _ _ _ _ _ _ _ now Hts Hd Halg eq_refl).
    unfold expired, not_valid_yet.
    destruct (jwt.ExpiresAt _) as [exp|], (jwt.NotBefore _) as [nbf|];
      repeat match goal with
             | |- context [ ?a <? ?b ] => destruct (Z.ltb_spec a b)
             end; cbn [negb];
      (split;
       [ try discriminate; intros _; split; intros ? [= <-]; lia
       | try reflexivity; intros [Hn He];
         try (specialize (Hn _ eq_refl)); try (specialize (He _ eq_refl)); lia ]). }
  split; [exact Hiff |]. split.
  - intros now1 now2 now3 Hle H1 H3. apply Hiff. apply Hiff in H1, H3.
    destruct H1 as [Hn1 _], H3 as [_ He3]. split.
    + intros nbf Hnbf. specialize (Hn1 _ Hnbf). lia.
    + intros exp Hexp. specialize (He3 _ Hexp). lia.
  - intros now now' Hle.
    rewrite !(VerifyToken_signed JWT_SECRET _ _ _ _ _ _ _ _ Hts Hd Halg eq_refl).
    unfold expired.
    destruct (jwt.ExpiresAt _) as [exp|].
    + destruct (Z.ltb_spec now (jwt.Time_of exp)); cbn [negb].
      * destruct (not_valid_yet claims now); discriminate.
      * intros _. destruct (Z.ltb_spec now' (jwt.Time_of exp)); [lia | reflexivity].
    + destruct (not_valid_yet claims now); discriminate.
Qed.

End Tokens_more.

(** X29 on two tokens issued within the same second. *)
Lemma CreateToken_injective_sample :
  42%N = 42%N /\ "a@b.com" = "a@b.com" /\
  jwt.NewNumericDate sample_now = jwt.NewNumericDate (sample_now + 1).
Proof.
  apply (CreateToken_injective sample_secret sample_now (sample_now + 1) 42 42
           "a@b.com" "a@b.com").
  - reflexivity.
  - reflexivity.
  - vm_compute. reflexivity.
  - vm_compute. reflexivity.
  - unfold sample_now. lia.
  - unfold sample_now. lia.
  - vm_compute. reflexivity.
Defined.

(** X30 on a request: the token issued at [sample_now] is accepted one
    hour later, and reported expired 25 and 26 hours later. *)
Lemma VerifyToken_window_sample :
  auth.VerifyToken sample_secret parse (sample_now + time.Hour)
    (authorized ("Bearer " +:+ sample_token)) = None /\
  auth.VerifyToken sample_secret parse (sample_now + 26 * time.Hour)
    (authorized ("Bearer " +:+ sample_token)) = Some auth.ErrTokenExpired.
Proof.
  destruct (VerifyToken_window sample_secret
              (authorized ("Bearer " +:+ sample_token)) sample_token jwt.SHA256
              (header_of jwt.SigningMethodHS256) sample_claims
              (signing_text (header_of jwt.SigningMethodHS256) sample_claims))
    as (_ & Hbetween & Hlater).
  - apply ExtractToken_authorized_compact.
  - apply compact_decodes, sample_claims_exact.
  - apply (header_of_alg jwt.SigningMethodHS256).
  - split.
    + apply (Hbetween sample_now (sample_now + time.Hour) (sample_now + 2 * time.Hour)).
      * unfold time.Hour, time.Minute, time.Second, time.Millisecond, time.Microsecond,
          time.Nanosecond. lia.
      * vm_compute. reflexivity.
      * vm_compute. reflexivity.
    + apply (Hlater (sample_now + 25 * time.Hour) (sample_now + 26 * time.Hour)).
      * unfold time.Hour, time.Minute, time.Second, time.Millisecond, time.Microsecond,
          time.Nanosecond. lia.
      * vm_compute. reflexivity.
Defined.

(* ===================================================================== *)
(** * More on the Authorization Gate *)
(* ===================================================================== *)

Section Gate_steps.
Variable JWT_SECRET : string.
Variable P :
  string -> auth.Claims -> jwt.Keyfunc auth.Claims -> time.Time -> jwt.Parsed auth.Claims.

(** The engine serving a request on a route that starts with the gate: the
    gate runs on the request, and then the loop goes on from where the
    gate left the index. *)
Lemma serve_gate now1 now2 (rest : list gin.HandlerFunc) fuel c :
  let route := middlewares.AuthMiddleware JWT_SECRET P now1 now2 :: rest in
  gin.serve (S fuel) route c =
  let c1 :=
    middlewares.AuthMiddleware JWT_SECRET P now1 now2
      (fun c' => gin.run fuel route (gin.set_index (gin.index c' + 1) c'))
      (gin.set_index 0 c) in
  gin.run fuel route (gin.set_index (gin.index c1 + 1) c1).
Proof.
  intros route. unfold gin.serve, gin.Next.
  change (gin.set_index (gin.index (gin.set_index (-1) c) + 1) (gin.set_index (-1) c))
    with (gin.set_index 0 c).
  apply run_step; [reflexivity | simpl; lia | reflexivity].
Qed.

(** The gate when [VerifyToken] succeeds and [ExtractUserID] fails. *)
Lemma serve_gate_no_user now1 now2 (rest : list gin.HandlerFunc) fuel c err :
  (length (middlewares.AuthMiddleware JWT_SECRET P now1 now2 :: rest) < 63)%nat ->
  auth.VerifyToken JWT_SECRET P now1 c = None ->
  auth.ExtractUserID JWT_SECRET P now2 c = Err err ->
  gin.serve (S fuel) (middlewares.AuthMiddleware JWT_SECRET P now1 now2 :: rest) c =
  rejected "failed to extract user information" c.
Proof.
  intros Hlen Hv Hu. rewrite serve_gate. cbn zeta.
  unfold middlewares.AuthMiddleware.
  rewrite (VerifyToken_header JWT_SECRET P now1 c (gin.set_index 0 c) eq_refl), Hv.
  rewrite (ExtractUserID_header JWT_SECRET P now2 c (gin.set_index 0 c) eq_refl), Hu.
  rewrite run_past_the_end; [reflexivity |].
  cbn. unfold gin.abortIndex. simpl in Hlen. lia.
Qed.

(** X7.  The gate of package auth is the gate of package middlewares,
    which the routes use: the two are the same handler.  So the gate of
    package auth, as the first handler of a route of fewer than 63
    handlers, answers a request on which [VerifyToken] fails with the
    status 401 and the message of the error and lets no later handler run;
    and when [VerifyToken] and [ExtractUserID] succeed it calls the next
    handler on the request with the user ID stored under ["user_id"]. *)
Theorem AuthMiddleware_of_auth now1 now2 :
  auth.AuthMiddleware JWT_SECRET P now1 now2 =
    middlewares.AuthMiddleware JWT_SECRET P now1 now2 /\
  (forall (rest : list gin.HandlerFunc) fuel c err,
      (length (auth.AuthMiddleware JWT_SECRET P now1 now2 :: rest) < 63)%nat ->
      auth.VerifyToken JWT_SECRET P now1 c = Some err ->
      gin.serve (S fuel) (auth.AuthMiddleware JWT_SECRET P now1 now2 :: rest) c =
      rejected (errors.Error err) c) /\
  (forall next c userID,
      auth.VerifyToken JWT_SECRET P now1 c = None ->
      auth.ExtractUserID JWT_SECRET P now2 c = Ok userID ->
      auth.AuthMiddleware JWT_SECRET P now1 now2 next c =
      next (gin.Set_ "user_id" (gin.Any_uint userID) c)).
Proof.
  split; [reflexivity |]. split.
  - intros rest fuel c err Hlen Hv.
    change (auth.AuthMiddleware JWT_SECRET P now1 now2)
      with (middlewares.AuthMiddleware JWT_SECRET P now1 now2) in *.
    rewrite serve_gate. cbn zeta. unfold middlewares.AuthMiddleware.
    rewrite (VerifyToken_header JWT_SECRET P now1 c (gin.set_index 0 c) eq_refl), Hv.
    rewrite run_past_the_end; [reflexivity |].
    cbn. unfold gin.abortIndex. simpl in Hlen. lia.
  - intros next c userID Hv Hu. unfold auth.AuthMiddleware. by rewrite Hv, Hu.
Qed.

End Gate_steps.

Section Gate_clock.
Context `{jwt.Encoding} `{auth.ClaimsJSON}.
Variable JWT_SECRET : string.

(** X6.  The gate reads the clock twice.  For a request that carries a
    well-formed token signed with HMAC under the secret of the process,
    in date at the first reading and expired at the second: the gate
    answers with the status 401 and the message
    ["failed to extract user information"], and no later handler of the
    route runs. *)
Theorem AuthMiddleware_expires_between now1 now2 (rest : list gin.HandlerFunc) fuel
        c ts h header claims text :
  (length (middlewares.AuthMiddleware JWT_SECRET parse now1 now2 :: rest) < 63)%nat ->
  auth.ExtractToken c = ts ->
  decodes ts header claims (jwt.HMAC h JWT_SECRET text) text ->
  header !! "alg" = Some (jwt.Alg (jwt.SigningMethodHMAC h)) ->
  expired claims now1 = false ->
  not_valid_yet claims now1 = false ->
  expired claims now2 = true ->
  gin.serve (S fuel) (middlewares.AuthMiddleware JWT_SECRET parse now1 now2 :: rest) c =
  rejected "failed to extract user information" c.
Proof.
  intros Hlen Hts Hd Halg He1 Hn1 He2.
  apply (serve_gate_no_user JWT_SECRET parse now1 now2 rest fuel c auth.ErrTokenInvalid
           Hlen).
  - rewrite (VerifyToken_signed JWT_SECRET _ _ _ _ _ _ _ now1 Hts Hd Halg eq_refl).
    by rewrite He1, Hn1.
  - rewrite (ExtractUserID_signed JWT_SECRET _ _ _ _ _ _ _ now2 Hts Hd Halg eq_refl).
    by rewrite He2.
Qed.

End Gate_clock.

(** X6 on a request: the token issued at [sample_now], with the first
    reading of the clock one nanosecond before its expiration and the
    second at its expiration. *)
Lemma AuthMiddleware_expires_between_sample :
  gin.serve 3
    [middlewares.AuthMiddleware sample_secret parse
       (1700086400 * time.Second - 1) (1700086400 * time.Second); business]
    (authorized ("Bearer " +:+ sample_token)) =
  rejected "failed to extract user information"
           (authorized ("Bearer " +:+ sample_token)).
Proof.
  apply (AuthMiddleware_expires_between sample_secret
           (1700086400 * time.Second - 1) (1700086400 * time.Second) [business] 2
           (authorized ("Bearer " +:+ sample_token)) sample_token jwt.SHA256
           (header_of jwt.SigningMethodHS256) sample_claims
           (signing_text (header_of jwt.SigningMethodHS256) sample_claims)).
  - simpl. lia.
  - apply ExtractToken_authorized_compact.
  - apply compact_decodes, sample_claims_exact.
  - apply (header_of_alg jwt.SigningMethodHS256).
  - vm_compute. reflexivity.
  - vm_compute. reflexivity.
  - vm_compute. reflexivity.
Defined.

(* ===================================================================== *)
(** * The user repository *)
(* ===================================================================== *)

Lemma First_Ok_fault cond (db db' : gorm.DB) (u : models.User) :
  gorm.First cond db = (Ok u, db') -> gorm.next_fault db = (None, db').
Proof.
  unfold gorm.First. destruct (gorm.next_fault db) as [[e|] db1]; [discriminate |].
  destruct (gorm.least _); [| discriminate]. by intros [= _ <-].
Qed.

(** [First] finds the row that satisfies the condition and is not deleted
    when there is one such row only. *)
Lemma First_unique cond (db db1 : gorm.DB) (k : N) (u : models.User) :
  gorm.next_fault db = (None, db1) ->
  gorm.users db !! k = Some u ->
  cond u = true ->
  models.DeletedAt u = None ->
  (forall k' u', gorm.users db !! k' = Some u' -> cond u' = true ->
                 models.DeletedAt u' = None -> u' = u) ->
  gorm.First cond db = (Ok u, db1).
Proof.
  intros Hf Hk Hc Hd Huniq. unfold gorm.First. rewrite Hf.
  pose proof (next_fault_users _ _ _ Hf) as Hu.
  destruct (gorm.least _) as [u'|] eqn:Hl.
  - apply least_elem in Hl as [k' Hk'].
    apply list_elem_of_filter in Hk' as [[Hc' Hd'] Hk']. simpl in *.
    apply elem_of_map_to_list in Hk'. rewrite Hu in Hk'.
    by rewrite (Huniq _ _ Hk' Hc' Hd').
  - apply least_nil_inv in Hl.
    assert ((k, u) ∈ filter (fun r : N * models.User =>
                               cond r.2 = true /\ models.DeletedAt r.2 = None)
                            (map_to_list (gorm.users db1))) as Hin.
    { apply list_elem_of_filter. split; [by split |].
      apply elem_of_map_to_list. by rewrite Hu. }
    rewrite Hl in Hin. by apply not_elem_of_nil in Hin.
Qed.

(** [First] with no fault fails with [ErrRecordNotFound], and then no row
    that is not deleted satisfies the condition. *)
Lemma First_Err cond (db db' : gorm.DB) (err : error) :
  gorm.First cond db = (Err err, db') ->
  gorm.next_fault db = (Some err, db') \/
  (gorm.next_fault db = (None, db') /\ err = gorm.ErrRecordNotFound /\
   forall k u, gorm.users db !! k = Some u -> cond u = true ->
               models.DeletedAt u <> None).
Proof.
  unfold gorm.First. destruct (gorm.next_fault db) as [[e|] db1] eqn:Hf.
  - intros [= <- <-]. auto.
  - pose proof (next_fault_users _ _ _ Hf) as Hu.
    destruct (gorm.least _) as [u'|] eqn:Hl; [discriminate |].
    intros [= <- <-]. right. repeat split.
    intros k u Hk Hc Hd. apply least_nil_inv in Hl.
    assert ((k, u) ∈ filter (fun r : N * models.User =>
                               cond r.2 = true /\ models.DeletedAt r.2 = None)
                            (map_to_list (gorm.users db1))) as Hin.
    { apply list_elem_of_filter. split; [by split |].
      apply elem_of_map_to_list. by rewrite Hu. }
    rewrite Hl in Hin. by apply not_elem_of_nil in Hin.
Qed.

Lemma FindByID_live (id : N) (db db1 : gorm.DB) (u : models.User) :
  keyed db ->
  gorm.next_fault db = (None, db1) ->
  gorm.users db !! id = Some u ->
  models.DeletedAt u = None ->
  repository.FindByID id db = (Ok u, db1).
Proof.
  intros Hkeyed Hf Hk Hd. unfold repository.FindByID.
  rewrite (First_unique (fun u => (models.ID u =? id)%N) db db1 id u Hf Hk); auto.
  - apply N.eqb_eq. by apply Hkeyed.
  - intros k' u' Hk' Hc' _. apply N.eqb_eq in Hc'.
    apply Hkeyed in Hk' as Hid. rewrite Hc' in Hid. subst k'. congruence.
Qed.

Lemma FindByID_Err (id : N) (db db' : gorm.DB) (err : error) :
  repository.FindByID id db = (Err err, db') ->
  errors.Is err gorm.ErrRecordNotFound = false /\
  gorm.users db' = gorm.users db /\
  (gorm.next_fault db = (None, db') ->
   err = errorString "repository.FindByID" "user not found" /\
   forall k u, gorm.users db !! k = Some u -> models.ID u = id ->
               models.DeletedAt u <> None).
Proof.
  unfold repository.FindByID.
  destruct (gorm.First _ db) as [[u|e] db1] eqn:HF; [discriminate |].
  pose proof (First_users _ _ _ _ HF) as Hu.
  apply First_Err in HF as [Hf | (Hf & -> & Hno)].
  - destruct (errors.Is e gorm.ErrRecordNotFound) eqn:Hi; intros [= <- <-].
    + split; [reflexivity | split; [assumption |]].
      intros Hf'. rewrite Hf in Hf'. discriminate.
    + split; [assumption | split; [assumption |]].
      intros Hf'. rewrite Hf in Hf'. discriminate.
  - cbn. intros [= <- <-]. split; [reflexivity | split; [assumption |]].
    intros _. split; [reflexivity |].
    intros k u Hk Hid. apply (Hno k u Hk). by apply N.eqb_eq.
Qed.

Lemma FindByEmail_Err (email : string) (db db' : gorm.DB) (err : error) :
  repository.FindByEmail email db = (Err err, db') ->
  errors.Is err gorm.ErrRecordNotFound = false /\
  gorm.users db' = gorm.users db /\
  (gorm.next_fault db = (None, db') ->
   err = errorString "repository.FindByEmail" "user not found" /\
   forall k u, gorm.users db !! k = Some u -> models.Email u = email ->
               models.DeletedAt u <> None).
Proof.
  unfold repository.FindByEmail.
  destruct (gorm.First _ db) as [[u|e] db1] eqn:HF; [discriminate |].
  pose proof (First_users _ _ _ _ HF) as Hu.
  apply First_Err in HF as [Hf | (Hf & -> & Hno)].
  - destruct (errors.Is e gorm.ErrRecordNotFound) eqn:Hi; intros [= <- <-].
    + split; [reflexivity | split; [assumption |]].
      intros Hf'. rewrite Hf in Hf'. discriminate.
    + split; [assumption | split; [assumption |]].
      intros Hf'. rewrite Hf in Hf'. discriminate.
  - cbn. intros [= <- <-]. split; [reflexivity | split; [assumption |]].
    intros _. split; [reflexivity |].
    intros k u Hk Hid. apply (Hno k u Hk). by apply String.eqb_eq.
Qed.

(** X8.  On a table that holds its rows under their primary keys,
    [FindByID] gives a user exactly when the statement does not fail and
    the row with that key is there and not deleted, and the user is that
    row. *)
Theorem FindByID_keyed (id : N) (db db' : gorm.DB) (u : models.User) :
  keyed db ->
  repository.FindByID id db = (Ok u, db') <->
  gorm.next_fault db = (None, db') /\
  gorm.users db !! id = Some u /\
  models.DeletedAt u = None.
Proof.
  intros Hkeyed. split.
  - intros Hfind. split.
    + unfold repository.FindByID in Hfind.
      destruct (gorm.First _ db) as [[u'|e] db1] eqn:HF.
      * injection Hfind as <- <-. by apply First_Ok_fault in HF.
      * destruct (errors.Is _ _); discriminate.
    + apply FindByID_Ok in Hfind as (_ & k & Hk & Hid & Hd).
      apply Hkeyed in Hk as Hid'. rewrite Hid in Hid'. subst k. auto.
  - intros (Hf & Hk & Hd). by apply FindByID_live.
Qed.


Lemma FindByID_none (id : N) (db : gorm.DB) :
  (forall k u, gorm.users db !! k = Some u -> models.DeletedAt u = None ->
               models.ID u <> id) ->
  exists err db', repository.FindByID id db = (Err err, db').
Proof.
  intros Hno. unfold repository.FindByID.
  destruct (First_none (fun u => (models.ID u =? id)%N) db) as (e & db' & Hf).
  { intros k u Hk Hd. apply N.eqb_neq. eauto. }
  rewrite Hf. destruct (errors.Is _ _); eauto.
Qed.

(** The rows after [Delete]: each row of the table, marked when it has the
    ID and is not deleted. *)
Definition marked (id : N) (now : time.Time) (u : models.User) : models.User :=
  if (models.ID u =? id)%N && bool_decide (models.DeletedAt u = None)
  then gorm.with_DeletedAt (Some now) u else u.

Lemma Delete_rows (id : N) (now : time.Time) (db db' : gorm.DB) :
  repository.Delete id now db = (None, db') ->
  gorm.users db' = marked id now <$> gorm.users db.
Proof.
  unfold repository.Delete, gorm.Delete.
  destruct (gorm.next_fault db) as [[e|] db1] eqn:Hf; [discriminate |].
  pose proof (next_fault_users _ _ _ Hf) as Hu.
  intros [= <-]. cbn [gorm.users]. by rewrite Hu.
Qed.

Lemma marked_cases (id : N) (now : time.Time) (u : models.User) :
  (models.ID u = id /\ models.DeletedAt u = None /\
   marked id now u = gorm.with_DeletedAt (Some now) u) \/
  ((models.ID u <> id \/ models.DeletedAt u <> None) /\ marked id now u = u).
Proof.
  unfold marked.
  destruct (N.eqb_spec (models.ID u) id) as [Hid|Hid];
    destruct (bool_decide_reflect (models.DeletedAt u = None)) as [Hd|Hd];
    cbn [andb]; auto.
Qed.

(** A row with the ID is deleted after [Delete]. *)
Lemma marked_gone (id : N) (now : time.Time) (u : models.User) :
  models.ID (marked id now u) = id -> models.DeletedAt (marked id now u) <> None.
Proof.
  destruct (marked_cases id now u) as [(Hid & Hd & ->)|([Hid|Hd] & ->)];
    [discriminate | contradiction | auto].
Qed.

(** X10.  [Delete] is a soft delete.  When its statement does not fail,
    whether a row has the ID or not: no row leaves the table; a row with
    another ID, and a row that was deleted before, is as it was; a row
    with the ID keeps every column but the deletion mark, and is marked as
    deleted; so [FindByID] with that ID fails afterwards.  A table that
    holds its rows under their primary keys still does. *)
Theorem Delete_soft (id : N) (now : time.Time) (db db' : gorm.DB) :
  repository.Delete id now db = (None, db') ->
  (forall k u, gorm.users db !! k = Some u ->
     exists u', gorm.users db' !! k = Some u' /\
       models.ID u' = models.ID u /\ models.Name u' = models.Name u /\
       models.Email u' = models.Email u /\
       models.PasswordHash u' = models.PasswordHash u /\
       models.PartnerName u' = models.PartnerName u /\
       models.CreatedAt u' = models.CreatedAt u /\
       models.UpdatedAt u' = models.UpdatedAt u /\
       (models.ID u <> id \/ models.DeletedAt u <> None -> u' = u) /\
       (models.ID u = id -> models.DeletedAt u = None ->
        models.DeletedAt u' = Some now)) /\
  (forall k u', gorm.users db' !! k = Some u' -> is_Some (gorm.users db !! k)) /\
  (forall k u', gorm.users db' !! k = Some u' -> models.ID u' = id ->
                models.DeletedAt u' <> None) /\
  (exists err db'', repository.FindByID id db' = (Err err, db'')) /\
  (keyed db -> keyed db').
Proof.
  intros Hdel. apply Delete_rows in Hdel.
  assert (forall k u', gorm.users db' !! k = Some u' ->
            exists u, gorm.users db !! k = Some u /\ u' = marked id now u) as Hinv.
  { intros k u'. rewrite Hdel, lookup_fmap.
    destruct (gorm.users db !! k) as [u|]; [| discriminate].
    intros [= <-]. eauto. }
  split; [| split; [| split; [| split]]].
  - intros k u Hk. exists (marked id now u).
    split; [by rewrite Hdel, lookup_fmap, Hk |].
    destruct (marked_cases id now u) as [(Hid & Hd & ->)|([Hid|Hd] & ->)];
      repeat split; try reflexivity; try tauto; try congruence.
  - intros k u' Hk. apply Hinv in Hk as (u & Hk & _). eauto.
  - intros k u' Hk Hid. apply Hinv in Hk as (u & _ & ->). by apply marked_gone.
  - apply FindByID_none. intros k u' Hk Hd Hid.
    apply Hinv in Hk as (u & _ & ->). by apply marked_gone in Hid.
  - intros Hkeyed k u' Hk. apply Hinv in Hk as (u & Hk & ->).
    apply Hkeyed in Hk.
    by destruct (marked_cases id now u) as [(_ & _ & ->)|(_ & ->)].
Qed.


Lemma keyed_insert (rows : gorm.DB) (faults : list (option error)) (row : models.User) :
  keyed rows ->
  keyed {| gorm.users := <[models.ID row := row]> (gorm.users rows);
           gorm.faults := faults |}.
Proof.
  intros Hkeyed k v. cbn [gorm.users].
  intros [[<- <-]|[_ Hk]]%lookup_insert_Some; [reflexivity | by apply Hkeyed].
Qed.


(** X13.  [Update] and then [FindByID]: on a table that holds its rows
    under their primary keys, after the update of a user that has a primary
    key and is not deleted, [FindByID] with that key gives the user as
    [Update] returned it, which is the user given with the time of the
    statement as its time of update; the other rows are as they were. *)
Theorem Update_FindByID (u u' : models.User) (now : time.Time) (db db' db'' : gorm.DB) :
  keyed db ->
  models.ID u <> 0%N ->
  models.DeletedAt u = None ->
  repository.Update u now db = (None, u', db') ->
  gorm.next_fault db' = (None, db'') ->
  repository.FindByID (models.ID u) db' = (Ok u', db'') /\
  u' = gorm.with_times (models.CreatedAt u) now u /\
  (forall k v, k <> models.ID u ->
               gorm.users db' !! k = Some v <-> gorm.users db !! k = Some v) /\
  keyed db'.
Proof.
  intros Hkeyed Hid Hd. unfold repository.Update, gorm.Save.
  apply N.eqb_neq in Hid. rewrite Hid.
  destruct (gorm.next_fault db) as [[e|] db1] eqn:Hf; [discriminate |].
  pose proof (next_fault_users _ _ _ Hf) as Hu. rewrite Hu.
  intros [= <- <-] Hf'.
  assert (keyed {| gorm.users :=
                     <[models.ID u := gorm.with_times (models.CreatedAt u) now u]>
                       (gorm.users db);
                   gorm.faults := gorm.faults db1 |}) as Hkeyed'.
  { apply (keyed_insert db (gorm.faults db1)
             (gorm.with_times (models.CreatedAt u) now u) Hkeyed). }
  split; [| split; [reflexivity | split; [| exact Hkeyed']]].
  - apply FindByID_live; try assumption.
    cbn [gorm.users]. by rewrite lookup_insert_eq.
  - intros k v Hk. cbn [gorm.users]. by rewrite lookup_insert_ne.
Qed.

(** The table of [sample_world], and a user who is not in it yet. *)
Definition sample_db : gorm.DB := controllers.database sample_world.


(** X8 on the table of [sample_world]: the user 42 is found. *)
Lemma FindByID_keyed_42 :
  repository.FindByID 42 sample_db = (Ok ana, sample_db) <->
  gorm.next_fault sample_db = (None, sample_db) /\
  gorm.users sample_db !! 42%N = Some ana /\
  models.DeletedAt ana = None.
Proof. apply (FindByID_keyed 42 sample_db sample_db ana sample_world_keyed). Defined.

(** X10 on the table of [sample_world]: the user 42 is deleted at
    [sample_now]. *)
Lemma Delete_soft_42 :
  gorm.users (repository.Delete 42 sample_now sample_db).2 !! 42%N =
    Some (gorm.with_DeletedAt (Some sample_now) ana) /\
  exists err db'',
    repository.FindByID 42 (repository.Delete 42 sample_now sample_db).2 = (Err err, db'').
Proof.
  destruct (Delete_soft 42 sample_now sample_db
              (repository.Delete 42 sample_now sample_db).2)
    as (_ & _ & _ & Hfind & _).
  - vm_compute. reflexivity.
  - split; [vm_compute; reflexivity | exact Hfind].
Defined.



(** X13 on the table of [sample_world]: the user 42 is updated one second
    after [sample_now], and found. *)
Lemma Update_FindByID_42 :
  repository.FindByID (models.ID ana)
    (repository.Update ana (sample_now + time.Second) sample_db).2 =
    (Ok (repository.Update ana (sample_now + time.Second) sample_db).1.2,
     (repository.Update ana (sample_now + time.Second) sample_db).2) /\
  (repository.Update ana (sample_now + time.Second) sample_db).1.2 =
    gorm.with_times (models.CreatedAt ana) (sample_now + time.Second) ana /\
  keyed (repository.Update ana (sample_now + time.Second) sample_db).2.
Proof.
  destruct (Update_FindByID ana
              (repository.Update ana (sample_now + time.Second) sample_db).1.2
              (sample_now + time.Second) sample_db
              (repository.Update ana (sample_now + time.Second) sample_db).2
              (repository.Update ana (sample_now + time.Second) sample_db).2
              sample_world_keyed)
    as (Hfind & Hrow & _ & Hkeyed).
  - vm_compute. discriminate.
  - reflexivity.
  - vm_compute. reflexivity.
  - vm_compute. reflexivity.
  - exact (conj Hfind (conj Hrow Hkeyed)).
Defined.

(* ===================================================================== *)
(** * The user controllers *)
(* ===================================================================== *)

Lemma JSON_Writer (code : Z) (obj : JSON) (c : gin.Context) :
  gin.Writer (gin.JSON code obj c) = gin.Writer c ++ [(code, obj)].
Proof. reflexivity. Qed.

Lemma response_inv (c : gin.Context) (s s' : Z) (b b' : JSON) :
  gin.Writer c ++ [(s, b)] = gin.Writer c ++ [(s', b')] -> s = s' /\ b = b'.
Proof. intros Hw. apply app_inv_head in Hw. by inversion Hw. Qed.

(** X14.  [GetProfile] never answers with the status 404.  When it does
    not panic it writes one response, with the status 200, 401 or 500,
    changes no row and does not sleep.  The status 200 comes with the
    profile of a row that is not deleted and has the ID stored under
    ["user_id"]; the status 401 means that nothing is stored under
    ["user_id"]; and when no row that is not deleted has the ID, the
    response is the status 500 with the message
    ["unable to fetch user profile"]: the repository has replaced
    [gorm.ErrRecordNotFound], which the handler tests for, by an error of
    its own. *)
Theorem GetProfile_never_404 (c c' : gin.Context) (w w' : controllers.World) :
  controllers.GetProfile c w = Some (c', w') ->
  gorm.users (controllers.database w') = gorm.users (controllers.database w) /\
  controllers.Slept w' = controllers.Slept w /\
  exists status body,
    gin.Writer c' = gin.Writer c ++ [(status, body)] /\
    (status = 200 \/ status = 401 \/ status = 500) /\
    status <> http.StatusNotFound /\
    (status = 401 -> gin.Get "user_id" c = None) /\
    (status = 200 ->
     exists userID k user,
       gin.Get "user_id" c = Some (gin.Any_uint userID) /\
       gorm.users (controllers.database w) !! k = Some user /\
       models.ID user = userID /\ models.DeletedAt user = None /\
       body = controllers.userResponse user) /\
    (forall userID,
        gin.Get "user_id" c = Some (gin.Any_uint userID) ->
        (forall k u, gorm.users (controllers.database w) !! k = Some u ->
                     models.ID u = userID -> models.DeletedAt u <> None) ->
        status = 500 /\
        body = controllers.errorResponse "unable to fetch user profile").
Proof.
  unfold controllers.GetProfile.
  destruct (gin.Get "user_id" c) as [[userID|s]|] eqn:Hget; [| discriminate |].
  - destruct (repository.FindByID userID (controllers.database w)) as [[user|e] db1] eqn:Hf.
    + intros [= <- <-]. apply FindByID_Ok in Hf as (Hu & k & Hk & Hid & Hd).
      split; [exact Hu | split; [reflexivity |]].
      exists 200, (controllers.userResponse user).
      split; [reflexivity |]. split; [auto |]. split; [discriminate |].
      split; [discriminate |]. split.
      * intros _. exists userID, k, user. auto.
      * intros userID' [= <-] Hno. exfalso. by apply (Hno k user).
    + apply FindByID_Err in Hf as (Hi & Hu & _). rewrite Hi.
      intros [= <- <-]. split; [exact Hu | split; [reflexivity |]].
      exists 500, (controllers.errorResponse "unable to fetch user profile").
      split; [reflexivity |]. split; [auto |]. split; [discriminate |].
      split; [discriminate |]. split; [discriminate |]. auto.
  - intros [= <- <-]. split; [reflexivity | split; [reflexivity |]].
    exists 401, (controllers.errorResponse "authentication required").
    split; [reflexivity |]. split; [auto |]. split; [discriminate |].
    split; [reflexivity |]. split; [discriminate |]. discriminate.
Qed.

(** X15.  [GetProfile] behind the gate.  On a request on which the user ID
    is stored under ["user_id"], as the gate stores it, on a table that
    holds its rows under their primary keys and has the row of the user,
    not deleted, when the statement does not fail: the response is the
    status 200 with the ID, the name, the email, the partner name and the
    time of creation of that row, and nothing else of it. *)
Theorem GetProfile_after_gate (c : gin.Context) (w : controllers.World) (userID : N)
        (user : models.User) (db1 : gorm.DB) :
  gin.Get "user_id" c = Some (gin.Any_uint userID) ->
  keyed (controllers.database w) ->
  gorm.next_fault (controllers.database w) = (None, db1) ->
  gorm.users (controllers.database w) !! userID = Some user ->
  models.DeletedAt user = None ->
  controllers.GetProfile c w =
    Some (gin.JSON 200
            (JSON_object
               [ ("id", JSON_number (Z.of_N userID));
                 ("name", JSON_string (models.Name user));
                 ("email", JSON_string (models.Email user));
                 ("partner_name", JSON_string (models.PartnerName user));
                 ("created_at", JSON_time (models.CreatedAt user)) ]) c,
          controllers.set_database db1 w).
Proof.
  intros Hget Hkeyed Hf Hk Hd. unfold controllers.GetProfile. rewrite Hget.
  rewrite (FindByID_live userID _ db1 user Hkeyed Hf Hk Hd).
  unfold controllers.userResponse. by rewrite (Hkeyed _ _ Hk).
Qed.

Section Controllers_more.
Context `{jwt.Encoding} `{auth.ClaimsJSON} `{bcrypt.Primitives}.
Variable JWT_SECRET : string.
Variable P :
  string -> auth.Claims -> jwt.Keyfunc auth.Claims -> time.Time -> jwt.Parsed auth.Claims.
Variable Decode_LoginRequest : Z -> string -> Result models.LoginRequest.
Variable Decode_updateData : Z -> string -> Result controllers.updateData.

(** The two errors of [ExtractUserID]. *)
Lemma ExtractUserID_Err now c err :
  auth.ExtractUserID JWT_SECRET P now c = Err err ->
  err = auth.ErrTokenMissing \/ err = auth.ErrTokenInvalid.
Proof.
  unfold auth.ExtractUserID. destruct (String.eqb _ _); [intros [= <-]; auto |].
  destruct (P _ _ _ _) as [token|token perr]; [| intros [= <-]; auto].
  destruct (jwt.Valid token); [discriminate | intros [= <-]; auto].
Qed.

(** X16.  [DeleteUser] that answers with the status 200: the token gave a
    user ID; every row with another ID is as it was, and the table has the
    keys that it had; no row with the ID is left that is not deleted, so
    that [FindByID] with the ID fails afterwards; and one line was logged,
    with the ID and the address of the client.  The answer is the same
    whether a row had the ID or not. *)
Theorem DeleteUser_deletes now1 now2 (c c' : gin.Context) (w w' : controllers.World)
        (body : JSON) :
  controllers.DeleteUser JWT_SECRET P now1 now2 c w = (c', w') ->
  gin.Writer c' = gin.Writer c ++ [(http.StatusOK, body)] ->
  exists userID,
    auth.ExtractUserID JWT_SECRET P now1 c = Ok userID /\
    body = gin.H [ ("message", JSON_string "user account deleted successfully") ] /\
    (forall k u, gorm.users (controllers.database w) !! k = Some u ->
                 models.ID u <> userID ->
                 gorm.users (controllers.database w') !! k = Some u) /\
    (forall k, is_Some (gorm.users (controllers.database w') !! k) <->
               is_Some (gorm.users (controllers.database w) !! k)) /\
    (forall k u', gorm.users (controllers.database w') !! k = Some u' ->
                  models.ID u' = userID -> models.DeletedAt u' <> None) /\
    (exists err db'',
        repository.FindByID userID (controllers.database w') = (Err err, db'')) /\
    controllers.Log w' =
      controllers.Log w ++
      ["[INFO] User " +:+ Sprintf_d userID +:+ " deleted account from IP: " +:+
       gin.ClientIP c] /\
    controllers.Slept w' = controllers.Slept w.
Proof.
  unfold controllers.DeleteUser.
  destruct (auth.ExtractUserID JWT_SECRET P now1 c) as [userID|e].
  2:{ intros [= <- <-] Hw. apply JSON_status_inv in Hw. discriminate. }
  destruct (repository.Delete userID now2 (controllers.database w)) as [[e|] db1] eqn:Hdel.
  { intros [= <- <-] Hw. apply JSON_status_inv in Hw. discriminate. }
  intros [= <- <-] Hw. rewrite JSON_Writer in Hw. apply response_inv in Hw as [_ <-].
  apply Delete_rows in Hdel.
  exists userID. cbn [controllers.database controllers.Printf controllers.set_database
                      controllers.Log controllers.Slept].
  assert (forall k u', gorm.users db1 !! k = Some u' ->
            exists u, gorm.users (controllers.database w) !! k = Some u /\
                      u' = marked userID now2 u) as Hinv.
  { intros k u'. rewrite Hdel, lookup_fmap.
    destruct (gorm.users (controllers.database w) !! k) as [u|]; [| discriminate].
    intros [= <-]. eauto. }
  split; [reflexivity | split; [reflexivity |]].
  split.
  { intros k u Hk Hid. rewrite Hdel, lookup_fmap, Hk. cbn. f_equal.
    destruct (marked_cases userID now2 u) as [(Hid' & _)|(_ & ->)]; [contradiction | auto]. }
  split; [intros k; by rewrite Hdel, lookup_fmap, fmap_is_Some |].
  split; [intros k u' Hk Hid; apply Hinv in Hk as (u & _ & ->); by apply marked_gone |].
  split.
  { apply FindByID_none. intros k u' Hk Hd Hid.
    apply Hinv in Hk as (u & _ & ->). by apply marked_gone in Hid. }
  split; reflexivity.
Qed.

(** X17.  The status of [UpdateProfile].  It writes one response, with the
    status 200, 400, 401, 404 or 500, and does not sleep.  With any status
    other than 200 every row of the table is as it was.  The status 401
    comes with the message of [ErrTokenMissing] or of [ErrTokenInvalid] and
    no other, and before the body of the request is read; the status 400
    means that the body was not bound. *)
Theorem UpdateProfile_status now1 now2 (c : gin.Context) (w : controllers.World) :
  let outcome := controllers.UpdateProfile JWT_SECRET P Decode_updateData now1 now2 c w in
  controllers.Slept outcome.2 = controllers.Slept w /\
  exists status body,
    gin.Writer outcome.1 = gin.Writer c ++ [(status, body)] /\
    (status = 200 \/ status = 400 \/ status = 401 \/ status = 404 \/ status = 500) /\
    (status <> 200 ->
     gorm.users (controllers.database outcome.2) = gorm.users (controllers.database w)) /\
    (status = 401 ->
     outcome.2 = w /\
     (body = controllers.errorResponse "authorization token is missing" \/
      body = controllers.errorResponse "token is invalid or malformed")) /\
    (status = 400 ->
     outcome.2 = w /\
     exists err,
       controllers.ShouldBindJSON_updateData Decode_updateData (2 ^ 20) (gin.Body c) =
       Err err).
Proof.
  intros outcome. subst outcome. unfold controllers.UpdateProfile.
  destruct (auth.ExtractUserID JWT_SECRET P now1 c) as [userID|e] eqn:Hid.
  2:{ split; [reflexivity |]. eexists _, _. split; [reflexivity |].
      split; [auto |]. split; [reflexivity |]. split; [| discriminate].
      intros _. split; [reflexivity |].
      apply ExtractUserID_Err in Hid as [-> | ->]; auto. }
  destruct (controllers.ShouldBindJSON_updateData _ _ _) as [d|e] eqn:Hbind.
  2:{ split; [reflexivity |]. eexists _, _. split; [reflexivity |].
      split; [auto |]. split; [reflexivity |]. split; [discriminate |].
      intros _. eauto. }
  destruct (repository.FindByID userID (controllers.database w)) as [[user|e] db1] eqn:Hf.
  2:{ apply FindByID_Err in Hf as (_ & Hu & _).
      split; [reflexivity |]. eexists _, _. split; [reflexivity |].
      split; [auto 6 |]. split; [intros _; exact Hu |]. split; discriminate. }
  apply FindByID_Ok in Hf as (Hu1 & _).
  cbn zeta. cbn [controllers.set_database controllers.database].
  match goal with
  | |- context [ repository.Update ?u now2 db1 ] =>
      destruct (repository.Update u now2 db1) as [[[e|] user'] db2] eqn:Hup
  end.
  - assert (gorm.users db2 = gorm.users db1) as Hu2.
    { unfold repository.Update, gorm.Save, gorm.Create in Hup.
      destruct (_ =? _)%N;
        (destruct (gorm.next_fault db1) as [[e'|] db3] eqn:Hnf;
         [injection Hup as _ _ <-; by apply next_fault_users in Hnf | discriminate]). }
    split; [reflexivity |]. eexists _, _. split; [reflexivity |].
    split; [auto 8 |].
    split; [intros _; cbn; by rewrite Hu2 |]. split; discriminate.
  - split; [reflexivity |]. eexists _, _. split; [reflexivity |].
    split; [auto |]. split; [intros Hne; by destruct Hne |]. split; discriminate.
Qed.

End Controllers_more.

Section Login_more.
Context `{jwt.Encoding} `{auth.ClaimsJSON} `{bcrypt.Primitives}.
Variable JWT_SECRET : string.
Variable Decode_LoginRequest : Z -> string -> Result models.LoginRequest.

(** X18.  A login that succeeds hands out a token that opens the gate for
    that user.  When the body decodes, the search by email finds a user
    and the password matches the stored hash, for a user ID that is a
    [uint], an email that is valid UTF-8 and a clock within 63 bits of
    nanoseconds: the response is the status 200 with the token of
    [CreateToken] for the ID and the email of the user, 86400 as the number
    of seconds to the expiration, and the profile of the user; and on every
    request that carries this token as ["Bearer "] and the token, from the
    time of the login until the expiration, [VerifyToken] succeeds,
    [ExtractUserID] gives the ID of the user and [ExtractTokenMetadata]
    claims with the email of the user. *)
Theorem Login_token_verifies now (c : gin.Context) (w : controllers.World)
        (req : models.LoginRequest) (user : models.User) (db : gorm.DB) :
  Decode_LoginRequest controllers.maxRequestBodySize (gin.Body c) = Ok req ->
  repository.FindByEmail (models.LoginRequest_Email req) (controllers.database w) =
    (Ok user, db) ->
  security.CheckPassword (models.PasswordHash user) (models.LoginRequest_Password req) =
    None ->
  (models.ID user < 2 ^ 64)%N ->
  utf8.ValidString (models.Email user) = true ->
  0 <= now < 2 ^ 63 ->
  exists token,
    auth.CreateToken JWT_SECRET now (models.ID user) (models.Email user) = Ok token /\
    (controllers.Login JWT_SECRET Decode_LoginRequest now c w).1 =
      gin.JSON 200
        (JSON_object [ ("token", JSON_string token);
                       ("expires_in", JSON_number 86400);
                       ("user", controllers.userResponse user) ]) c /\
    forall now' c',
      now <= now' ->
      now' < jwt.Time_of (jwt.NewNumericDate (time.Add now auth.TokenExpirationTime)) ->
      gin.GetHeader c' "Authorization" = "Bearer " +:+ token ->
      auth.VerifyToken JWT_SECRET parse now' c' = None /\
      auth.ExtractUserID JWT_SECRET parse now' c' = Ok (models.ID user) /\
      exists claims,
        auth.ExtractTokenMetadata JWT_SECRET parse now' c' = Ok claims /\
        auth.Email claims = models.Email user.
Proof.
  intros Hdec Hfind Hcheck Hu He Hn.
  eexists. split; [apply CreateToken_compact |]. split.
  - unfold controllers.Login. rewrite Hdec, Hfind. cbn zeta. rewrite Hcheck.
    rewrite CreateToken_compact. reflexivity.
  - intros now' c' Hle Hlt Hh. apply ExtractToken_compact in Hh.
    pose proof (compact_decodes jwt.SigningMethodHS256 _
                  (jwt.HMAC jwt.SHA256 JWT_SECRET
                     (signing_text (header_of jwt.SigningMethodHS256)
                        (auth.newClaims now (models.ID user) (models.Email user))))
                  (newClaims_json_exact now _ _ Hu He Hn)) as Hd.
    pose proof (header_of_alg jwt.SigningMethodHS256) as Halg.
    set (claims := auth.newClaims now (models.ID user) (models.Email user)) in *.
    assert (expired claims now' = false) as Hexp.
    { unfold expired. cbn [claims auth.newClaims auth.RegisteredClaims jwt.ExpiresAt].
      apply negb_false_iff, Z.ltb_lt. exact Hlt. }
    assert (not_valid_yet claims now' = false) as Hnbf.
    { unfold not_valid_yet. cbn [claims auth.newClaims auth.RegisteredClaims jwt.NotBefore].
      apply Z.ltb_ge. pose proof (NewNumericDate_bounds now). lia. }
    rewrite (VerifyToken_signed JWT_SECRET _ _ _ _ _ _ _ now' Hh Hd Halg eq_refl).
    rewrite (ExtractTokenMetadata_signed JWT_SECRET _ _ _ _ _ _ _ now' Hh Hd Halg eq_refl).
    rewrite (ExtractUserID_signed JWT_SECRET _ _ _ _ _ _ _ now' Hh Hd Halg eq_refl).
    rewrite Hexp, Hnbf. cbn [orb]. split; [reflexivity | split; [reflexivity |]].
    exists claims. split; reflexivity.
Qed.

(** X19.  The status of [Login].  It writes one response, with the status
    200, 401 or 422, and never with the status 500: [CreateToken] does not
    fail.  It changes no row of the table.  It sleeps, once and for
    [timingAttackDelay], exactly when it answers 401; with the status 422
    the database was not read. *)
Theorem Login_status now (c : gin.Context) (w : controllers.World) :
  let outcome := controllers.Login JWT_SECRET Decode_LoginRequest now c w in
  gorm.users (controllers.database outcome.2) = gorm.users (controllers.database w) /\
  exists status body,
    gin.Writer outcome.1 = gin.Writer c ++ [(status, body)] /\
    (status = 200 \/ status = 401 \/ status = 422) /\
    controllers.Slept outcome.2 =
      (if status =? 401 then controllers.Slept w ++ [controllers.timingAttackDelay]
       else controllers.Slept w) /\
    (status = 422 -> outcome.2 = w) /\
    (status = 401 ->
     body = controllers.errorResponse "invalid email or password").
Proof.
  intros outcome. subst outcome. unfold controllers.Login.
  destruct (Decode_LoginRequest _ _) as [req|e].
  2:{ split; [reflexivity |]. eexists _, _. split; [reflexivity |].
      split; [auto |]. split; [reflexivity |]. split; [reflexivity | discriminate]. }
  destruct (repository.FindByEmail _ _) as [[user|e] db] eqn:Hf.
  2:{ apply FindByEmail_Err in Hf as (_ & Hu & _).
      split; [exact Hu |]. eexists _, _. split; [reflexivity |].
      split; [auto |]. split; [reflexivity |]. split; [discriminate | reflexivity]. }
  apply FindByEmail_Ok in Hf as (Hu & _). cbn zeta.
  destruct (security.CheckPassword _ _).
  { split; [exact Hu |]. eexists _, _. split; [reflexivity |].
    split; [auto |]. split; [reflexivity |]. split; [discriminate | reflexivity]. }
  rewrite CreateToken_compact.
  split; [exact Hu |]. eexists _, _. split; [reflexivity |].
  split; [auto |]. split; [reflexivity |]. split; discriminate.
Qed.

End Login_more.

(** A request behind the gate, with the user ID [id] stored. *)
Definition behind_gate (id : N) : gin.Context :=
  gin.Set_ "user_id" (gin.Any_uint id) (request ∅ "").

(** X14 on a request: the user 7 is not in the table of [sample_world],
    and the response is the status 500. *)
Lemma GetProfile_never_404_user_7 :
  exists status body,
    gin.Writer
      (gin.JSON 500 (controllers.errorResponse "unable to fetch user profile")
                (behind_gate 7)) =
      gin.Writer (behind_gate 7) ++ [(status, body)] /\
    status <> http.StatusNotFound /\
    status = 500 /\
    body = controllers.errorResponse "unable to fetch user profile".
Proof.
  destruct (GetProfile_never_404 (behind_gate 7)
              (gin.JSON 500 (controllers.errorResponse "unable to fetch user profile")
                        (behind_gate 7))
              sample_world
              (controllers.Printf "[ERROR] Failed to fetch user 7: user not found"
                                  sample_world))
    as (_ & _ & status & body & Hw & _ & Hne & _ & _ & Hmissing).
  - vm_compute. reflexivity.
  - exists status, body. split; [exact Hw | split; [exact Hne |]].
    apply (Hmissing 7%N); [reflexivity |].
    intros k u Hk. cbn [sample_world controllers.database gorm.users] in Hk.
    apply lookup_singleton_Some in Hk as [<- <-]. discriminate.
Defined.

(** X15 on a request: the profile of the user 42. *)
Lemma GetProfile_after_gate_42 :
  controllers.GetProfile (behind_gate 42) sample_world =
    Some (gin.JSON 200
            (JSON_object
               [ ("id", JSON_number (Z.of_N 42));
                 ("name", JSON_string (models.Name ana));
                 ("email", JSON_string (models.Email ana));
                 ("partner_name", JSON_string (models.PartnerName ana));
                 ("created_at", JSON_time (models.CreatedAt ana)) ]) (behind_gate 42),
          controllers.set_database sample_db sample_world).
Proof.
  apply (GetProfile_after_gate (behind_gate 42) sample_world 42 ana sample_db).
  - reflexivity.
  - apply sample_world_keyed.
  - reflexivity.
  - reflexivity.
  - reflexivity.
Defined.

(** X16 on a request: the user 42 deletes the account, and is not found
    afterwards. *)
Lemma DeleteUser_deletes_42 :
  exists err db'',
    repository.FindByID 42
      (controllers.database
         (controllers.DeleteUser sample_secret parse sample_now (sample_now + 1)
            (authorized ("Bearer " +:+ sample_token)) sample_world).2) =
    (Err err, db'').
Proof.
  destruct (DeleteUser_deletes sample_secret parse sample_now (sample_now + 1)
              (authorized ("Bearer " +:+ sample_token))
              (controllers.DeleteUser sample_secret parse sample_now (sample_now + 1)
                 (authorized ("Bearer " +:+ sample_token)) sample_world).1
              sample_world
              (controllers.DeleteUser sample_secret parse sample_now (sample_now + 1)
                 (authorized ("Bearer " +:+ sample_token)) sample_world).2
              (gin.H [ ("message", JSON_string "user account deleted successfully") ]))
    as (userID & Hid & _ & _ & _ & _ & Hfind & _).
  - apply surjective_pairing.
  - vm_compute. reflexivity.
  - assert (auth.ExtractUserID sample_secret parse sample_now
              (authorized ("Bearer " +:+ sample_token)) = Ok 42%N) as H42
      by (vm_compute; reflexivity).
    rewrite H42 in Hid. injection Hid as <-. exact Hfind.
Defined.

(** X18 on a request: the user 42 logs in with the password
    ["Password1!"]. *)
Lemma Login_token_verifies_42 :
  exists token,
    auth.CreateToken sample_secret sample_now (models.ID ana) (models.Email ana) =
      Ok token /\
    (controllers.Login sample_secret decode_login sample_now
       (request ∅ "a@b.com Password1!") sample_world).1 =
      gin.JSON 200
        (JSON_object [ ("token", JSON_string token);
                       ("expires_in", JSON_number 86400);
                       ("user", controllers.userResponse ana) ])
        (request ∅ "a@b.com Password1!") /\
    forall now' c',
      sample_now <= now' ->
      now' < jwt.Time_of (jwt.NewNumericDate
                            (time.Add sample_now auth.TokenExpirationTime)) ->
      gin.GetHeader c' "Authorization" = "Bearer " +:+ token ->
      auth.VerifyToken sample_secret parse now' c' = None /\
      auth.ExtractUserID sample_secret parse now' c' = Ok (models.ID ana) /\
      exists claims,
        auth.ExtractTokenMetadata sample_secret parse now' c' = Ok claims /\
        auth.Email claims = models.Email ana.
Proof.
  apply (Login_token_verifies sample_secret decode_login sample_now
           (request ∅ "a@b.com Password1!") sample_world
           {| models.LoginRequest_Email := "a@b.com";
              models.LoginRequest_Password := "Password1!" |}
           ana sample_db).
  - reflexivity.
  - vm_compute. reflexivity.
  - vm_compute. reflexivity.
  - reflexivity.
  - vm_compute. reflexivity.
  - unfold sample_now. lia.
Defined.

(* ===================================================================== *)
(** * More on the password hasher, and the validation of a user *)
(* ===================================================================== *)

Section Hasher_more.
Context `{bcrypt.Primitives}.

Lemma EncryptPassword_too_long (password : string) (rand : Result string) :
  (72 < len password)%nat ->
  security.EncryptPassword password rand = Err bcrypt.ErrPasswordTooLong.
Proof.
  intros Hlen. unfold security.EncryptPassword, bcrypt.GenerateFromPassword.
  destruct (Nat.ltb_spec 72 (len password)); [reflexivity | lia].
Qed.

Lemma EncryptPassword_no_salt (password : string) (err : error) :
  (len password <= 72)%nat ->
  security.EncryptPassword password (Err err) = Err err.
Proof.
  intros Hlen. unfold security.EncryptPassword, bcrypt.GenerateFromPassword.
  destruct (Nat.ltb_spec 72 (len password)); [lia | reflexivity].
Qed.

Lemma EncryptPassword_Ok_inv (password h : string) (rand : Result string) :
  security.EncryptPassword password rand = Ok h ->
  (len password <= 72)%nat /\
  exists salt, rand = Ok salt /\ h = bcrypt.Hash (hashed_of password salt).
Proof.
  intros He.
  destruct (Nat.ltb_spec 72 (len password)) as [Hlen|Hlen].
  { rewrite EncryptPassword_too_long in He by assumption. discriminate. }
  split; [assumption |].
  destruct rand as [salt|e].
  - rewrite EncryptPassword_hashed_of in He by assumption.
    injection He as <-. eauto.
  - rewrite EncryptPassword_no_salt in He by assumption. discriminate.
Qed.

(** X20.  The outcomes of [EncryptPassword].  A password of more than 72
    bytes is refused with [ErrPasswordTooLong], before the random source is
    read; for a password of at most 72 bytes an error of the random source
    is passed on; and a hash that is returned is the hashed password made
    of the password, the default cost and the salt that was read, which
    [CheckPassword] accepts for the password when the salt has its 16
    bytes. *)
Theorem EncryptPassword_outcomes (password : string) (rand : Result string) :
  ((72 < len password)%nat ->
   security.EncryptPassword password rand = Err bcrypt.ErrPasswordTooLong) /\
  (forall err, (len password <= 72)%nat -> rand = Err err ->
               security.EncryptPassword password rand = Err err) /\
  (forall h, security.EncryptPassword password rand = Ok h ->
     (len password <= 72)%nat /\
     exists salt,
       rand = Ok salt /\
       h = bcrypt.Hash (hashed_of password salt) /\
       (len salt = bcrypt.maxSaltSize -> security.CheckPassword h password = None)).
Proof.
  split; [apply EncryptPassword_too_long |]. split.
  - intros err Hlen ->. by apply EncryptPassword_no_salt.
  - intros h He. apply EncryptPassword_Ok_inv in He as (Hlen & salt & -> & ->).
    split; [assumption |]. exists salt. repeat split.
    intros Hs. by apply CheckPassword_same_key_words.
Qed.

End Hasher_more.

(** A character of the class is among the characters of the string. *)
Definition has_char (class : ascii -> bool) (s : string) : Prop :=
  exists c, In c (list_ascii_of_string s) /\ class c = true.

Lemma MatchString_CharClass (class : ascii -> bool) (s : string) :
  regexp.MatchString (regexp.CharClass class) s = existsb class (list_ascii_of_string s).
Proof.
  induction s as [|c s IH]; [reflexivity |].
  cbn [regexp.MatchString regexp.rests list_ascii_of_string existsb].
  destruct (class c); [reflexivity | exact IH].
Qed.

Lemma MatchString_has_char (class : ascii -> bool) (s : string) :
  regexp.MatchString (regexp.CharClass class) s = true <-> has_char class s.
Proof.
  rewrite MatchString_CharClass. unfold has_char. apply existsb_exists.
Qed.

Lemma validatePassword_None (u : models.User) :
  models.validatePassword u = None <->
  (8 <= len (models.PasswordHash u))%nat /\
  has_char (regexp.Range "0" "9") (models.PasswordHash u) /\
  has_char (regexp.Range "A" "Z") (models.PasswordHash u) /\
  has_char (regexp.Range "a" "z") (models.PasswordHash u) /\
  has_char models.special (models.PasswordHash u).
Proof.
  unfold models.validatePassword. rewrite <- !MatchString_has_char.
  destruct (Nat.ltb_spec (len (models.PasswordHash u)) 8) as [Hlen|Hlen].
  { split; [discriminate | intros [? _]; lia]. }
  repeat (destruct (regexp.MatchString _ _);
          cbn [negb]; [| split; [discriminate | intros (_ & ?); intuition discriminate]]).
  split; [auto | reflexivity].
Qed.

(** X21.  [validatePassword] accepts a password exactly when it has at
    least 8 bytes and among its characters a digit, an uppercase letter of
    ASCII, a lowercase letter of ASCII and one of the 20 special
    characters.  The length is counted in bytes; a password that is
    shorter is refused with the message of the length, whatever its
    characters are. *)
Theorem validatePassword_rules (u : models.User) :
  (models.validatePassword u = None <->
   (8 <= len (models.PasswordHash u))%nat /\
   has_char (regexp.Range "0" "9") (models.PasswordHash u) /\
   has_char (regexp.Range "A" "Z") (models.PasswordHash u) /\
   has_char (regexp.Range "a" "z") (models.PasswordHash u) /\
   has_char models.special (models.PasswordHash u)) /\
  ((len (models.PasswordHash u) < 8)%nat ->
   errors.Error <$> models.validatePassword u =
     Some "password must be at least 8 characters long").
Proof.
  split; [apply validatePassword_None |].
  intros Hlen. unfold models.validatePassword.
  destruct (Nat.ltb_spec (len (models.PasswordHash u)) 8); [reflexivity | lia].
Qed.

Section User_validation.
Context `{bcrypt.Primitives}.
Variable ParseAddress : string -> Result mail.Address.

(** X22.  [isValid] at the step ["register"], when it accepts the user.
    The name, the email and the partner name are the ones given with the
    white space trimmed at both ends, and none is empty; [mail.ParseAddress]
    accepts the email; the password that was given in [PasswordHash] has
    from 8 to 72 bytes and meets the rules of [validatePassword]; and
    [PasswordHash] now holds the hash of that password under the salt read
    from the random source, which [CheckPassword] accepts for the password
    when the salt has its 16 bytes.  The ID, the times and the deletion
    mark are as given. *)
Theorem isValid_register (rand : Result string) (u u' : models.User) :
  models.isValid ParseAddress "register" rand u = (u', None) ->
  models.Name u' = gostrings.TrimSpace (models.Name u) /\
  models.Email u' = gostrings.TrimSpace (models.Email u) /\
  models.PartnerName u' = gostrings.TrimSpace (models.PartnerName u) /\
  models.Name u' <> "" /\ models.Email u' <> "" /\ models.PartnerName u' <> "" /\
  (exists a, ParseAddress (models.Email u') = Ok a) /\
  (8 <= len (models.PasswordHash u) <= 72)%nat /\
  has_char (regexp.Range "0" "9") (models.PasswordHash u) /\
  has_char (regexp.Range "A" "Z") (models.PasswordHash u) /\
  has_char (regexp.Range "a" "z") (models.PasswordHash u) /\
  has_char models.special (models.PasswordHash u) /\
  (exists salt,
      rand = Ok salt /\
      models.PasswordHash u' = bcrypt.Hash (hashed_of (models.PasswordHash u) salt) /\
      (len salt = bcrypt.maxSaltSize ->
       security.CheckPassword (models.PasswordHash u') (models.PasswordHash u) = None)) /\
  models.ID u' = models.ID u /\ models.CreatedAt u' = models.CreatedAt u /\
  models.UpdatedAt u' = models.UpdatedAt u /\ models.DeletedAt u' = models.DeletedAt u.
Proof.
  unfold models.isValid, models.checkBlankFields, models.validateEmail,
    models.hashPasswordIfNeeded.
  set (t := models.trimSpaces u).
  destruct (String.eqb_spec (models.Name t) "") as [|Hn]; [discriminate |].
  destruct (String.eqb_spec (models.Email t) "") as [|He]; [discriminate |].
  destruct (String.eqb_spec (models.PartnerName t) "") as [|Hp]; [discriminate |].
  destruct (String.eqb_spec (models.PasswordHash t) "") as [|Hh]; [discriminate |].
  destruct (ParseAddress (models.Email t)) as [a|] eqn:Ha; [| discriminate].
  destruct (models.validatePassword t) eqn:Hv; [discriminate |].
  apply validatePassword_None in Hv as (Hlen & Hd & Hup & Hlo & Hsp).
  cbn [String.eqb Ascii.eqb Bool.eqb].
  destruct (security.EncryptPassword (models.PasswordHash t) rand) as [h|] eqn:Henc;
    [| discriminate].
  intros [= <-].
  apply EncryptPassword_Ok_inv in Henc as (Hlen' & salt & -> & ->).
  cbn [models.set_PasswordHash models.Name models.Email models.PartnerName
       models.PasswordHash models.ID models.CreatedAt models.UpdatedAt models.DeletedAt]
    in *.
  change (models.PasswordHash t) with (models.PasswordHash u) in *.
  do 3 (split; [reflexivity |]).
  do 3 (split; [assumption |]).
  split; [eauto |]. split; [lia |].
  do 4 (split; [assumption |]).
  split; [| repeat split].
  exists salt. repeat split. intros Hs. by apply CheckPassword_same_key_words.
Qed.

(** X23.  What [isValid] does to the user, at every step and whether it
    accepts the user or not.  The name, the email and the partner name come
    out with the white space trimmed at both ends; the ID, the times and
    the deletion mark are not touched; and [PasswordHash] is as given,
    unless the step is ["register"] and the user is accepted, and then it
    is the hash of what was given.  At a step other than ["register"] the
    random source is not read: the outcome is the same whatever it
    gives. *)
Theorem isValid_effect (step : string) (rand : Result string) (u : models.User) :
  let outcome := models.isValid ParseAddress step rand u in
  models.Name outcome.1 = gostrings.TrimSpace (models.Name u) /\
  models.Email outcome.1 = gostrings.TrimSpace (models.Email u) /\
  models.PartnerName outcome.1 = gostrings.TrimSpace (models.PartnerName u) /\
  models.ID outcome.1 = models.ID u /\
  models.CreatedAt outcome.1 = models.CreatedAt u /\
  models.UpdatedAt outcome.1 = models.UpdatedAt u /\
  models.DeletedAt outcome.1 = models.DeletedAt u /\
  (models.PasswordHash outcome.1 = models.PasswordHash u \/
   (step = "register" /\ outcome.2 = None /\
    exists salt,
      rand = Ok salt /\
      models.PasswordHash outcome.1 =
        bcrypt.Hash (hashed_of (models.PasswordHash u) salt))) /\
  (step <> "register" ->
   forall rand', models.isValid ParseAddress step rand' u = outcome).
Proof.
  intros outcome. subst outcome.
  unfold models.isValid, models.hashPasswordIfNeeded.
  set (t := models.trimSpaces u).
  destruct (models.checkBlankFields t); [repeat split; auto |].
  destruct (models.validateEmail ParseAddress t); [repeat split; auto |].
  destruct (models.validatePassword t); [repeat split; auto |].
  destruct (String.eqb_spec step "register") as [->|Hstep].
  - destruct (security.EncryptPassword (models.PasswordHash t) rand) as [h|] eqn:Henc.
    + apply EncryptPassword_Ok_inv in Henc as (_ & salt & -> & ->).
      do 7 (split; [reflexivity |]). split; [| intros Hne; by destruct Hne].
      right. repeat split. exists salt. split; reflexivity.
    + do 7 (split; [reflexivity |]). split; [by left | intros Hne; by destruct Hne].
  - do 7 (split; [reflexivity |]). split; [by left |].
    intros _ rand'. reflexivity.
Qed.

End User_validation.

(** A user who registers, and a parser of addresses for the instance: it
    accepts a text that has an at sign. *)
Definition newcomer : models.User :=
  {| models.ID := 0; models.CreatedAt := 0; models.UpdatedAt := 0;
     models.DeletedAt := None; models.Name := " Ana "; models.Email := "a@b.com ";
     models.PasswordHash := "Password1!"; models.PartnerName := "Bo" |}.

Definition parse_address (s : string) : Result mail.Address :=
  if gostrings.Contains s "@" then
    Ok {| mail.Address_Name := ""; mail.Address_Address := s |}
  else Err (errors.opaque "mail: missing '@' or angle-addr").

(** X22 on [newcomer]. *)
Lemma isValid_register_newcomer :
  models.Name (models.isValid parse_address "register" (Ok sample_salt) newcomer).1 =
    "Ana" /\
  models.Email (models.isValid parse_address "register" (Ok sample_salt) newcomer).1 =
    "a@b.com" /\
  security.CheckPassword
    (models.PasswordHash
       (models.isValid parse_address "register" (Ok sample_salt) newcomer).1)
    "Password1!" = None.
Proof.
  destruct (isValid_register parse_address (Ok sample_salt) newcomer
              (models.isValid parse_address "register" (Ok sample_salt) newcomer).1)
    as (Hn & He & _ & _ & _ & _ & _ & _ & _ & _ & _ & _ & (salt & Hs & _ & Hcheck) & _).
  - vm_compute. reflexivity.
  - injection Hs as <-.
    split; [rewrite Hn; vm_compute; reflexivity |].
    split; [rewrite He; vm_compute; reflexivity |].
    apply Hcheck. reflexivity.
Defined.

(* ===================================================================== *)
(** * The validation of a wedding *)
(* ===================================================================== *)

(** The least and the greatest number of characters that a pattern
    matches. *)
Fixpoint min_len (r : regexp.Regexp) : nat :=
  match r with
  | regexp.EmptyMatch => 0
  | regexp.CharClass _ => 1
  | regexp.Concat r1 r2 => min_len r1 + min_len r2
  | regexp.Alternate r1 r2 => Nat.min (min_len r1) (min_len r2)
  | regexp.Quest _ => 0
  end.

Fixpoint max_len (r : regexp.Regexp) : nat :=
  match r with
  | regexp.EmptyMatch => 0
  | regexp.CharClass _ => 1
  | regexp.Concat r1 r2 => max_len r1 + max_len r2
  | regexp.Alternate r1 r2 => Nat.max (max_len r1) (max_len r2)
  | regexp.Quest r1 => max_len r1
  end.

Lemma rests_length (r : regexp.Regexp) (s rest : string) :
  In rest (regexp.rests r s) ->
  exists n, (min_len r <= n <= max_len r)%nat /\ len s = (n + len rest)%nat.
Proof.
  revert s rest. induction r as [|class|r1 IH1 r2 IH2|r1 IH1 r2 IH2|r1 IH1];
    intros s rest; cbn [regexp.rests min_len max_len].
  - intros [<-|[]]. exists 0%nat. split; [lia | reflexivity].
  - destruct s as [|c s]; [intros [] |].
    destruct (class c); [| intros []].
    intros [<-|[]]. exists 1%nat. split; [lia | reflexivity].
  - intros Hin. apply in_flat_map in Hin as (mid & Hmid & Hrest).
    apply IH1 in Hmid as (n1 & Hn1 & Hl1). apply IH2 in Hrest as (n2 & Hn2 & Hl2).
    exists (n1 + n2)%nat. split; lia.
  - intros Hin. apply in_app_or in Hin as [Hin|Hin].
    + apply IH1 in Hin as (n & Hn & Hl). exists n. split; lia.
    + apply IH2 in Hin as (n & Hn & Hl). exists n. split; lia.
  - intros Hin. apply in_app_or in Hin as [Hin|[<-|[]]].
    + apply IH1 in Hin as (n & Hn & Hl). exists n. split; lia.
    + exists 0%nat. split; [lia | reflexivity].
Qed.

Lemma MatchString_whole_length (r : regexp.Regexp) (s : string) :
  regexp.MatchString_whole r s = true -> (min_len r <= len s <= max_len r)%nat.
Proof.
  unfold regexp.MatchString_whole. intros Hm.
  apply existsb_exists in Hm as (rest & Hin & He).
  apply String.eqb_eq in He. subst rest.
  apply rests_length in Hin as (n & Hn & Hl). simpl in Hl. lia.
Qed.

Section Wedding_validation.
Variable AddDate : time.Time -> Z -> Z -> Z -> time.Time.

(** X24.  [IsValid] accepts a wedding only within its bounds.  The wedding
    is then the one given with the white space trimmed at both ends of the
    name of the venue, of its address and of the time of the event; the
    name has from 3 to 200 bytes and the address from 10 to 1000; the time
    of the event matches one of the two patterns and has from 4 to 8
    bytes, within the 10 of its column; the date of the event is set, not
    before the day one year before the first reading of the clock and not
    after the day ten years after the second; and the greatest number of
    guests is from 0 to 10000 and not below the current number. *)
Theorem Wedding_IsValid_bounds now1 now2 (w w' : models.Wedding) :
  models.IsValid AddDate now1 now2 w = (w', None) ->
  w' = models.normalize w /\
  (3 <= len (models.VenueName w') <= 200)%nat /\
  (10 <= len (models.VenueAddress w') <= 1000)%nat /\
  (regexp.MatchString_whole models.timeRegex24h (models.EventTime w') = true \/
   regexp.MatchString_whole models.timeRegex12h (models.EventTime w') = true) /\
  (4 <= len (models.EventTime w') <= 8)%nat /\
  models.EventDate w' <> time.zero /\
  AddDate now1 (-1) 0 0 <= models.EventDate w' <= AddDate now2 10 0 0 /\
  0 <= models.MaxGuests w' <= 10000 /\
  models.CurrentGuestCount w' <= models.MaxGuests w'.
Proof.
  unfold models.IsValid. set (n := models.normalize w).
  unfold models.validateEventDate, time.IsZero, time.Before, time.After.
  destruct (Z.eqb_spec (models.EventDate n) time.zero) as [|Hz]; [discriminate |].
  destruct (Z.ltb_spec (models.EventDate n) (AddDate now1 (-1) 0 0)); [discriminate |].
  destruct (Z.ltb_spec (AddDate now2 10 0 0) (models.EventDate n)); [discriminate |].
  unfold models.validateVenueName.
  destruct (String.eqb (models.VenueName n) ""); [discriminate |].
  destruct (Nat.ltb_spec (len (models.VenueName n)) 3); [discriminate |].
  destruct (Nat.ltb_spec 200 (len (models.VenueName n))); [discriminate |].
  unfold models.validateVenueAddress.
  destruct (String.eqb (models.VenueAddress n) ""); [discriminate |].
  destruct (Nat.ltb_spec (len (models.VenueAddress n)) 10); [discriminate |].
  destruct (Nat.ltb_spec 1000 (len (models.VenueAddress n))); [discriminate |].
  unfold models.validateEventTime.
  destruct (String.eqb (models.EventTime n) ""); [discriminate |].
  assert (regexp.MatchString_whole models.timeRegex24h (models.EventTime n) = true \/
          regexp.MatchString_whole models.timeRegex12h (models.EventTime n) = true ->
          (4 <= len (models.EventTime n) <= 8)%nat) as Hlen.
  { assert (min_len models.timeRegex24h = 4%nat /\ max_len models.timeRegex24h = 5%nat /\
            min_len models.timeRegex12h = 6%nat /\ max_len models.timeRegex12h = 8%nat)
      as (E1 & E2 & E3 & E4) by (repeat split; reflexivity).
    intros [Hm|Hm]; apply MatchString_whole_length in Hm; lia. }
  destruct (regexp.MatchString_whole models.timeRegex24h (models.EventTime n)) eqn:H24;
    [| destruct (regexp.MatchString_whole models.timeRegex12h (models.EventTime n))
         eqn:H12; [| discriminate]];
    cbn [negb andb];
    unfold models.validateMaxGuests;
    (destruct (Z.ltb_spec (models.MaxGuests n) 0); [discriminate |]);
    (destruct (Z.ltb_spec 10000 (models.MaxGuests n)); [discriminate |]);
    (destruct (Z.ltb_spec (models.MaxGuests n) (models.CurrentGuestCount n));
     [discriminate |]);
    intros [= <-]; repeat split; auto; try lia; apply Hlen; auto.
Qed.

End Wedding_validation.

(** A wedding, and [AddDate] for the instance: a year is 365 days and a
    month 30. *)
Definition sample_wedding : models.Wedding :=
  {| models.Wedding_ID := 0; models.Wedding_CreatedAt := 0;
     models.Wedding_UpdatedAt := 0; models.Wedding_DeletedAt := None;
     models.UserID := 42; models.VenueName := " Quinta da Serra ";
     models.VenueAddress := "Rua das Flores 12, Sintra";
     models.EventDate := sample_now + 200 * 24 * time.Hour;
     models.EventTime := "4:30 PM "; models.MaxGuests := 120;
     models.CurrentGuestCount := 0 |}.

Definition add_date (t : time.Time) (years months days : Z) : time.Time :=
  t + (years * 365 + months * 30 + days) * 24 * time.Hour.

(** X24 on [sample_wedding]. *)
Lemma Wedding_IsValid_bounds_sample :
  models.VenueName (models.IsValid add_date sample_now sample_now sample_wedding).1 =
    "Quinta da Serra" /\
  models.EventTime (models.IsValid add_date sample_now sample_now sample_wedding).1 =
    "4:30 PM" /\
  (4 <= len (models.EventTime
               (models.IsValid add_date sample_now sample_now sample_wedding).1) <= 8)%nat.
Proof.
  destruct (Wedding_IsValid_bounds add_date sample_now sample_now sample_wedding
              (models.IsValid add_date sample_now sample_now sample_wedding).1)
    as (Hn & _ & _ & _ & Hlen & _).
  - vm_compute. reflexivity.
  - split; [vm_compute; reflexivity |]. split; [vm_compute; reflexivity | exact Hlen].
Defined.

(* ===================================================================== *)
(** * The ID of a wedding in the path of a request *)
(* ===================================================================== *)

(** The number that a text of decimal digits writes, most significant
    digit first; [decimal_from s n] continues from the number [n]. *)
Definition is_digit (c : ascii) : bool := (0x30 <=? byte c) && (byte c <=? 0x39).

Fixpoint decimal_from (s : string) (n : N) : N :=
  match s with
  | EmptyString => n
  | String c s' => decimal_from s' (10 * n + Z.to_N (byte c - 0x30))
  end.

Definition decimal (s : string) : N := decimal_from s 0.

Definition digits_only (s : string) : bool := forallb is_digit (list_ascii_of_string s).

Lemma decimal_from_ge (s : string) (n : N) : (n <= decimal_from s n)%N.
Proof.
  revert n. induction s as [|c s IH]; intros n; simpl; [lia |].
  etransitivity; [| apply IH]. lia.
Qed.

(** The loop of [ParseUint] gives the number that the digits write, or an
    error when a byte is not a digit or the number is above the greatest
    value. *)
Lemma ParseUint_loop_spec (fn s0 s : string) (n maxVal : N) :
  (maxVal < 2 ^ 64)%N ->
  (n <= maxVal)%N ->
  match strconv.ParseUint_loop fn s0 s n maxVal with
  | Ok v => digits_only s = true /\ v = decimal_from s n /\ (v <= maxVal)%N
  | Err _ => digits_only s = false \/ (maxVal < decimal_from s n)%N
  end.
Proof.
  intros Hmax. revert n. induction s as [|c s IH]; intros n Hn.
  - simpl. auto.
  - cbn [strconv.ParseUint_loop digits_only list_ascii_of_string forallb decimal_from].
    fold (digits_only s). unfold is_digit.
    destruct ((0x30 <=? byte c) && (byte c <=? 0x39)) eqn:Hd; cbn [negb andb].
    2:{ by left. }
    apply andb_true_iff in Hd as [Hd1 Hd2]. apply Z.leb_le in Hd1, Hd2.
    set (d := Z.to_N (byte c - 0x30)). assert (d <= 9)%N as Hd9 by (unfold d; lia).
    pose proof (decimal_from_ge s (10 * n + d)) as Hge.
    change (strconv.maxUint64 / 10 + 1)%N with 1844674407370955162%N.
    destruct (N.leb_spec 1844674407370955162 n) as [Hcut|Hcut].
    { right. change (2 ^ 64)%N with 18446744073709551616%N in Hmax. lia. }
    change (2 ^ 64)%N with 18446744073709551616%N in *.
    destruct (N.lt_ge_cases (n * 10 + d) 18446744073709551616) as [Hfit|Hwrap].
    + rewrite (N.mod_small (n * 10 + d)) by assumption.
      destruct (N.ltb_spec (n * 10 + d) (n * 10)); [lia |]. cbn [orb].
      destruct (N.ltb_spec maxVal (n * 10 + d)) as [Hbig|Hok].
      * right. lia.
      * replace (10 * n + d)%N with (n * 10 + d)%N by lia.
        apply IH. exact Hok.
    + assert ((n * 10 + d) mod 18446744073709551616 = n * 10 + d - 18446744073709551616)%N
        as Hm.
      { symmetry. apply (N.mod_unique _ _ 1); lia. }
      rewrite Hm.
      destruct (N.ltb_spec (n * 10 + d - 18446744073709551616) (n * 10)); [| lia].
      cbn [orb]. right. lia.
Qed.

Lemma decimal_of_uint_acc (d : Decimal.uint) (p : positive) :
  decimal_from (NilEmpty.string_of_uint d) (N.pos p) = N.pos (Pos.of_uint_acc d p).
Proof.
  revert p. induction d; intros p; cbn [NilEmpty.string_of_uint decimal_from Pos.of_uint_acc];
    try reflexivity;
    match goal with
    | |- decimal_from _ ?n = N.pos (Pos.of_uint_acc _ ?q) =>
        replace n with (N.pos q) by (vm_compute (Z.to_N _); lia); apply IHd
    end.
Qed.

Lemma decimal_of_uint (d : Decimal.uint) :
  decimal (NilEmpty.string_of_uint d) = N.of_uint d.
Proof.
  unfold decimal, N.of_uint.
  induction d; cbn [NilEmpty.string_of_uint decimal_from Pos.of_uint];
    try reflexivity; try exact IHd;
    match goal with
    | |- decimal_from _ ?n = N.pos (Pos.of_uint_acc _ ?q) =>
        replace n with (N.pos q) by (vm_compute; reflexivity); apply decimal_of_uint_acc
    end.
Qed.

Lemma digits_only_of_uint (d : Decimal.uint) :
  digits_only (NilEmpty.string_of_uint d) = true.
Proof. induction d; simpl; auto. Qed.

Lemma Sprintf_d_not_empty (n : N) : Sprintf_d n <> "".
Proof.
  unfold Sprintf_d. destruct n as [|p]; [discriminate |].
  unfold N.to_uint, Pos.to_uint.
  intros He.
  assert (N.of_uint (N.to_uint (N.pos p)) = 0%N) as Hz.
  { rewrite <- decimal_of_uint. unfold N.to_uint, Pos.to_uint. by rewrite He. }
  rewrite DecimalN.Unsigned.of_to in Hz. discriminate.
Qed.

(** X25.  [parseIDParam] gives an ID exactly when the parameter of the
    path is a text of decimal digits, not empty, that writes a number from
    1 to 2^32 - 1, and the ID is that number: no sign, no space and no
    other character is accepted, and zeros in front are.  So it reads back
    every ID from 1 to 2^32 - 1 printed in decimal, and it never gives the
    ID 0. *)
Theorem parseIDParam_decimal (Param : string -> string) (paramName : string) :
  (forall id,
      controllers.parseIDParam Param paramName = Ok id <->
      Param paramName <> "" /\
      digits_only (Param paramName) = true /\
      decimal (Param paramName) = id /\
      (0 < id < 2 ^ 32)%N) /\
  (forall id, (0 < id < 2 ^ 32)%N -> Param paramName = Sprintf_d id ->
              controllers.parseIDParam Param paramName = Ok id) /\
  controllers.parseIDParam Param paramName <> Ok 0%N.
Proof.
  assert (forall id,
      controllers.parseIDParam Param paramName = Ok id <->
      Param paramName <> "" /\
      digits_only (Param paramName) = true /\
      decimal (Param paramName) = id /\
      (0 < id < 2 ^ 32)%N) as Hiff.
  { intros id. unfold controllers.parseIDParam, strconv.ParseUint_base10.
    destruct (String.eqb_spec (Param paramName) "") as [He|He].
    { split; [discriminate | intros [? _]; contradiction]. }
    pose proof (ParseUint_loop_spec "ParseUint" (Param paramName) (Param paramName) 0
                  (2 ^ 32 - 1) ltac:(vm_compute; reflexivity) ltac:(lia)) as Hspec.
    fold (decimal (Param paramName)) in Hspec.
    destruct (strconv.ParseUint_loop _ _ _ _ _) as [v|e].
    - destruct Hspec as (Hd & -> & Hle).
      change (2 ^ 32 - 1)%N with 4294967295%N in Hle.
      change (2 ^ 32)%N with 4294967296%N.
      destruct (N.eqb_spec (decimal (Param paramName)) 0) as [Hz|Hz].
      + split; [discriminate | intros (_ & _ & <- & Hr); lia].
      + split.
        * intros [= <-]. repeat split; try assumption; lia.
        * intros (_ & _ & <- & _). reflexivity.
    - destruct Hspec as [Hd|Hbig].
      + split; [discriminate | intros (_ & Hd' & _); congruence].
      + change (2 ^ 32 - 1)%N with 4294967295%N in Hbig.
        change (2 ^ 32)%N with 4294967296%N.
        split; [discriminate | intros (_ & _ & <- & Hr); lia]. }
  split; [exact Hiff |]. split.
  - intros id Hr Hp. apply Hiff. rewrite Hp.
    split; [apply Sprintf_d_not_empty |].
    split; [apply digits_only_of_uint |].
    split; [| exact Hr].
    unfold Sprintf_d. rewrite decimal_of_uint. apply DecimalN.Unsigned.of_to.
  - intros Hz. apply Hiff in Hz as (_ & _ & _ & Hr). lia.
Qed.

(* ===================================================================== *)
(** * The configuration of the process *)
(* ===================================================================== *)

Lemma HasPrefix_at (c : ascii) (s : string) :
  gostrings.HasPrefix (String c s) "@" = Ascii.eqb c "@".
Proof.
  unfold gostrings.HasPrefix, slice, len. simpl.
  rewrite substring_0_0. simpl. by destruct (Ascii.eqb c "@").
Qed.

Lemma Index_ge (s substr : string) : -1 <= gostrings.Index s substr.
Proof.
  induction s as [|c s IH]; simpl.
  - destruct (gostrings.HasPrefix _ _); lia.
  - destruct (gostrings.HasPrefix _ _); [lia |].
    destruct (Z.eqb_spec (gostrings.Index s substr) (-1)); lia.
Qed.

Lemma Index_at_cons (c : ascii) (s : string) :
  gostrings.Index (String c s) "@" =
  if Ascii.eqb c "@" then 0
  else if gostrings.Index s "@" =? -1 then -1 else gostrings.Index s "@" + 1.
Proof. cbn [gostrings.Index]. by rewrite HasPrefix_at. Qed.

(** The index of the first at sign of a text that has one. *)
Lemma Index_at_append (cred rest : string) :
  gostrings.Index cred "@" = -1 ->
  gostrings.Index (cred +:+ "@" +:+ rest) "@" = Z.of_nat (len cred).
Proof.
  induction cred as [|c cred IH].
  - intros _. rewrite append_empty, append_String, Index_at_cons. reflexivity.
  - rewrite append_String, !Index_at_cons.
    destruct (Ascii.eqb c "@"); [discriminate |].
    pose proof (Index_ge cred "@").
    destruct (Z.eqb_spec (gostrings.Index cred "@") (-1)) as [He|He]; [| lia].
    intros _. rewrite (IH He).
    destruct (Z.eqb_spec (Z.of_nat (len cred)) (-1)); [lia |].
    unfold len. simpl String.length. lia.
Qed.

(** X26.  [MaskDSN] keeps nothing of what is before the first at sign.
    For a text with an at sign, the masked text is three asterisks and the
    text from the first at sign on, or three asterisks alone when the text
    starts with the at sign; for a text with no at sign it is three
    asterisks.  What comes after the first at sign is kept as it is, a
    second at sign and what a password has after it included. *)
Theorem MaskDSN_first_at :
  (forall cred rest,
      gostrings.Index cred "@" = -1 ->
      configs.MaskDSN (cred +:+ "@" +:+ rest) =
      if String.eqb cred "" then "***" else "***@" +:+ rest) /\
  (forall dsn, gostrings.Index dsn "@" = -1 -> configs.MaskDSN dsn = "***").
Proof.
  split.
  - intros cred rest Hc. unfold configs.MaskDSN.
    rewrite (Index_at_append cred rest Hc).
    destruct cred as [|c cred]; [reflexivity |].
    destruct (Z.ltb_spec 0 (Z.of_nat (len (String c cred)))) as [_|Hl];
      [| unfold len in Hl; simpl in Hl; lia].
    rewrite Nat2Z.id, slice_from_append. reflexivity.
  - intros dsn Hd. unfold configs.MaskDSN. by rewrite Hd.
Qed.

(** X26 on the address of a database. *)
Lemma MaskDSN_first_at_sample :
  configs.MaskDSN ("user:pass" +:+ "@" +:+ "tcp(localhost:3306)/wedding") =
    (if String.eqb "user:pass" "" then "***"
     else "***@" +:+ "tcp(localhost:3306)/wedding") /\
  configs.MaskDSN "no credentials here" = "***".
Proof.
  split.
  - apply (proj1 MaskDSN_first_at). reflexivity.
  - apply (proj2 MaskDSN_first_at). reflexivity.
Defined.

Lemma getEnv_not_empty (env : os.Environ) (key defaultValue : string) :
  defaultValue <> "" -> configs.getEnv env key defaultValue <> "".
Proof.
  intros Hd. unfold configs.getEnv.
  destruct (String.eqb_spec (os.Getenv env key) ""); simpl; assumption.
Qed.

(** X27.  [LoadEnv] returns only with a usable configuration; otherwise
    [log.Fatal] ends the process.  When it returns, the secret of the
    tokens is not empty; the address of the database has an at sign and
    the text ["tcp("]; the port, the environment and the mode of gin are
    not empty; and in the environment ["production"] the mode of gin is
    not ["debug"].  When the variable [ENV] of the process is
    ["production"], the file [.env] is not read: the outcome is the same
    whatever the file gives. *)
Theorem LoadEnv_loaded (env : os.Environ) (file : Result os.Environ) :
  (forall cfg log,
      configs.LoadEnv env file = (Some cfg, log) ->
      configs.JWT_SECRET cfg <> "" /\
      gostrings.Contains (configs.DATABASE_URL cfg) "@" = true /\
      gostrings.Contains (configs.DATABASE_URL cfg) "tcp(" = true /\
      configs.PORT cfg <> "" /\ configs.ENV cfg <> "" /\ configs.GIN_MODE cfg <> "" /\
      (configs.ENV cfg = "production" -> configs.GIN_MODE cfg <> "debug")) /\
  (os.Getenv env "ENV" = "production" ->
   forall file', configs.LoadEnv env file' = configs.LoadEnv env file).
Proof.
  split.
  - intros cfg log. unfold configs.LoadEnv.
    destruct (if negb _ then _ else _) as [env' log0].
    set (ENV := configs.getEnv env' "ENV" "development").
    set (PORT := configs.getEnv env' "PORT" "8080").
    set (GIN := configs.getEnv env' "GIN_MODE" "debug").
    assert (ENV <> "") as HENV by (by apply getEnv_not_empty).
    assert (PORT <> "") as HPORT by (by apply getEnv_not_empty).
    assert (GIN <> "") as HGIN by (by apply getEnv_not_empty).
    destruct (if String.eqb ENV "production" && String.eqb GIN "debug" then _ else _)
      as [GIN' log1] eqn:Hmode.
    assert (GIN' <> "" /\ (ENV = "production" -> GIN' <> "debug")) as [HGIN' Hprod].
    { destruct (String.eqb_spec ENV "production") as [He|He];
        destruct (String.eqb_spec GIN "debug") as [Hg|Hg];
        cbn [andb] in Hmode; injection Hmode as <- <-;
        split; try assumption; try discriminate; try (intros; assumption).
      intros Hc. contradiction. }
    destruct (String.eqb (os.Getenv env' "DATABASE_URL") ""); [discriminate |].
    destruct (gostrings.Contains (os.Getenv env' "DATABASE_URL") "@") eqn:Hat;
      [| discriminate].
    destruct (gostrings.Contains (os.Getenv env' "DATABASE_URL") "tcp(") eqn:Htcp;
      [| discriminate].
    cbn [negb orb].
    destruct (Nat.eqb_spec (len (os.Getenv env' "JWT_SECRET")) 0) as [|Hs]; [discriminate |].
    destruct (configs.getEnvInt env' "MAX_DB_CONNS" 100) as [m l1].
    destruct (configs.getEnvInt env' "READ_TIMEOUT_SECS" 30) as [r l2].
    destruct (configs.getEnvInt env' "WRITE_TIMEOUT_SECS" 30) as [wt l3].
    intros [= <- _]. cbn [configs.JWT_SECRET configs.DATABASE_URL configs.PORT
                          configs.ENV configs.GIN_MODE].
    repeat split; try assumption.
    intros He. rewrite He in Hs. by destruct Hs.
  - intros Hprod file'. unfold configs.LoadEnv. rewrite Hprod. reflexivity.
Qed.

(* ===================================================================== *)
(** * The connection to the database *)
(* ===================================================================== *)

(** The time that [ConnectDB] waits after the failure of the attempt
    number [i], counted from 0. *)
Definition waitTime (i : nat) : time.Duration := (Z.of_nat i + 1) * 2 * time.Second.

Definition total (l : list Z) : Z := fold_right Z.add 0 l.

(** The line that [ConnectDB] logs after the failure of the attempt number
    [i]. *)
Definition failure_line (dsn : string) (maxRetries i : nat) : string :=
  "⚠️  Tentativa " +:+ Sprintf_d_int (Z.of_nat i + 1) +:+ "/" +:+
  Sprintf_d_int (Z.of_nat maxRetries) +:+ " falhou. Aguardando " +:+
  Sprintf_d_int ((Z.of_nat i + 1) * 2 * time.Second / time.Second) +:+
  "s... (DSN: " +:+ configs.MaskDSN dsn +:+ ")".

Lemma failure_line_masked (dsn : string) (maxRetries i : nat) :
  exists text,
    failure_line dsn maxRetries i = text +:+ "(DSN: " +:+ configs.MaskDSN dsn +:+ ")".
Proof.
  unfold failure_line.
  exists ("⚠️  Tentativa " +:+ Sprintf_d_int (Z.of_nat i + 1) +:+ "/" +:+
          Sprintf_d_int (Z.of_nat maxRetries) +:+ " falhou. Aguardando " +:+
          Sprintf_d_int ((Z.of_nat i + 1) * 2 * time.Second / time.Second) +:+ "s... ").
  rewrite !append_assoc. reflexivity.
Qed.

(** The loop of [ConnectDB]: it stops at the first attempt that succeeds,
    and otherwise when the turns are used up, with the error of the last
    attempt. *)
Lemma connect_spec (o : database.Outside) (dsn : string) (maxRetries fuel i : nat)
      (err0 : option error) :
  exists k log,
    (k <= fuel)%nat /\
    (forall j, (j < k)%nat -> database.Open o (i + j) <> None) /\
    length log = k /\
    (forall line, In line log ->
       exists text, line = text +:+ "(DSN: " +:+ configs.MaskDSN dsn +:+ ")") /\
    ((k < fuel)%nat /\ database.Open o (i + k) = None /\
     database.connect o dsn maxRetries fuel i err0 = (None, log, map waitTime (seq i k))
     \/
     k = fuel /\
     database.connect o dsn maxRetries fuel i err0 =
       (match k with O => err0 | S k' => database.Open o (i + k') end,
        log, map waitTime (seq i k))).
Proof.
  revert i err0. induction fuel as [|fuel IH]; intros i err0.
  - exists 0%nat, []. split; [lia |]. split; [intros j Hj; lia |].
    split; [reflexivity |]. split; [intros line [] |]. right. split; reflexivity.
  - cbn [database.connect].
    destruct (database.Open o i) as [e|] eqn:Ho.
    + destruct (IH (S i) (Some e)) as (k & log & Hk & Hfail & Hlen & Hmask & Hres).
      exists (S k), (failure_line dsn maxRetries i :: log). split; [lia |]. split.
      { intros [|j] Hj; [rewrite Nat.add_0_r, Ho; discriminate |].
        rewrite <- Nat.add_succ_comm. apply Hfail. lia. }
      split; [simpl; by rewrite Hlen |]. split.
      { intros line [<-|Hin]; [apply failure_line_masked | by apply Hmask]. }
      destruct Hres as [(Hlt & Hstop & ->)|(-> & ->)].
      * left. split; [lia |]. split; [by rewrite <- Nat.add_succ_comm |]. reflexivity.
      * right. split; [reflexivity |]. cbn [seq map]. f_equal. f_equal.
        destruct fuel as [|fuel']; [by rewrite Nat.add_0_r |].
        by rewrite <- Nat.add_succ_comm.
    + exists 0%nat, []. split; [lia |]. split; [intros j Hj; lia |].
      split; [reflexivity |]. split; [intros line [] |].
      left. split; [lia |]. split; [by rewrite Nat.add_0_r |]. reflexivity.
Qed.

Lemma total_waitTime (k : nat) :
  (k <= 5)%nat -> 0 <= total (map waitTime (seq 0 k)) <= 30 * time.Second.
Proof.
  intros Hk. do 6 (destruct k as [|k]; [vm_compute; split; discriminate |]). lia.
Qed.

(** X28.  [ConnectDB] tries at most 5 times and waits at most 30 seconds
    in all.  For an address that is not empty there is a number [k] of
    attempts that failed, at most 5: the attempts 0 to [k - 1] failed, and
    after the failure of the attempt [i] the function slept for
    [2 * (i + 1)] seconds; with [k < 5] the attempt [k] succeeded and no
    further attempt was made; with [k = 5] the result is an error that
    wraps the error of the last attempt.  The result is no error exactly
    when an attempt succeeded and neither [DB.DB()] nor the ping failed.
    Every line logged for a failure ends with the address masked by
    [MaskDSN]. *)
Theorem ConnectDB_retries (dsn : string) (o : database.Outside) :
  dsn <> "" ->
  exists k log,
    (k <= 5)%nat /\
    (forall j, (j < k)%nat -> database.Open o j <> None) /\
    ((k < 5)%nat -> database.Open o k = None) /\
    (database.ConnectDB dsn o).2 = map waitTime (seq 0 k) /\
    0 <= total (database.ConnectDB dsn o).2 <= 30 * time.Second /\
    (k = 5%nat ->
     exists e, database.Open o 4 = Some e /\
               (database.ConnectDB dsn o).1.1 =
                 Some (database.Errorf_w "falha ao conectar após 5 tentativas" e)) /\
    ((database.ConnectDB dsn o).1.1 = None <->
     (k < 5)%nat /\ database.DB_DB o = None /\ database.PingContext o = None) /\
    length log = k /\
    (forall line, In line log ->
       exists text, line = text +:+ "(DSN: " +:+ configs.MaskDSN dsn +:+ ")") /\
    (exists rest, (database.ConnectDB dsn o).1.2 = log ++ rest).
Proof.
  intros Hdsn. unfold database.ConnectDB.
  apply String.eqb_neq in Hdsn. rewrite Hdsn.
  destruct (connect_spec o dsn 5 5 0 None) as (k & log & Hk & Hfail & Hlen & Hmask & Hres).
  exists k, log. split; [exact Hk |]. split; [exact Hfail |].
  destruct Hres as [(Hlt & Hstop & ->)|(-> & ->)].
  - split; [auto |].
    destruct (database.DB_DB o) as [e1|] eqn:H1;
      [| destruct (database.PingContext o) as [e2|] eqn:H2];
      cbn [fst snd];
      (split; [reflexivity |]); (split; [by apply total_waitTime |]);
      (split; [intros ->; lia |]);
      (split; [split; [try discriminate; auto | try (intros (_ & ? & ?); discriminate); auto] |]);
      (split; [exact Hlen |]); (split; [exact Hmask |]);
      eexists; try (rewrite app_nil_r; reflexivity); reflexivity.
  - split; [intros; lia |]. cbn [Nat.add].
    specialize (Hfail 4%nat ltac:(lia)). cbn [Nat.add] in Hfail.
    destruct (database.Open o 4) as [e|]; [| by destruct Hfail].
    cbn [fst snd]. split; [reflexivity |]. split; [by apply total_waitTime |].
    split; [intros _; eauto |].
    split; [split; [discriminate | intros [? _]; lia] |].
    split; [exact Hlen |]. split; [exact Hmask |].
    exists []. by rewrite app_nil_r.
Qed.

(** The database refuses the first two connections. *)
Definition flaky : database.Outside :=
  {| database.Open := fun i => if (i <? 2)%nat then Some (errors.opaque "refused") else None;
     database.DB_DB := None;
     database.PingContext := None |}.

(** X28 with [flaky]: two failures, 2 and 4 seconds of waiting, and no
    error. *)
Lemma ConnectDB_retries_flaky :
  (database.ConnectDB "user:pass@tcp(db:3306)/wedding" flaky).2 =
    [2 * time.Second; 4 * time.Second] /\
  (database.ConnectDB "user:pass@tcp(db:3306)/wedding" flaky).1.1 = None /\
  0 <= total (database.ConnectDB "user:pass@tcp(db:3306)/wedding" flaky).2 <=
    30 * time.Second.
Proof.
  destruct (ConnectDB_retries "user:pass@tcp(db:3306)/wedding" flaky)
    as (k & log & _ & _ & _ & _ & Htotal & _).
  - discriminate.
  - split; [vm_compute; reflexivity |]. split; [vm_compute; reflexivity | exact Htotal].
Defined.
